(** * graph-js: tick scales, grid geometry, spline control points and legend layout

    A shallow embedding of the computational core of the charting library:
    [utils/arrays], [utils/assert], [core/axis], [core/drawing], the geometry
    part of [BasicGraph] and [legend/manager].

    Conventions of the embedding
    - A JavaScript number is an exact rational ([Q]); comparisons, [Math.min],
      [Math.max], [Math.floor] and [Math.round] are the exact ones.  Rounding
      error of IEEE doubles is outside the model.
    - [undefined] is [None]; reading an array out of range is [None].
    - Code that can raise or that writes to the console or to the canvas
      context runs in the monad [M]: a state [World] is threaded and a
      computation ends with [Returned v] or [Thrown msg].
    - Classes become records, constructors become functions named [new]. *)

From Stdlib Require Import ZArith QArith Qround Qabs List String Ascii Bool Lia Lqa.
From Stdlib Require Import DecimalString DecimalZ.
Import ListNotations.

Set Implicit Arguments.

Open Scope string_scope.
Open Scope list_scope.

(* ================================================================== *)
(** * JavaScript values and built-ins *)

Module Js.

Local Open Scope Q_scope.

Definition Qlt_bool (a b : Q) : bool := negb (Qle_bool b a).

(** [Math.max(a, b)] and [Math.min(a, b)] on two finite numbers. *)
Definition Math_max (a b : Q) : Q := if Qle_bool a b then b else a.
Definition Math_min (a b : Q) : Q := if Qle_bool a b then a else b.

(** [Math.floor], [Math.round] (which rounds halves up) and [Math.abs]. *)
Definition Math_floor (x : Q) : Z := Qfloor x.
Definition Math_round (x : Q) : Z := Qfloor (x + (1 # 2)).
Definition Math_abs (x : Q) : Q := Qabs x.

(** [x % 1]: the remainder keeps the sign of [x]. *)
Definition rem1 (x : Q) : Q := x - inject_Z (Z.quot (Qnum x) (Zpos (Qden x))).

(** [data[i]] for an integer index. *)
Definition idx {A : Type} (data : list A) (i : Z) : option A :=
  if (i <? 0)%Z then None else nth_error data (Z.to_nat i).

(** [data.length]. *)
Definition len {A : Type} (data : list A) : Z := Z.of_nat (List.length data).

(** [x ?? d]. *)
Definition nullish {A : Type} (x : option A) (d : A) : A :=
  match x with Some v => v | None => d end.

(** ** [Number.prototype.toString]

    Integers print as their decimal numeral.  Any other rational prints as
    sign, integer part, a dot and at most seventeen fractional digits. *)

Definition Z_toString (z : Z) : string := NilZero.string_of_int (Z.to_int z).

Fixpoint fracDigits (fuel : nat) (r : Z) (d : Z) : string :=
  match fuel with
  | O => EmptyString
  | S n =>
      if (r =? 0)%Z then EmptyString
      else let r10 := (r * 10)%Z in
           append (Z_toString (r10 / d)) (fracDigits n (r10 mod d) d)
  end.

Definition Number_toString (q : Q) : string :=
  let r := Qred q in
  let n := Qnum r in
  let d := Zpos (Qden r) in
  if (d =? 1)%Z then Z_toString n
  else
    let a := Z.abs n in
    append (if (n <? 0)%Z then "-" else "")
      (append (Z_toString (a / d))
         (String "." (fracDigits 17 (a mod d) d))).

(** ** [parseInt(s, 10)] and [substr]

    A string is read as its sequence of characters with codes below 256;
    [NaN] is [None]. *)

(** [s.substr(0, n)]. *)
Definition substr0 (s : string) (n : nat) : string := String.substring 0 n s.

(** The white space [parseInt] skips: tab, line feed, vertical tab, form
    feed, carriage return, space and no-break space. *)
Definition isWhiteSpace (c : ascii) : bool :=
  let n := nat_of_ascii c in
  Nat.eqb n 9 || Nat.eqb n 10 || Nat.eqb n 11 || Nat.eqb n 12 || Nat.eqb n 13
  || Nat.eqb n 32 || Nat.eqb n 160.

Definition digitValue (c : ascii) : option Z :=
  let n := nat_of_ascii c in
  if Nat.leb 48 n && Nat.leb n 57 then Some (Z.of_nat (n - 48)) else None.

Fixpoint trimStart (s : string) : string :=
  match s with
  | String c rest => if isWhiteSpace c then trimStart rest else s
  | EmptyString => s
  end.

(** The decimal digits at the start of [s], read on top of [acc]; the
    answer is [NaN] when there is no digit, none having been [seen] either. *)
Fixpoint digits (s : string) (acc : Z) (seen : bool) : option Z :=
  match s with
  | String c rest =>
      match digitValue c with
      | Some d => digits rest (10 * acc + d) true
      | None => if seen then Some acc else None
      end
  | EmptyString => if seen then Some acc else None
  end.

Definition parseInt10 (s : string) : option Z :=
  match trimStart s with
  | String c rest =>
      if Ascii.eqb c "-" then option_map Z.opp (digits rest 0 false)
      else if Ascii.eqb c "+" then digits rest 0 false
      else digits (String c rest) 0 false
  | EmptyString => None
  end.

End Js.

(* ================================================================== *)
(** * Effects: console, canvas context, exceptions *)

Module Effects.

(** The calls the library issues on the 2D context. *)
Inductive CtxCall : Type :=
| BeginPath
| ClosePath
| MoveTo (x y : Q)
| LineTo (x y : Q)
| Arc (x y rad : Q)              (* arc(x, y, rad, 0, TWO_PI) *)
| Fill
| Stroke
| FillText (text : string) (x y : Q)
| StrokeRect (x y w h : Q)
| FillRect (x y w h : Q)
| BezierCurveTo (c1x c1y c2x c2y x y : Q)
| QuadraticCurveTo (cx cy x y : Q)
| SetLineDash (dash : list Q).

(** The properties of the context the modelled code assigns. *)
Record Context : Type := {
  strokeStyle : string;
  fillStyle : string;
  globalAlpha : Q;
  lineWidth : Q;
  textAlign : string;
  font : string;
  calls : list CtxCall            (* most recent call last *)
}.

Record Canvas : Type := { width : Q; height : Q }.

(** [config.bypassOutOfBoundsDrawing] is the only key of the configuration
    module the modelled code reads. *)
Record Config : Type := { bypassOutOfBoundsDrawing : bool }.

Record World : Type := {
  config : Config;
  console : list string;          (* console.warn, most recent last *)
  ctx : Context
}.

Inductive Outcome (A : Type) : Type :=
| Returned (a : A)
| Thrown (message : string).
Arguments Thrown {A} message.

Definition M (A : Type) : Type := World -> World * Outcome A.

Definition ret {A} (a : A) : M A := fun w => (w, Returned a).

Definition bind {A B} (m : M A) (k : A -> M B) : M B :=
  fun w =>
    match m w with
    | (w', Returned a) => k a w'
    | (w', Thrown e) => (w', Thrown e)
    end.

Definition throw {A} (message : string) : M A := fun w => (w, Thrown message).

Definition getConfig : M Config := fun w => (w, Returned (config w)).
Definition getCtx : M Context := fun w => (w, Returned (ctx w)).

(** The world after one more line on the console. *)
Definition warned (w : World) (message : string) : World :=
  {| config := config w; console := console w ++ [message]; ctx := ctx w |}.

Definition console_warn (message : string) : M unit :=
  fun w => (warned w message, Returned tt).

Definition modifyCtx (f : Context -> Context) : M unit :=
  fun w =>
    ({| config := config w; console := console w; ctx := f (ctx w) |},
     Returned tt).

Definition call (c : CtxCall) : M unit :=
  modifyCtx (fun x =>
    {| strokeStyle := strokeStyle x; fillStyle := fillStyle x;
       globalAlpha := globalAlpha x; lineWidth := lineWidth x;
       textAlign := textAlign x; font := font x;
       calls := calls x ++ [c] |}).

(** The value a computation returns from a given world, if it returns. *)
Definition valueOf {A} (m : M A) (w : World) : option A :=
  match snd (m w) with Returned a => Some a | Thrown _ => None end.

End Effects.

Import Effects.

Declare Scope js_scope.
Delimit Scope js_scope with js.
Notation "x <- m ;; k" := (bind m (fun x => k))
  (at level 61, m at next level, right associativity) : js_scope.
Notation "m ;; k" := (bind m (fun _ => k))
  (at level 61, right associativity) : js_scope.
Open Scope js_scope.

(* ================================================================== *)
(** * utils/assert *)

Module Assert.

(** [assert(condition, message)]: a failed assertion throws, unless
    [config.bypassOutOfBoundsDrawing] is set, in which case it only warns.
    An omitted message prints as [undefined] in the template literal. *)
Definition assert (condition : bool) (message : option string) : M unit :=
  if negb condition then
    let assertMessage :=
      append "Assertion failed: " (Js.nullish message "undefined") in
    cfg <- getConfig ;;
    if bypassOutOfBoundsDrawing cfg then console_warn assertMessage
    else throw assertMessage
  else ret tt.

End Assert.

(* ================================================================== *)
(** * utils/arrays *)

Module Arrays.

Local Open Scope Q_scope.

(** [fillRange(max)] is [Array.from(Array(max).keys())]: [Array(max)] raises a
    [RangeError] unless [max] is an integer in [0, 2^32 - 1]. *)
Definition fillRange (max : Q) : M (list Z) :=
  let n := Qfloor max in
  if Qeq_bool (inject_Z n) max && (0 <=? n)%Z && (n <=? 4294967295)%Z
  then ret (map Z.of_nat (seq 0 (Z.to_nat n)))
  else throw "RangeError: Invalid array length".

(** [getPrevious(index, data)] and [getNext(index, data)]. *)
Definition getPrevious {A} (index : Z) (data : list A) : option A :=
  if (index <=? 0)%Z then Js.idx data 0 else Js.idx data (index - 1).

Definition getNext {A} (index : Z) (data : list A) : option A :=
  if (index >=? Js.len data - 1)%Z then Js.idx data (Js.len data - 1)
  else Js.idx data (index + 1).

Definition negativeValues (array : list Q) : list Q :=
  filter (fun value => Js.Qlt_bool value 0) array.

Definition positiveAndZeroValues (array : list Q) : list Q :=
  filter (fun value => Qle_bool 0 value) array.

(** [getMax(arr)]: the loop runs from the last element down to the first and
    starts from [-Infinity], which is [None] here. *)
Definition getMax (arr : list Q) : option Q :=
  fold_right
    (fun v max =>
       match max with
       | None => Some v
       | Some m => if Js.Qlt_bool m v then Some v else Some m
       end)
    None arr.


(** [getMinMax(arr)]: both start from [arr[0]] and the loop runs from the last
    element down to the first.  On an empty array both are [undefined]. *)
Definition getMinMax (arr : list Q) : option Q * option Q :=
  match arr with
  | [] => (None, None)
  | a0 :: _ =>
      let r :=
        fold_right
          (fun v acc =>
             (if Js.Qlt_bool v (fst acc) then v else fst acc,
              if Js.Qlt_bool (snd acc) v then v else snd acc))
          (a0, a0) arr in
      (Some (fst r), Some (snd r))
  end.

(** [longest(arr)]: [reduce] without an initial value raises a [TypeError] on
    an empty array. *)
Definition longest (arr : list string) : M string :=
  match arr with
  | [] => throw "TypeError: Reduce of empty array with no initial value"
  | a0 :: rest =>
      ret (fold_left
             (fun a b => if (String.length b <? String.length a)%nat then a else b)
             rest a0)
  end.

(** The callback of the [reduce] in [longest], and the loop of [getMinMax]
    over [l] started from [(a0, a0)], under names of their own. *)
Definition longer (a b : string) : string :=
  if (String.length b <? String.length a)%nat then a else b.


(** Modelled from the spec: [arrays.sum], which the legend layout calls, is
    not part of the arrays module among the sources; it is the sum of the
    entries ("the summed per-entry spacing"). *)
Definition sum (arr : list Q) : Q := fold_left Qplus arr 0.

End Arrays.

(* ================================================================== *)
(** * core/scale *)

Module Scale.

Local Open Scope Q_scope.

(* The class [Scale] (core/scale) is imported by [core/axis] but is not among
   the sources.  Every definition of this module follows section 4.1 of the
   spec and the [Scale] entry of its data model.  The spec names a derived
   [range] without defining it; it is left out, and with it the [min]/[max]
   fields of [Axis] that copy it. *)

(** Modelled from the spec: the input of the absent [Scale] constructor,
    "min, max, tickCount, optional minimumScaleStep, optimiseTicks" and
    [isNegativeScale]; a field the caller leaves out is [None], and so is a
    [min] or [max] that is no finite number. *)
Record Options : Type := {
  min : option Q;
  max : option Q;
  tickCount : Q;
  minimumScaleStep : option Q;
  optimiseTicks : option bool;
  isNegativeScale : option bool;
  startAtZero : option bool
}.

(** Modelled from the spec: the derived state of the absent [Scale] class,
    "scaleStep, roundedMinimum"; the label list is derived on demand by
    [getScaleLabels]. *)
Record t : Type := {
  options : Options;
  scaleStep : Q;
  roundedMinimum : Q
}.

(** Modelled from the spec: the search for the power of ten of the absent
    "nice number" routine; brings a positive [f] into [1, 10), keeping
    [f * p] unchanged. *)
Fixpoint normalise (fuel : nat) (f p : Q) : Q * Q :=
  match fuel with
  | O => (f, p)
  | S n =>
      if Js.Qlt_bool f 1 then normalise n (f * 10) (p / 10)
      else if Qle_bool 10 f then normalise n (f / 10) (p * 10)
      else (f, p)
  end.

(** Modelled from the spec: the mantissas "{1,2,5,10}" of the absent nice
    number routine, rounding up. *)
Definition niceFraction (f : Q) : Q :=
  if Qle_bool f 1 then 1
  else if Qle_bool f 2 then 2
  else if Qle_bool f 5 then 5
  else 10.

(** [2 ^ n] as a number. *)
Definition pow2 (n : nat) : Q := inject_Z (2 ^ Z.of_nat n).

(** Steps that suffice for [normalise]: each one moves [r] by a factor of
    ten, and a positive [r] is within a factor [pow2 (fuelFor r)] of 1. *)
Definition fuelFor (r : Q) : nat :=
  (Z.to_nat (Z.log2 (Z.abs (Qnum r))) + Pos.to_nat (Pos.size (Qden r)) + 1)%nat.

(** Modelled from the spec: the absent nice number routine, "a step size
    from the sequence {1,2,5,10} x 10^k nearest to (max-min)/tickCount
    rounded up". *)
Definition niceNum (r : Q) : Q :=
  let (f, p) := normalise (fuelFor r) r 1 in niceFraction f * p.

(** Modelled from the spec: the extent the absent constructor works on; an
    empty data set ("DataError ... degrades to a single default tick") is
    the degenerate extent from 0 to 0. *)
Definition lowerBound (o : Options) : Q :=
  match min o, max o with
  | Some lo, Some _ => lo
  | _, _ => 0
  end.

Definition upperBound (o : Options) : Q :=
  match min o, max o with
  | Some _, Some hi => hi
  | _, _ => 0
  end.

(** Modelled from the spec: the step of the absent constructor.  "Degenerate
    case max == min: ... yielding step = minimumScaleStep ?? 1"; otherwise
    the nice number above [(max - min) / tickCount], "unless optimiseTicks is
    false, in which case the exact division is used unrounded";
    [minimumScaleStep] "forces a floor on the step". *)
Definition computeStep (o : Options) : Q :=
  let lo := lowerBound o in
  let hi := upperBound o in
  if Qeq_bool hi lo then Js.nullish (minimumScaleStep o) 1
  else
    let raw := (hi - lo) / tickCount o in
    let s := match optimiseTicks o with
             | Some false => raw
             | _ => niceNum raw
             end in
    match minimumScaleStep o with
    | Some m => Js.Math_max m s
    | None => s
    end.

(** Modelled from the spec: [roundedMinimum] of the absent constructor,
    "floor(min/step)*step unless the caller requests start-at-zero, in which
    case it is 0". *)
Definition computeRoundedMinimum (o : Options) (step : Q) : Q :=
  if Js.nullish (startAtZero o) false then 0
  else inject_Z (Js.Math_floor (lowerBound o / step)) * step.

Definition build (o : Options) : t :=
  let step := computeStep o in
  {| options := o; scaleStep := step;
     roundedMinimum := computeRoundedMinimum o step |}.

(** Modelled from the spec: the absent constructor, "tickCount (integer > 0,
    else fails with ConfigError)". *)
Definition new (o : Options) : M t :=
  if Qle_bool (tickCount o) 0
  then throw "ConfigError: tick count must be greater than zero"
  else ret (build o).

(** Modelled from the spec: the absent accessors [getScaleStep()] and
    [getTickCount()]. *)
Definition getScaleStep (s : t) : Q := scaleStep s.
Definition getTickCount (s : t) : Q := tickCount (options s).

(** Modelled from the spec: the absent [setTickStep(step)], "setting both
    scales' step to max(positiveStep, negativeStep) and rebuilding both label
    sets with that common step"; the labels, derived on demand, follow the
    step. *)
Definition setTickStep (s : t) (step : Q) : t :=
  {| options := options s; scaleStep := step;
     roundedMinimum := roundedMinimum s |}.

(** The integers [i] with [0 <= i <= tickCount]. *)
Definition tickIndices (tc : Q) : list Z :=
  if Js.Qlt_bool tc 0 then []
  else map Z.of_nat (seq 0 (S (Z.to_nat (Qfloor tc)))).

(** Modelled from the spec: the values behind the labels of the absent
    [getScaleLabels()], "roundedMinimum + i*step for i in [0, tickCount]; for
    a negative-scale instance, values are negated and returned in
    descending-toward-zero order". *)
Definition labelValues (s : t) : list Q :=
  let vs := map (fun i => roundedMinimum s + inject_Z i * scaleStep s)
                (tickIndices (getTickCount s)) in
  if Js.nullish (isNegativeScale (options s)) false
  then rev (map Qopp vs)
  else vs.

(** Modelled from the spec: the absent [getScaleLabels()], "the ordered
    sequence of stringified values".  The two flags the negative call site of
    [Axis] passes are not described by the spec and have no counterpart
    here. *)
Definition getScaleLabels (s : t) : list string :=
  map Js.Number_toString (labelValues s).

End Scale.

(* ================================================================== *)
(** * core/axis-manager *)

Module AxisManager.

Local Open Scope Q_scope.

(** What an [Axis] reads from its manager and, through it, from the graph:
    [manager.data], [manager.negativeScale] and
    [graph.dataManager.maxLen()].  The samples are finite numbers. *)
Record t : Type := {
  data : list Q;
  negativeScale : bool;
  maxLen : Z
}.

(** Modelled from the spec: the class [AxisManager] (core/axis-manager) is
    not among the sources; it "detects negativeScale = any(yData < 0)". *)
Definition detectNegativeScale (yData : list Q) : bool :=
  existsb (fun v => Js.Qlt_bool v 0) yData.

Definition new (yData : list Q) (maxLen : Z) : t :=
  {| data := yData; negativeScale := detectNegativeScale yData;
     maxLen := maxLen |}.

End AxisManager.

(* ================================================================== *)
(** * core/axis *)

Module Axis.

Local Open Scope Q_scope.

Definition X_AXIS : string := "x-axis".
Definition Y_AXIS : string := "y-axis".

(** [options.scale.x] / [options.scale.y] as far as the axis reads them.
    The tick count is an integer, as the configuration has it. *)
Record Options : Type := {
  ticks : Z;
  optimiseTicks : option bool;
  tickLabels : option (list string);
  drawLabels : bool
}.

Record t : Type := {
  manager : AxisManager.t;
  type : string;
  options : Options;
  scaleStep : Q;
  positveScale : option Scale.t;      (* null until _computeAxisScale *)
  negativeScale : option Scale.t;
  start : option Q;
  scaleLabels : list string
}.

Definition set_scales (a : t) (step : Q) (pos neg : option Scale.t)
    (st : option Q) : t :=
  {| manager := manager a; type := type a; options := options a;
     scaleStep := step; positveScale := pos; negativeScale := neg;
     start := st; scaleLabels := scaleLabels a |}.

Definition set_scaleLabels (a : t) (labels : list string) : t :=
  {| manager := manager a; type := type a; options := options a;
     scaleStep := scaleStep a; positveScale := positveScale a;
     negativeScale := negativeScale a; start := start a;
     scaleLabels := labels |}.

Definition halfTicks (o : Options) : Q := inject_Z (ticks o) / 2.

Definition xScaleOptions (a : t) : Scale.Options :=
  {| Scale.min := Some 0;
     Scale.max := Some (inject_Z (AxisManager.maxLen (manager a) - 1));
     Scale.tickCount := inject_Z (ticks (options a) - 1);
     Scale.minimumScaleStep := Some 1;
     Scale.optimiseTicks := optimiseTicks (options a);
     Scale.isNegativeScale := None;
     Scale.startAtZero := None |}.

Definition negativeScaleOptions (a : t) : Scale.Options :=
  let negativeDataSet :=
    map Js.Math_abs (Arrays.negativeValues (AxisManager.data (manager a))) in
  {| Scale.min := Some 0;
     Scale.max := Arrays.getMax negativeDataSet;
     Scale.tickCount := halfTicks (options a);
     Scale.minimumScaleStep := None;
     Scale.optimiseTicks := None;
     Scale.isNegativeScale := Some true;
     Scale.startAtZero := None |}.

Definition positiveScaleOptions (a : t) : Scale.Options :=
  let positiveValues :=
    Arrays.positiveAndZeroValues (AxisManager.data (manager a)) in
  let mm := Arrays.getMinMax positiveValues in
  {| Scale.min := fst mm;
     Scale.max := snd mm;
     Scale.tickCount :=
       if AxisManager.negativeScale (manager a)
       then halfTicks (options a)
       else inject_Z (ticks (options a));
     Scale.minimumScaleStep := None;
     Scale.optimiseTicks := None;
     Scale.isNegativeScale := None;
     Scale.startAtZero := None |}.

Definition nullDeref {A} : M A :=
  throw "TypeError: Cannot read properties of null".

Definition _computeAxisScale (a : t) : M t :=
  if String.eqb (type a) X_AXIS then
    pos <- Scale.new (xScaleOptions a) ;;
    ret (set_scales a (Scale.getScaleStep pos) (Some pos) (negativeScale a)
           (start a))
  else if String.eqb (type a) Y_AXIS then
    neg <- (if AxisManager.negativeScale (manager a)
            then n <- Scale.new (negativeScaleOptions a) ;; ret (Some n)
            else ret (negativeScale a)) ;;
    pos <- Scale.new (positiveScaleOptions a) ;;
    if AxisManager.negativeScale (manager a) then
      match neg with
      | Some n =>
          let step := Js.Math_max (Scale.getScaleStep pos)
                                  (Scale.getScaleStep n) in
          ret (set_scales a step
                 (Some (Scale.setTickStep pos step))
                 (Some (Scale.setTickStep n step))
                 (Some 0))
      | None => nullDeref
      end
    else
      ret (set_scales a (Scale.getScaleStep pos) (Some pos) neg
             (Some (Scale.roundedMinimum pos)))
  else throw (append "Graphika: Unrecognised Axis type '"
                (append (type a) "'")).

(** [labels[labels.length - 1]]. *)
Definition lastLabel (labels : list string) : option string :=
  Js.idx labels (Js.len labels - 1).

(** [tickLabels[index % tickLabels.length]]; with no label to cycle through
    the entry is [undefined], which prints as such. *)
Definition cycled (tickLabels : list string) (index : nat) : string :=
  match tickLabels with
  | [] => "undefined"
  | _ => nth (index mod List.length tickLabels) tickLabels "undefined"
  end.

Definition generateScaleNumbers (a : t) : M t :=
  match positveScale a with
  | None => nullDeref
  | Some pos =>
      if String.eqb (type a) X_AXIS then
        match tickLabels (options a), drawLabels (options a) with
        | Some custom, true =>
            Assert.assert (0 <? Js.len custom)%Z None ;;
            ret (set_scaleLabels a
                   (map (fun index => cycled custom index)
                        (seq 0 (List.length (Scale.getScaleLabels pos)))))
        | _, _ =>
            xs <- Arrays.fillRange (Scale.getTickCount pos + 1) ;;
            ret (set_scaleLabels a
                   (map (fun x => Js.Number_toString
                                    (Scale.scaleStep pos * inject_Z x)) xs))
        end
      else
        if AxisManager.negativeScale (manager a) then
          match negativeScale a with
          | None => nullDeref
          | Some neg =>
              let labels := Scale.getScaleLabels neg in
              let labels :=
                if match lastLabel labels with
                   | Some l => String.eqb l "0"
                   | None => false
                   end
                   && existsb (String.eqb "0") (Scale.getScaleLabels pos)
                then removelast labels
                else labels in
              ret (set_scaleLabels a (labels ++ Scale.getScaleLabels pos))
          end
        else ret (set_scaleLabels a (Scale.getScaleLabels pos))
  end.

Definition typeMessage (type : string) : string :=
  append type " cannot have zero or negative tick count".

(** The fields as the constructor first assigns them. *)
Definition initial (manager : AxisManager.t) (type : string) (options : Options)
  : t :=
  {| manager := manager; type := type; options := options;
     scaleStep := 0; positveScale := None; negativeScale := None;
     start := None; scaleLabels := [] |}.

(** The two calls that end the constructor. *)
Definition computeAndGenerate (this : t) : M t :=
  this <- _computeAxisScale this ;;
  generateScaleNumbers this.

Definition new (manager : AxisManager.t) (type : string) (options : Options)
  : M t :=
  let this := initial manager type options in
  Assert.assert (0 <? ticks options)%Z (Some (typeMessage type)) ;;
  computeAndGenerate this.

End Axis.

(* ================================================================== *)
(** * core/drawing *)

Module Drawer.

Local Open Scope Q_scope.

Record t : Type := {
  canvas : Canvas;
  labelFont : string                  (* options.labelFont *)
}.

Definition inRange (v lo hi : Q) : bool := Qle_bool lo v && Qle_bool v hi.

Definition _coordinateSafetyCheck (d : t) (x y : Q) : M unit :=
  Assert.assert (inRange x 0 (width (canvas d)))
    (Some "Drawer request failed since x-coordinate is out of bounds") ;;
  Assert.assert (inRange y 0 (height (canvas d)))
    (Some "Drawer request failed since y-coordinate is out of bounds").

Definition circle (d : t) (x y rad : Q) : M unit :=
  _coordinateSafetyCheck d x y ;;
  call BeginPath ;;
  call (Arc x y rad) ;;
  call Fill ;;
  call ClosePath.

Definition horizontalLine (d : t) (x y len : Q) : M unit :=
  _coordinateSafetyCheck d x y ;;
  Assert.assert (inRange (x + len) 0 (width (canvas d))) None ;;
  call BeginPath ;;
  call (MoveTo x y) ;;
  call (LineTo (x + len) y) ;;
  call Stroke ;;
  call ClosePath.

(** The end of a vertical line is compared with the canvas width, as in the
    source. *)
Definition verticalLine (d : t) (x y len : Q) : M unit :=
  _coordinateSafetyCheck d x y ;;
  Assert.assert (inRange (y + len) 0 (width (canvas d))) None ;;
  call BeginPath ;;
  call (MoveTo x y) ;;
  call (LineTo x (y + len)) ;;
  call Stroke ;;
  call ClosePath.

(** Assigning [undefined] to a style or to [textAlign] leaves it as it is. *)
Definition toTextMode (d : t) (size : Q) (colour alignment : option string)
  : M unit :=
  modifyCtx (fun c =>
    {| strokeStyle := Js.nullish colour (strokeStyle c);
       fillStyle := Js.nullish colour (fillStyle c);
       globalAlpha := 1;
       lineWidth := lineWidth c;
       textAlign := Js.nullish alignment (textAlign c);
       font := append (Js.Number_toString size) (append "px " (labelFont d));
       calls := calls c |}).

Definition setStrokeStyle (colour : string) : M unit :=
  modifyCtx (fun c =>
    {| strokeStyle := colour; fillStyle := fillStyle c;
       globalAlpha := globalAlpha c; lineWidth := lineWidth c;
       textAlign := textAlign c; font := font c; calls := calls c |}).

(** [text(text, x, y, size, colour, alignment = "center")]. *)
Definition text (d : t) (text : string) (x y size : Q) (colour : option string)
    (alignment : option string) : M unit :=
  _coordinateSafetyCheck d x y ;;
  c <- getCtx ;;
  let oldColour := strokeStyle c in
  toTextMode d size colour (Some (Js.nullish alignment "center")) ;;
  call (FillText text x y) ;;
  setStrokeStyle oldColour.

(** The four primitives under one name, to state properties of all of them. *)
Inductive Primitive : Type :=
| Circle (rad : Q)
| HorizontalLine (len : Q)
| VerticalLine (len : Q)
| Text (text : string) (size : Q) (colour alignment : option string).

Definition draw (d : t) (p : Primitive) (x y : Q) : M unit :=
  match p with
  | Circle rad => circle d x y rad
  | HorizontalLine len => horizontalLine d x y len
  | VerticalLine len => verticalLine d x y len
  | Text s size colour alignment => text d s x y size colour alignment
  end.

(** The canvas calls a primitive consists of, once its checks are passed. *)
Definition callsOf (p : Primitive) (x y : Q) : list CtxCall :=
  match p with
  | Circle rad => [BeginPath; Arc x y rad; Fill; ClosePath]
  | HorizontalLine len =>
      [BeginPath; MoveTo x y; LineTo (x + len) y; Stroke; ClosePath]
  | VerticalLine len =>
      [BeginPath; MoveTo x y; LineTo x (y + len); Stroke; ClosePath]
  | Text s _ _ _ => [FillText s x y]
  end.

(** [(x, y)] lies outside the canvas. *)
Definition outOfBounds (d : t) (x y : Q) : bool :=
  negb (inRange x 0 (width (canvas d))) || negb (inRange y 0 (height (canvas d))).

(** The check a primitive makes after [_coordinateSafetyCheck]: the lines
    check their end point, both against [canvas.width]. *)
Definition endCheck (d : t) (p : Primitive) (x y : Q) : bool :=
  match p with
  | HorizontalLine len => inRange (x + len) 0 (width (canvas d))
  | VerticalLine len => inRange (y + len) 0 (width (canvas d))
  | Circle _ | Text _ _ _ _ => true
  end.

(** How many of the checks of a primitive fail at [(x, y)]. *)
Definition failedChecks (d : t) (p : Primitive) (x y : Q) : nat :=
  ((if inRange x 0 (width (canvas d)) then 0 else 1)
   + (if inRange y 0 (height (canvas d)) then 0 else 1)
   + (if endCheck d p x y then 0 else 1))%nat.

End Drawer.

(* ================================================================== *)
(** * BasicGraph: plot geometry *)

Module BasicGraph.

Local Open Scope Q_scope.

Record GridOptions : Type := {
  gridded : bool;
  optimiseSquareSize : bool;
  sharedAxisZero : bool;
  strict : bool
}.

Record TitleOptions : Type := { title_draw : bool; title_fontSize : Q }.

Record LegendOptions : Type := {
  legend_draw : bool;
  legend_position : option string;
  legend_alignment : option string
}.

Record Options : Type := {
  debug : bool;
  labelFontSize : Q;
  options_padding : Q;
  title : TitleOptions;
  grid : GridOptions;
  legend : LegendOptions
}.

Record Padding : Type := { top : Q; left : Q; right : Q; bottom : Q; textPadding : Q }.

Record Lengths : Type := {
  x_begin : Q; y_begin : Q; x_end : Q; y_end : Q; x_center : Q; y_center : Q
}.

Record GridRectSize : Type := { x : Q; y : Q }.

(** The graph as far as geometry goes.  [xLabels] and [yLabels] are
    [axisManager.xAxis.scaleLabels] and [axisManager.yAxis.scaleLabels]. *)
Record t : Type := {
  options : Options;
  canvas : Canvas;
  drawer : Drawer.t;
  xLabels : list string;
  yLabels : list string;
  padding : Padding;
  xLength : Q;
  yLength : Q;
  gridRectSize : GridRectSize;
  lengths : Lengths
}.

Definition set_geometry (g : t) (p : Padding) (xl yl : Q) (r : GridRectSize)
    (l : Lengths) : t :=
  {| options := options g; canvas := canvas g; drawer := drawer g;
     xLabels := xLabels g; yLabels := yLabels g;
     padding := p; xLength := xl; yLength := yl; gridRectSize := r;
     lengths := l |}.

Definition calculateLengths (g : t) : t :=
  let xl := width (canvas g)
            - (right (padding g) + left (padding g) + labelFontSize (options g)) in
  let yl := height (canvas g)
            - (top (padding g) + bottom (padding g) + labelFontSize (options g)) in
  set_geometry g (padding g) xl yl (gridRectSize g)
    {| x_begin := left (padding g) + labelFontSize (options g);
       y_begin := top (padding g);
       x_end := width (Drawer.canvas (drawer g)) - right (padding g);
       y_end := height (Drawer.canvas (drawer g)) - bottom (padding g);
       x_center := left (padding g) + labelFontSize (options g) + xl / 2;
       y_center := top (padding g) + labelFontSize (options g) / 2 + yl / 2 |}.

(** The size of a grid cell before any adjustment: a length over the number
    of gaps between labels.  With a single label the source divides by zero,
    which has no counterpart here ([x / 0] is 0 in [Q]). *)
Definition rawGridRectSize (g : t) (xl yl : Q) : GridRectSize :=
  {| x := xl / inject_Z (Js.len (xLabels g) - 1);
     y := yl / inject_Z (Js.len (yLabels g) - 1) |}.

Definition applyStrict (g : t) (r : GridRectSize) : GridRectSize :=
  if strict (grid (options g)) then
    let gridRectLength := Js.Math_min (x r) (y r) in
    {| x := gridRectLength; y := gridRectLength |}
  else r.

(** The constructor from the point where the padding is known (after
    [calculatePadding], which needs the host's text measurement). *)
Definition constructor_geometry (g : t) : t :=
  let xl := width (canvas g)
            - (right (padding g) + left (padding g) + labelFontSize (options g)) in
  let yl := height (canvas g) - (top (padding g) + bottom (padding g)) in
  let r := applyStrict g (rawGridRectSize g xl yl) in
  calculateLengths (set_geometry g (padding g) xl yl r (lengths g)).

(** [Math.round(gridRectSize.x)], lowered by one when it rounds up beyond what
    the right padding can take. *)
Definition preferredSquareSize (g : t) : Q :=
  let size := x (gridRectSize g) in
  let preferred := inject_Z (Js.Math_round size) in
  let numberOfSquares := inject_Z (Js.len (xLabels g) - 1) in
  if Js.Qlt_bool size preferred
     && Js.Qlt_bool (right (padding g) - (preferred - size) * numberOfSquares) 0
  then preferred - 1
  else preferred.

(** The first block of [draw()]: snapping the x size of a cell to an integer. *)
Definition optimiseSquareSizePass (g : t) : t :=
  if optimiseSquareSize (grid (options g))
     && negb (Qeq_bool (Js.rem1 (x (gridRectSize g))) 0)
  then
    let preferred := preferredSquareSize g in
    let numberOfSquares := inject_Z (Js.len (xLabels g) - 1) in
    let r := {| x := preferred;
                y := if strict (grid (options g)) then preferred
                     else y (gridRectSize g) |} in
    let rightPadding :=
      width (canvas g) - (preferred * numberOfSquares + x_begin (lengths g)) in
    let p := {| top := top (padding g); left := left (padding g);
                right := rightPadding; bottom := bottom (padding g);
                textPadding := textPadding (padding g) |} in
    let xl := width (canvas g)
              - (rightPadding + left (padding g) + labelFontSize (options g)) in
    set_geometry g p xl (yLength g) r (lengths g)
  else g.

(** The geometry [draw()] settles before it renders anything. *)
Definition draw_geometry (g : t) : t :=
  let g := calculateLengths (optimiseSquareSizePass g) in
  set_geometry g (padding g) (xLength g)
    (inject_Z (Js.len (yLabels g) - 1) * y (gridRectSize g))
    (gridRectSize g) (lengths g).

(** [fontSize()]: the first two characters of [ctx.font], read as an
    integer. *)
Definition fontSize : M (option Z) :=
  c <- getCtx ;;
  ret (Js.parseInt10 (Js.substr0 (font c) 2)).

(** Whether [fontSize()] gives [n] back once the font has been set to
    [n] pixels; the font family, which comes after ["px "], plays no part. *)
Definition readsBack (n : nat) : bool :=
  match Js.parseInt10
          (Js.substr0 (append (Js.Z_toString (Z.of_nat n)) "px ") 2) with
  | Some v => Z.eqb v (Z.of_nat n)
  | None => false
  end.

(** What [determinePositionFromSetting] returns.  Its first branch spells
    the second key [alignement], so both keys are fields here and the one a
    branch does not set is [undefined]. *)
Record Positional : Type := {
  offset : Q;
  alignement : option string;
  alignment : option string
}.

Definition determinePositionFromSetting (g : t) (setting : string)
  : M (option Positional) :=
  if String.eqb setting "start" then
    ret (Some {| offset := x_begin (lengths g);
                 alignement := Some "left"; alignment := None |})
  else if String.eqb setting "center" then
    ret (Some {| offset := x_center (lengths g);
                 alignement := None; alignment := Some "center" |})
  else if String.eqb setting "end" then
    ret (Some {| offset := x_end (lengths g);
                 alignement := None; alignment := Some "right" |})
  else
    Assert.assert false
      (Some "Positional setting did not match any of the presets") ;;
    ret None.

(** [options.title.content], [.position] and [.colour]. *)
Record TitleText : Type := {
  title_content : string;
  title_position : string;
  title_colour : option string
}.

(** [ctx.restore()] after a [ctx.save()] that saw [saved]: the properties
    return to what they were, the calls made in between stay made. *)
Definition restore (saved : Context) : M unit :=
  modifyCtx (fun c =>
    {| strokeStyle := strokeStyle saved; fillStyle := fillStyle saved;
       globalAlpha := globalAlpha saved; lineWidth := lineWidth saved;
       textAlign := textAlign saved; font := font saved;
       calls := calls c |}).

(** The first block of [_drawLabels()]: the title.  Destructuring the
    [undefined] that [determinePositionFromSetting] returns after a bypassed
    assertion raises a [TypeError]. *)
Definition drawTitle (g : t) (text : TitleText) : M unit :=
  if title_draw (title (options g)) then
    p <- determinePositionFromSetting g (title_position text) ;;
    match p with
    | None => throw "TypeError: Cannot destructure property 'offset' of undefined"
    | Some p =>
        saved <- getCtx ;;
        Drawer.text (drawer g) (title_content text) (offset p)
          ((title_fontSize (title (options g)) + textPadding (padding g)) / 2)
          (title_fontSize (title (options g)))
          (title_colour text) (alignment p) ;;
        restore saved
    end
  else ret tt.

End BasicGraph.

(* ================================================================== *)
(** * core/axis: where the axis is drawn *)

Module AxisPosition.

Local Open Scope Q_scope.

(** [labels.indexOf(s)]: the index of the first entry equal to [s], or -1. *)
Fixpoint indexOf (labels : list string) (s : string) : Z :=
  match labels with
  | [] => -1
  | l :: rest =>
      if String.eqb l s then 0
      else let i := indexOf rest s in
           if (i =? -1)%Z then -1 else (i + 1)%Z
  end.

(** [determineAxisPosition()].  It yields [yStart] and
    [manager.scaleNumbers.y] as the call leaves it: [reverse()] reverses that
    array in place.  The class [AxisManager] is not among the sources, the
    array is an argument. *)
Definition determineAxisPosition (a : Axis.t) (graph : BasicGraph.t)
    (scaleNumbersY : list string) : M (Q * list string) :=
  let yStart := BasicGraph.top (BasicGraph.padding graph)
                + BasicGraph.yLength graph in
  if String.eqb (Axis.type a) Axis.X_AXIS
     && AxisManager.negativeScale (Axis.manager a)
  then
    let reversed := rev scaleNumbersY in
    let zeroIndex := indexOf reversed "0" in
    Assert.assert (negb (zeroIndex =? -1)%Z)
      (Some (append "couldn't find the '0' scale position on the {"
               (append (Axis.type a) "}"))) ;;
    ret (BasicGraph.y_begin (BasicGraph.lengths graph)
         + BasicGraph.y (BasicGraph.gridRectSize graph) * inject_Z zeroIndex,
         reversed)
  else ret (yStart, scaleNumbersY).

End AxisPosition.

(* ================================================================== *)
(** * basic.graph.js: the cubic branch of [_drawData] *)

Module DrawData.

Local Open Scope Q_scope.

(** A plotted point and the pair of control points of an interior point. *)
Record Point : Type := { x : Q; y : Q }.
Record ControlPoint : Type := { prev : Point; next : Point }.

Definition undefinedDeref {A} : M A :=
  throw "TypeError: Cannot read properties of undefined".

(** [arr[i]] followed by a property access. *)
Definition get {A} (arr : list A) (i : Z) : M A :=
  match Js.idx arr i with
  | Some a => ret a
  | None => undefinedDeref
  end.

(** The values a counter takes in [for (k = lo; k < hi; k++)]. *)
Definition range (lo hi : Z) : list Z :=
  map (fun i => (lo + Z.of_nat i)%Z) (seq 0 (Z.to_nat (hi - lo))).

(** Run a loop body for each counter value, collecting what it pushes. *)
Fixpoint forEach {A} (ks : list Z) (body : Z -> M A) : M (list A) :=
  match ks with
  | [] => ret []
  | k :: rest =>
      a <- body k ;;
      others <- forEach rest body ;;
      ret (a :: others)
  end.

Section Cubic.

(** [interpolation.splineCurve] and [config.tension] belong to modules that
    are not among the sources; they are parameters.  The function is taken to
    return on three defined points and to fail on [undefined], whose
    coordinates it would have to read. *)
Variable splineCurve : Point -> Point -> Point -> Q -> ControlPoint.
Variable tension : Q.

Definition splineCurveAt (points : list Point) (k : Z) : M ControlPoint :=
  match Arrays.getPrevious k points, Js.idx points k, Arrays.getNext k points with
  | Some p, Some c, Some n => ret (splineCurve p c n tension)
  | _, _, _ => undefinedDeref
  end.

(** The loop filling [controlPoints]: [k] from 1 while [k < points.length - 1]. *)
Definition controlPoints (points : list Point) : M (list ControlPoint) :=
  forEach (range 1 (Js.len points - 1)) (splineCurveAt points).

(** The rest of the cubic branch: the Bezier segments between interior
    points, then the two quadratic end segments. *)
Definition bezierSegment (points : list Point) (cps : list ControlPoint)
    (i : Z) : M unit :=
  call BeginPath ;;
  p <- get points i ;;
  call (MoveTo (x p) (y p)) ;;
  c1 <- get cps (i - 1) ;;
  c2 <- get cps i ;;
  q <- get points (i + 1) ;;
  call (BezierCurveTo (x (next c1)) (y (next c1)) (x (prev c2)) (y (prev c2))
          (x q) (y q)) ;;
  call Stroke ;;
  call ClosePath.

Definition origin : Point := {| x := 0; y := 0 |}.

(** What the loop pushes for interior index [k], read off the array. *)
Definition controlPointAt (points : list Point) (k : Z) : ControlPoint :=
  splineCurve (nth (Z.to_nat (k - 1)) points origin)
              (nth (Z.to_nat k) points origin)
              (nth (Z.to_nat (k + 1)) points origin) tension.

Definition drawCubic (points : list Point) : M unit :=
  cps <- controlPoints points ;;
  forEach (range 1 (Js.len points - 2)) (bezierSegment points cps) ;;
  call BeginPath ;;
  p0 <- get points 0 ;;
  call (MoveTo (x p0) (y p0)) ;;
  c0 <- get cps 0 ;;
  p1 <- get points 1 ;;
  call (QuadraticCurveTo (x (prev c0)) (y (prev c0)) (x p1) (y p1)) ;;
  call Stroke ;;
  call ClosePath ;;
  call BeginPath ;;
  pl <- get points (Js.len points - 1) ;;
  call (MoveTo (x pl) (y pl)) ;;
  cl <- get cps (Js.len cps - 1) ;;
  pm <- get points (Js.len points - 2) ;;
  call (QuadraticCurveTo (x (next cl)) (y (next cl)) (x pm) (y pm)) ;;
  call Stroke ;;
  call ClosePath.

End Cubic.

(** The other branch of [_drawData]: a straight segment from each point to
    the next. *)
Definition lineSegment (points : list Point) (p : Z) : M unit :=
  call BeginPath ;;
  a <- get points p ;;
  call (MoveTo (x a) (y a)) ;;
  b <- get points (p + 1) ;;
  call (LineTo (x b) (y b)) ;;
  call Stroke ;;
  call ClosePath.

Definition drawLinear (points : list Point) : M unit :=
  forEach (range 0 (Js.len points - 1)) (lineSegment points) ;;
  ret tt.

(** The world after further calls on the context. *)
Definition addCalls (w : World) (cs : list CtxCall) : World :=
  {| config := config w; console := console w;
     ctx := {| strokeStyle := strokeStyle (ctx w); fillStyle := fillStyle (ctx w);
               globalAlpha := globalAlpha (ctx w); lineWidth := lineWidth (ctx w);
               textAlign := textAlign (ctx w); font := font (ctx w);
               calls := calls (ctx w) ++ cs |} |}.

(** The calls of one straight segment, of the Bezier curve that leaves
    interior point [i], and of the two quadratic end pieces; a point or a
    control point is named by its index in [points]. *)
Definition segmentCalls (a b : Point) : list CtxCall :=
  [BeginPath; MoveTo (x a) (y a); LineTo (x b) (y b); Stroke; ClosePath].

Definition pointAt (points : list Point) (i : Z) : Point :=
  nth (Z.to_nat i) points origin.

Section CubicCalls.

Variable splineCurve : Point -> Point -> Point -> Q -> ControlPoint.
Variable tension : Q.

Definition bezierCalls (points : list Point) (i : Z) : list CtxCall :=
  let c1 := controlPointAt splineCurve tension points i in
  let c2 := controlPointAt splineCurve tension points (i + 1) in
  [BeginPath; MoveTo (x (pointAt points i)) (y (pointAt points i));
   BezierCurveTo (x (next c1)) (y (next c1)) (x (prev c2)) (y (prev c2))
     (x (pointAt points (i + 1))) (y (pointAt points (i + 1)));
   Stroke; ClosePath].

Definition firstQuadraticCalls (points : list Point) : list CtxCall :=
  let c := controlPointAt splineCurve tension points 1 in
  [BeginPath; MoveTo (x (pointAt points 0)) (y (pointAt points 0));
   QuadraticCurveTo (x (prev c)) (y (prev c))
     (x (pointAt points 1)) (y (pointAt points 1));
   Stroke; ClosePath].

Definition lastQuadraticCalls (points : list Point) : list CtxCall :=
  let n := Js.len points in
  let c := controlPointAt splineCurve tension points (n - 2) in
  [BeginPath; MoveTo (x (pointAt points (n - 1))) (y (pointAt points (n - 1)));
   QuadraticCurveTo (x (next c)) (y (next c))
     (x (pointAt points (n - 2))) (y (pointAt points (n - 2)));
   Stroke; ClosePath].

End CubicCalls.

(** Modelled from the spec: the control points of section 4.4, "the tangent
    direction at i is proportional to point[i+1] - point[i-1], scaled by
    tension; prev = point[i] - tangent, next = point[i] + tangent". *)
Definition splineCurve_spec (p c n : Point) (tension : Q) : ControlPoint :=
  let tx := tension * (x n - x p) in
  let ty := tension * (y n - y p) in
  {| prev := {| x := x c - tx; y := y c - ty |};
     next := {| x := x c + tx; y := y c + ty |} |}.

End DrawData.

(* ================================================================== *)
(** * BasicGraph: removing a line by its label *)

Module Lines.

Section Lines.

(** A line of [dataManager.data] is opaque but for its [label]; [draw] is
    the graph's [draw()], run on the lines that are left. *)
Variable Line : Type.
Variable label : Line -> string.
Variable draw : list Line -> M unit.

(** [data.splice(k, 1)] for an index [k >= 0]. *)
Definition splice (data : list Line) (k : Z) : list Line :=
  firstn (Z.to_nat k) data ++ skipn (S (Z.to_nat k)) data.

(** The loop of [removeLineByLabel] from counter [k] on, with
    [dataManager.data] and [foundLine] as they stand; every round raises [k],
    so [fuel] rounds suffice when [fuel] exceeds [data.length - k]. *)
Fixpoint removeLoop (fuel : nat) (target : string) (k : Z) (data : list Line)
    (foundLine : bool) : list Line * bool :=
  match fuel with
  | O => (data, foundLine)
  | S fuel' =>
      if (k <? Js.len data)%Z then
        match Js.idx data k with
        | Some line =>
            if String.eqb (label line) target && negb foundLine
            then removeLoop fuel' target (k + 1) (splice data k) true
            else removeLoop fuel' target (k + 1) data foundLine
        | None => (data, foundLine)
        end
      else (data, foundLine)
  end.

(** [removeLineByLabel(label)]: the lines the loop leaves in
    [dataManager.data], and what follows the loop, the redraw and then the
    assertion that a line was found. *)
Definition removeLineByLabel (data : list Line) (target : string)
  : list Line * M unit :=
  let r := removeLoop (S (List.length data)) target 0 data false in
  (fst r,
   draw (fst r) ;;
   Assert.assert (snd r)
     (Some (append "No line named '"
              (append target "' found on this graph.")))).

End Lines.

End Lines.

(* ================================================================== *)
(** * basic.graph.js: removing a line by its label *)

Module LegacyLines.

Section Lines.

Variable Line : Type.
Variable label : Line -> string.
Variable redraw : list Line -> M unit.

(** The loop of the older [removeLineByLabel]: it stops one short of the
    end of the array and has no [foundLine]. *)
Fixpoint removeLoop (fuel : nat) (target : string) (k : Z) (data : list Line)
  : list Line :=
  match fuel with
  | O => data
  | S fuel' =>
      if (k <? Js.len data - 1)%Z then
        match Js.idx data k with
        | Some line =>
            if String.eqb (label line) target
            then removeLoop fuel' target (k + 1) (Lines.splice data k)
            else removeLoop fuel' target (k + 1) data
        | None => data
        end
      else data
  end.

Definition removeLineByLabel (data : list Line) (target : string)
  : list Line * M unit :=
  let data' := removeLoop (List.length data) target 0 data in
  (data', redraw data').

(** What the loop leaves of the lines from its counter on, by recursion on
    those lines: the last one is never looked at, and the one that follows a
    removed line is stepped over. *)
Fixpoint sweep (target : string) (rest : list Line) : list Line :=
  match rest with
  | [] => []
  | a :: tl =>
      match tl with
      | [] => [a]
      | b :: rest' =>
          if String.eqb (label a) target then b :: sweep target rest'
          else a :: sweep target tl
      end
  end.

End Lines.

End LegacyLines.

(* ================================================================== *)
(** * utils/html *)

Module Html.

(** A child node as far as [findCanvas] reads it: its [nodeName] and, for a
    canvas, its [width].  An element: its children and [style.width]. *)
Record Node : Type := { nodeName : string; canvasWidth : Z }.
Record Element : Type := { childNodes : list Node; styleWidth : string }.

(** [toLowerCase] on the letters A to Z; no other character turns into a
    letter of ["canvas"]. *)
Definition lowerLetter (c : ascii) : ascii :=
  let n := nat_of_ascii c in
  if Nat.leb 65 n && Nat.leb n 90 then ascii_of_nat (n + 32) else c.

Fixpoint toLowerCase (s : string) : string :=
  match s with
  | EmptyString => EmptyString
  | String c rest => String (lowerLetter c) (toLowerCase rest)
  end.

Definition isCanvas (childNode : Node) : bool :=
  String.eqb (toLowerCase (nodeName childNode)) "canvas".

Definition newline : string := String (ascii_of_nat 10) EmptyString.

Section Dom.

(** [document.getElementById], and [isUndefOrNull] of utils/object, which
    is not among the sources. *)
Variable getElementById : string -> option Element.
Variable isUndefOrNull : option Node -> bool.

(** [findCanvas(id)]: the canvas found and the container as the call
    leaves it.  Reading [childNodes] of [null] is the one thing that can
    raise inside the [try]; the loop stops at the first canvas. *)
Definition findCanvas (id : string) : M (Node * Element) :=
  let element := getElementById id in
  canvas <-
    match element with
    | Some e => ret (find isCanvas (childNodes e))
    | None =>
        if isUndefOrNull None then
          throw (append "Graph Container '"
                   (append id
                      (append "' doesn't exist."
                         (append newline
                            "TypeError: Cannot read properties of null"))))
        else ret None
    end ;;
  if negb (isUndefOrNull canvas) then
    match element, canvas with
    | Some e, Some c =>
        ret (c, {| childNodes := childNodes e;
                   styleWidth := append (Js.Z_toString (canvasWidth c)) "px" |})
    | _, _ => throw "TypeError: Cannot read properties of null"
    end
  else
    throw (append "Graph Container '"
             (append id "' doesn't contain <canvas> element.")).

End Dom.

End Html.

(* ================================================================== *)
(** * legend/manager *)

Module LegendManager.

Local Open Scope Q_scope.

Definition PADDING : Q := 8.

Module Pos.

Definition LEFT := "left".
Definition RIGHT := "right".
Definition TOP := "top".
Definition BOTTOM := "bottom".

(** [Object.values(LegendManager.Pos)]. *)
Definition values : list string := [LEFT; RIGHT; TOP; BOTTOM].

End Pos.

Module Alignment.

Definition START := "start".
Definition CENTER := "center".
Definition END_ := "end".

(** [Object.values(LegendManager.Alignment)]. *)
Definition values : list string := [START; CENTER; END_].

End Alignment.

Record Item : Type := { label : string; colour : string; style : string }.

Record t : Type := {
  graph : BasicGraph.t;
  data : list Item;
  position : string;
  boxSize : Q;
  alignment : string;
  requiredSpace : Q
}.

Inductive Orientation : Type := Horizontal | Vertical.

Definition includes (values : list string) (v : string) : bool :=
  existsb (String.eqb v) values.

Section Host.

(** The host's text measurement, [ctx.measureText(item).width] in the 12px
    label font, and two colour constants of modules that are not among the
    sources. *)
Variable measureText : string -> Q.
Variable axisColour : string.
Variable PURPLE : string.

(** [getRequiredSpaceFor(item)]; the context is saved before the font is
    switched and restored afterwards, so only the measure is left. *)
Definition getRequiredSpaceFor (boxSize : Q) (item : string) : Q :=
  2 * PADDING + boxSize + measureText item.

(** [options.legend.position ?? Pos.TOP], replaced by [Pos.TOP] when it is
    not one of the four positions; likewise for the alignment. *)
Definition resolvePosition (graph : BasicGraph.t) : string :=
  let opts := BasicGraph.legend (BasicGraph.options graph) in
  let position := Js.nullish (BasicGraph.legend_position opts) Pos.TOP in
  if includes Pos.values position then position else Pos.TOP.

Definition resolveAlignment (graph : BasicGraph.t) : string :=
  let opts := BasicGraph.legend (BasicGraph.options graph) in
  let alignment := Js.nullish (BasicGraph.legend_alignment opts) Alignment.CENTER in
  if includes Alignment.values alignment then alignment else Alignment.CENTER.

Definition new (graph : BasicGraph.t) (data : list Item) : M t :=
  Assert.assert true (Some "Legend data must not be null") ;;
  let position := resolvePosition graph in
  let boxSize := BasicGraph.labelFontSize (BasicGraph.options graph) + 4 in
  let alignment := resolveAlignment graph in
  space <- (if String.eqb position Pos.LEFT || String.eqb position Pos.RIGHT
            then longestItem <- Arrays.longest (map label data) ;;
                 ret (getRequiredSpaceFor boxSize longestItem)
            else ret (boxSize + PADDING)) ;;
  ret {| graph := graph; data := data; position := position;
         boxSize := boxSize; alignment := alignment; requiredSpace := space |}.

Definition setLegendStyle (colour : string) : M unit :=
  modifyCtx (fun c =>
    {| strokeStyle := colour; fillStyle := colour;
       globalAlpha := globalAlpha c; lineWidth := 1;
       textAlign := textAlign c; font := font c; calls := calls c |}).

Definition setGlobalAlpha (a : Q) : M unit :=
  modifyCtx (fun c =>
    {| strokeStyle := strokeStyle c; fillStyle := fillStyle c;
       globalAlpha := a; lineWidth := lineWidth c;
       textAlign := textAlign c; font := font c; calls := calls c |}).

Definition setStroke (lw : Q) (colour : string) : M unit :=
  modifyCtx (fun c =>
    {| strokeStyle := colour; fillStyle := fillStyle c;
       globalAlpha := globalAlpha c; lineWidth := lw;
       textAlign := textAlign c; font := font c; calls := calls c |}).

Definition drawLegend (l : t) (label colour style : string) (x y : Q) : M unit :=
  setLegendStyle colour ;;
  call (SetLineDash (if String.eqb style "dashed" then [4; 4] else [])) ;;
  call (StrokeRect x y (boxSize l) (boxSize l)) ;;
  setGlobalAlpha (6 # 10) ;;
  call (FillRect x y (boxSize l) (boxSize l)) ;;
  Drawer.text (BasicGraph.drawer (graph l)) label
    (x + boxSize l + PADDING) (y + boxSize l / 2)
    (BasicGraph.labelFontSize (BasicGraph.options (graph l)))
    (Some axisColour) (Some "left").

(** The [switch] on the position: orientation and first offsets. *)
Definition placement (l : t) : option (Orientation * Q * Q) :=
  let g := graph l in
  let xBegin := BasicGraph.x_begin (BasicGraph.lengths g) in
  let yBegin :=
    PADDING
    + (if BasicGraph.title_draw (BasicGraph.title (BasicGraph.options g))
       then BasicGraph.title_fontSize (BasicGraph.title (BasicGraph.options g))
            + BasicGraph.textPadding (BasicGraph.padding g)
       else 0) in
  if String.eqb (position l) Pos.TOP then Some (Horizontal, xBegin, yBegin)
  else if String.eqb (position l) Pos.BOTTOM then
    Some (Horizontal, xBegin,
          height (BasicGraph.canvas g) - requiredSpace l
          + BasicGraph.textPadding (BasicGraph.padding g))
  else if String.eqb (position l) Pos.LEFT then
    Some (Vertical, PADDING, BasicGraph.y_begin (BasicGraph.lengths g))
  else if String.eqb (position l) Pos.RIGHT then
    Some (Vertical, BasicGraph.x_end (BasicGraph.lengths g) + PADDING,
          BasicGraph.y_begin (BasicGraph.lengths g))
  else None.

(** [requiredSpaces]: the space each entry takes along the layout axis. *)
Definition spaceOf (l : t) (o : Orientation) (index : nat) (item : Item) : Q :=
  let additional :=
    if Nat.eqb index (List.length (data l) - 1) then 0 else PADDING in
  match o with
  | Horizontal => getRequiredSpaceFor (boxSize l) (label item) + additional
  | Vertical => additional + boxSize l
  end.

Fixpoint mapi {A B} (f : nat -> A -> B) (index : nat) (xs : list A) : list B :=
  match xs with
  | [] => []
  | a :: rest => f index a :: mapi f (S index) rest
  end.

Definition requiredSpaces (l : t) (o : Orientation) : list Q :=
  mapi (spaceOf l o) 0 (data l).

(** The first offsets after the alignment has been taken into account. *)
Definition aligned (l : t) (o : Orientation) (xBegin yBegin : Q) : Q * Q :=
  let g := graph l in
  let spaces := requiredSpaces l o in
  match o with
  | Horizontal =>
      if String.eqb (alignment l) Alignment.START then (xBegin, yBegin)
      else if String.eqb (alignment l) Alignment.CENTER then
        let offset := Arrays.sum spaces / 2 in
        (BasicGraph.x_center (BasicGraph.lengths g) - offset + PADDING, yBegin)
      else if String.eqb (alignment l) Alignment.END_ then
        let offset := Arrays.sum spaces in
        (BasicGraph.x_end (BasicGraph.lengths g) - offset, yBegin)
      else (xBegin, yBegin)
  | Vertical =>
      if String.eqb (alignment l) Alignment.START then (xBegin, yBegin)
      else if String.eqb (alignment l) Alignment.CENTER then
        let half := Z.to_nat (Js.Math_round (inject_Z (Js.len spaces) / 2)) in
        let offset := Arrays.sum (firstn half spaces) in
        (xBegin, BasicGraph.y_center (BasicGraph.lengths g) - offset)
      else if String.eqb (alignment l) Alignment.END_ then
        let offset := Arrays.sum spaces in
        (xBegin, BasicGraph.y_begin (BasicGraph.lengths g)
                 + BasicGraph.yLength g - offset)
      else (xBegin, yBegin)
  end.

Definition debugBoundary (l : t) (o : Orientation) (xBegin yBegin : Q) : M unit :=
  if BasicGraph.debug (BasicGraph.options (graph l)) then
    c <- getCtx ;;
    let lineWidth0 := lineWidth c in
    let strokeStyle0 := strokeStyle c in
    setStroke 2 PURPLE ;;
    let total := Arrays.sum (requiredSpaces l o) in
    let xLength := match o with
                   | Horizontal => total
                   | Vertical => requiredSpace l - PADDING
                   end in
    let yLength := match o with
                   | Vertical => total
                   | Horizontal => requiredSpace l - PADDING
                   end in
    call (StrokeRect xBegin yBegin xLength yLength) ;;
    setStroke lineWidth0 strokeStyle0
  else ret tt.

(** The loop over the entries; [spaces] is [requiredSpaces] from the entry
    at hand onwards.  It yields the offsets it ends with. *)
Fixpoint drawEntries (l : t) (o : Orientation) (items : list Item)
    (spaces : list Q) (xBegin yBegin : Q) : M (Q * Q) :=
  match items, spaces with
  | item :: items', space :: spaces' =>
      drawLegend l (label item) (colour item) (style item) xBegin yBegin ;;
      match o with
      | Horizontal => drawEntries l o items' spaces' (xBegin + space) yBegin
      | Vertical => drawEntries l o items' spaces' xBegin (yBegin + space)
      end
  | _, _ => ret (xBegin, yBegin)
  end.

(** [draw()].  The source returns nothing; the model returns the first
    offsets (after alignment) and the offsets the loop ends with, or [None]
    on the early return of the [default] case. *)
Definition draw (l : t) : M (option ((Q * Q) * (Q * Q))) :=
  match placement l with
  | None =>
      Assert.assert false (Some "Invalid legend position") ;;
      ret None
  | Some (o, xBegin, yBegin) =>
      let first := aligned l o xBegin yBegin in
      debugBoundary l o (fst first) (snd first) ;;
      final <- drawEntries l o (data l) (requiredSpaces l o) (fst first) (snd first) ;;
      ret (Some (first, final))
  end.

End Host.

End LegendManager.

(* ================================================================== *)
(** * Sample inputs *)

Module Sample.

Local Open Scope Q_scope.

Definition context : Context :=
  {| strokeStyle := "black"; fillStyle := "black"; globalAlpha := 1;
     lineWidth := 1; textAlign := "start"; font := "10px sans-serif";
     calls := [] |}.

Definition world (bypass : bool) : World :=
  {| config := {| bypassOutOfBoundsDrawing := bypass |};
     console := []; ctx := context |}.

Definition canvas : Canvas := {| width := 143; height := 127 |}.

Definition drawer : Drawer.t :=
  {| Drawer.canvas := canvas; Drawer.labelFont := "monospace" |}.

(** The scale of the spec's example: [min = 0], [max = 97], ten ticks. *)
Definition scaleOptions : Scale.Options :=
  {| Scale.min := Some 0; Scale.max := Some 97; Scale.tickCount := 10;
     Scale.minimumScaleStep := None; Scale.optimiseTicks := None;
     Scale.isNegativeScale := None; Scale.startAtZero := None |}.

Definition yOptions (ticks : Z) : Axis.Options :=
  {| Axis.ticks := ticks; Axis.optimiseTicks := None;
     Axis.tickLabels := None; Axis.drawLabels := true |}.

Definition xOptions (ticks : Z) : Axis.Options :=
  {| Axis.ticks := ticks; Axis.optimiseTicks := Some true;
     Axis.tickLabels := None; Axis.drawLabels := true |}.

(** One series of four samples, two of them negative. *)
Definition mixedData : list Q := [-5; -3; 10; 20].
Definition mixedManager : AxisManager.t := AxisManager.new mixedData 4.

Definition positiveData : list Q := [1; 7; 3 # 2].
Definition positiveManager : AxisManager.t := AxisManager.new positiveData 3.

Definition aroundZero : list Q := [-1; 0; 1].
Definition aroundZeroManager : AxisManager.t := AxisManager.new aroundZero 3.

Definition graphOptions (strict optimise : bool) : BasicGraph.Options :=
  {| BasicGraph.debug := false;
     BasicGraph.labelFontSize := 12;
     BasicGraph.options_padding := 8;
     BasicGraph.title :=
       {| BasicGraph.title_draw := false; BasicGraph.title_fontSize := 24 |};
     BasicGraph.grid :=
       {| BasicGraph.gridded := true;
          BasicGraph.optimiseSquareSize := optimise;
          BasicGraph.sharedAxisZero := true;
          BasicGraph.strict := strict |};
     BasicGraph.legend :=
       {| BasicGraph.legend_draw := true;
          BasicGraph.legend_position := Some "top";
          BasicGraph.legend_alignment := Some "start" |} |}.

Definition labels11 : list string :=
  ["0"; "1"; "2"; "3"; "4"; "5"; "6"; "7"; "8"; "9"; "10"].

(** A 143 x 127 canvas whose padding leaves 123 x 97 for ten gaps each way:
    raw cells of 12.3 by 9.7. *)
Definition graph (strict optimise : bool) (rightPadding : Q) : BasicGraph.t :=
  {| BasicGraph.options := graphOptions strict optimise;
     BasicGraph.canvas :=
       {| width := 143 + rightPadding; height := 127 |};
     BasicGraph.drawer :=
       {| Drawer.canvas := {| width := 143 + rightPadding; height := 127 |};
          Drawer.labelFont := "monospace" |};
     BasicGraph.xLabels := labels11;
     BasicGraph.yLabels := labels11;
     BasicGraph.padding :=
       {| BasicGraph.top := 10; BasicGraph.left := 8;
          BasicGraph.right := rightPadding; BasicGraph.bottom := 20;
          BasicGraph.textPadding := 4 |};
     BasicGraph.xLength := 0;
     BasicGraph.yLength := 0;
     BasicGraph.gridRectSize := {| BasicGraph.x := 0; BasicGraph.y := 0 |};
     BasicGraph.lengths :=
       {| BasicGraph.x_begin := 0; BasicGraph.y_begin := 0;
          BasicGraph.x_end := 0; BasicGraph.y_end := 0;
          BasicGraph.x_center := 0; BasicGraph.y_center := 0 |} |}.

(** The same graph with a title. *)
Definition titledGraph : BasicGraph.t :=
  let g := graph false false 0 in
  {| BasicGraph.options :=
       {| BasicGraph.debug := false;
          BasicGraph.labelFontSize := 12;
          BasicGraph.options_padding := 8;
          BasicGraph.title :=
            {| BasicGraph.title_draw := true; BasicGraph.title_fontSize := 24 |};
          BasicGraph.grid := BasicGraph.grid (BasicGraph.options g);
          BasicGraph.legend := BasicGraph.legend (BasicGraph.options g) |};
     BasicGraph.canvas := BasicGraph.canvas g;
     BasicGraph.drawer := BasicGraph.drawer g;
     BasicGraph.xLabels := BasicGraph.xLabels g;
     BasicGraph.yLabels := BasicGraph.yLabels g;
     BasicGraph.padding := BasicGraph.padding g;
     BasicGraph.xLength := BasicGraph.xLength g;
     BasicGraph.yLength := BasicGraph.yLength g;
     BasicGraph.gridRectSize := BasicGraph.gridRectSize g;
     BasicGraph.lengths := BasicGraph.lengths g |}.

Definition titleText (position : string) : BasicGraph.TitleText :=
  {| BasicGraph.title_content := "Graph";
     BasicGraph.title_position := position;
     BasicGraph.title_colour := Some "grey" |}.

(** A two-entry legend measured by a fixed-width font, seven pixels a
    character. *)
Definition measureText (s : string) : Q := 7 * inject_Z (Z.of_nat (String.length s)).

Definition legendItems : list LegendManager.Item :=
  [ {| LegendManager.label := "a"; LegendManager.colour := "red";
       LegendManager.style := "solid" |};
    {| LegendManager.label := "bb"; LegendManager.colour := "blue";
       LegendManager.style := "dashed" |} ].

Definition legendGraph : BasicGraph.t :=
  BasicGraph.constructor_geometry (graph false false 0).

(** The same graph with the legend asked for at another position. *)
Definition legendGraphAt (position : option string) : BasicGraph.t :=
  let g := legendGraph in
  {| BasicGraph.options :=
       {| BasicGraph.debug := false;
          BasicGraph.labelFontSize := 12;
          BasicGraph.options_padding := 8;
          BasicGraph.title := BasicGraph.title (BasicGraph.options g);
          BasicGraph.grid := BasicGraph.grid (BasicGraph.options g);
          BasicGraph.legend :=
            {| BasicGraph.legend_draw := true;
               BasicGraph.legend_position := position;
               BasicGraph.legend_alignment := Some "start" |} |};
     BasicGraph.canvas := BasicGraph.canvas g;
     BasicGraph.drawer := BasicGraph.drawer g;
     BasicGraph.xLabels := BasicGraph.xLabels g;
     BasicGraph.yLabels := BasicGraph.yLabels g;
     BasicGraph.padding := BasicGraph.padding g;
     BasicGraph.xLength := BasicGraph.xLength g;
     BasicGraph.yLength := BasicGraph.yLength g;
     BasicGraph.gridRectSize := BasicGraph.gridRectSize g;
     BasicGraph.lengths := BasicGraph.lengths g |}.

(** The legend manager the constructor returns for them. *)
Definition legend : LegendManager.t :=
  {| LegendManager.graph := legendGraph;
     LegendManager.data := legendItems;
     LegendManager.position := "top";
     LegendManager.boxSize := 12 + 4;
     LegendManager.alignment := "start";
     LegendManager.requiredSpace := 12 + 4 + LegendManager.PADDING |}.

(** The world after that legend has been drawn on a fresh canvas. *)
Definition drawnLegendWorld : World :=
  {| config := {| bypassOutOfBoundsDrawing := false |};
     console := [];
     ctx :=
       {| strokeStyle := "blue"; fillStyle := "grey"; globalAlpha := 1;
          lineWidth := 1; textAlign := "left"; font := "12px monospace";
          calls :=
            [SetLineDash []; StrokeRect 20 8 16 16; FillRect 20 8 16 16;
             FillText "a" 44 (32 # 2);
             SetLineDash [4; 4]; StrokeRect 67 8 16 16; FillRect 67 8 16 16;
             FillText "bb" 91 (32 # 2)] |} |}.

End Sample.

(* ================================================================== *)
(** * Properties *)

(** ** Array reads *)

Module ArrayFacts.

Lemma idx_some_iff {A} (data : list A) (i : Z) :
  Js.idx data i <> None <-> (0 <= i < Js.len data)%Z.
Proof.
  unfold Js.idx, Js.len.
  destruct (Z.ltb_spec i 0) as [Hneg | Hpos].
  - split; [congruence | lia].
  - rewrite nth_error_Some. lia.
Qed.

Lemma idx_nth_error {A} (data : list A) (n : nat) :
  Js.idx data (Z.of_nat n) = nth_error data n.
Proof.
  unfold Js.idx.
  destruct (Z.ltb_spec (Z.of_nat n) 0); [lia | now rewrite Nat2Z.id].
Qed.

Lemma len_pos {A} (data : list A) : data <> [] -> (0 < Js.len data)%Z.
Proof.
  destruct data; [congruence | intros _; unfold Js.len; simpl; lia].
Qed.

Lemma getPrevious_low {A} (index : Z) (data : list A) :
  (index <= 0)%Z -> Arrays.getPrevious index data = Js.idx data 0.
Proof.
  intros H. unfold Arrays.getPrevious.
  now destruct (Z.leb_spec index 0); [| lia].
Qed.

Lemma getPrevious_high {A} (index : Z) (data : list A) :
  (0 < index)%Z -> Arrays.getPrevious index data = Js.idx data (index - 1).
Proof.
  intros H. unfold Arrays.getPrevious.
  now destruct (Z.leb_spec index 0); [lia |].
Qed.

Lemma getNext_high {A} (index : Z) (data : list A) :
  (Js.len data - 1 <= index)%Z ->
  Arrays.getNext index data = Js.idx data (Js.len data - 1).
Proof.
  intros H. unfold Arrays.getNext.
  destruct (index >=? Js.len data - 1)%Z eqn:E; [reflexivity | lia].
Qed.

Lemma getNext_low {A} (index : Z) (data : list A) :
  (index < Js.len data - 1)%Z ->
  Arrays.getNext index data = Js.idx data (index + 1).
Proof.
  intros H. unfold Arrays.getNext.
  destruct (index >=? Js.len data - 1)%Z eqn:E; [lia | reflexivity].
Qed.

End ArrayFacts.

(** C10, as amended.  On a non-empty array [getPrevious] and [getNext] are
    the reads the claim names: [data[0]] at or below index 0 and
    [data[index - 1]] above it, the last element at or above
    [data.length - 1] and [data[index + 1]] below it.  Each guards one side
    only: [getPrevious] is defined exactly for [index <= data.length] and
    [getNext] exactly for [index >= -1]; in particular both are defined for
    every index of the array, which covers the indices the spline loop
    passes. *)
Theorem getPrevious_getNext_defined_range :
  forall (A : Type) (data : list A) (index : Z),
    data <> [] ->
    ((index <= 0)%Z -> Arrays.getPrevious index data = Js.idx data 0) /\
    ((0 < index)%Z -> Arrays.getPrevious index data = Js.idx data (index - 1)) /\
    ((index >= Js.len data - 1)%Z ->
       Arrays.getNext index data = Js.idx data (Js.len data - 1)) /\
    ((index < Js.len data - 1)%Z ->
       Arrays.getNext index data = Js.idx data (index + 1)) /\
    (Arrays.getPrevious index data <> None <-> (index <= Js.len data)%Z) /\
    (Arrays.getNext index data <> None <-> (-1 <= index)%Z) /\
    ((0 <= index <= Js.len data - 1)%Z ->
       Arrays.getPrevious index data <> None /\
       Arrays.getNext index data <> None).
Proof.
  intros A data index Hne.
  pose proof (ArrayFacts.len_pos Hne) as Hlen.
  assert (Hprev : Arrays.getPrevious index data <> None <-> (index <= Js.len data)%Z).
  { destruct (Z.leb_spec index 0) as [Hi | Hi].
    - rewrite ArrayFacts.getPrevious_low by assumption.
      rewrite ArrayFacts.idx_some_iff. lia.
    - rewrite ArrayFacts.getPrevious_high by assumption.
      rewrite ArrayFacts.idx_some_iff. lia. }
  assert (Hnext : Arrays.getNext index data <> None <-> (-1 <= index)%Z).
  { destruct (Z.ltb_spec index (Js.len data - 1)) as [Hi | Hi].
    - rewrite ArrayFacts.getNext_low by assumption.
      rewrite ArrayFacts.idx_some_iff. lia.
    - rewrite ArrayFacts.getNext_high by assumption.
      rewrite ArrayFacts.idx_some_iff. lia. }
  repeat split.
  - apply ArrayFacts.getPrevious_low.
  - apply ArrayFacts.getPrevious_high.
  - intros H. apply ArrayFacts.getNext_high. lia.
  - apply ArrayFacts.getNext_low.
  - apply Hprev.
  - apply Hprev.
  - apply Hnext.
  - apply Hnext.
  - apply Hprev. lia.
  - apply Hnext. lia.
Qed.

Lemma getPrevious_getNext_defined_range_witness :
  [3%Z; 4%Z] <> [] /\
  Arrays.getPrevious 1 [3%Z; 4%Z] = Some 3%Z /\
  Arrays.getNext 0 [3%Z; 4%Z] = Some 4%Z.
Proof.
  assert (Hne : [3%Z; 4%Z] <> []) by discriminate.
  pose proof (getPrevious_getNext_defined_range (data := [3%Z; 4%Z]) 1%Z Hne)
    as [_ [Hp _]].
  pose proof (getPrevious_getNext_defined_range (data := [3%Z; 4%Z]) 0%Z Hne)
    as [_ [_ [_ [Hn _]]]].
  split; [exact Hne |].
  split; [rewrite Hp by lia; reflexivity | rewrite Hn; [reflexivity | reflexivity]].
Defined.

(** C10 as stated fails: past the end of a non-empty array [getPrevious]
    reads [undefined], and so does [getNext] below index -1. *)
Lemma getPrevious_getNext_undefined :
  ~ (forall (data : list Z) (index : Z),
       data <> [] ->
       Arrays.getPrevious index data <> None /\
       Arrays.getNext index data <> None)
  /\ Arrays.getPrevious 5 [7%Z] = None
  /\ Arrays.getNext (-5) [7%Z] = None.
Proof.
  split; [| split; reflexivity].
  intros H.
  destruct (H [7%Z] 5%Z ltac:(discriminate)) as [Hp _].
  apply Hp. reflexivity.
Qed.

(** ** Control points of the cubic branch *)

Module DrawDataFacts.

Import DrawData.

Lemma range_length (lo hi : Z) : List.length (range lo hi) = Z.to_nat (hi - lo).
Proof. unfold range. now rewrite length_map, length_seq. Qed.

Lemma range_nth (lo hi : Z) (j : nat) :
  (j < Z.to_nat (hi - lo))%nat ->
  nth_error (range lo hi) j = Some (lo + Z.of_nat j)%Z.
Proof.
  intros H. unfold range.
  rewrite nth_error_map, nth_error_seq.
  destruct (Nat.ltb_spec j (Z.to_nat (hi - lo))); [reflexivity | lia].
Qed.

Lemma range_In (lo hi k : Z) : In k (range lo hi) -> (lo <= k < hi)%Z.
Proof.
  unfold range. rewrite in_map_iff.
  intros [i [<- Hi]]. apply in_seq in Hi. lia.
Qed.

(** A loop whose body returns without touching the world is a [map]. *)
Lemma forEach_pure {A} (body : Z -> M A) (g : Z -> A) (ks : list Z) :
  (forall k w, In k ks -> body k w = (w, Returned (g k))) ->
  forall w, forEach ks body w = (w, Returned (map g ks)).
Proof.
  induction ks as [| k rest IH]; intros Hbody w.
  - reflexivity.
  - simpl. unfold bind.
    rewrite (Hbody k w (or_introl eq_refl)).
    rewrite IH by (intros; apply Hbody; now right).
    reflexivity.
Qed.

Section Cubic.

Variable splineCurve : Point -> Point -> Point -> Q -> ControlPoint.
Variable tension : Q.

Lemma idx_nth (points : list Point) (i : Z) :
  (0 <= i < Js.len points)%Z ->
  Js.idx points i = Some (nth (Z.to_nat i) points origin).
Proof.
  intros H. unfold Js.idx, Js.len in *.
  destruct (Z.ltb_spec i 0); [lia |].
  apply nth_error_nth'. lia.
Qed.

Lemma splineCurveAt_interior (points : list Point) (k : Z) (w : World) :
  (1 <= k < Js.len points - 1)%Z ->
  splineCurveAt splineCurve tension points k w
  = (w, Returned (controlPointAt splineCurve tension points k)).
Proof.
  intros H. unfold splineCurveAt.
  rewrite ArrayFacts.getPrevious_high by lia.
  rewrite ArrayFacts.getNext_low by lia.
  rewrite !idx_nth by lia.
  reflexivity.
Qed.

Lemma controlPoints_returns (points : list Point) (w : World) :
  controlPoints splineCurve tension points w
  = (w, Returned (map (controlPointAt splineCurve tension points) (range 1 (Js.len points - 1)))).
Proof.
  unfold controlPoints. apply forEach_pure.
  intros k w' Hk. apply splineCurveAt_interior. now apply range_In.
Qed.

End Cubic.

End DrawDataFacts.

(** C2.  For every list of N plotted points the loop that fills
    [controlPoints] returns, leaves console and canvas untouched, and yields
    N - 2 pairs when N >= 3 and none when N < 3; entry [j] is the spline
    control point of interior point [j + 1], computed from the points
    [j], [j + 1] and [j + 2]. *)
Theorem controlPoints_interior_count :
  forall (splineCurve : DrawData.Point -> DrawData.Point -> DrawData.Point ->
                        Q -> DrawData.ControlPoint)
         (tension : Q) (points : list DrawData.Point) (w : World),
  exists cps : list DrawData.ControlPoint,
    DrawData.controlPoints splineCurve tension points w = (w, Returned cps) /\
    List.length cps = (List.length points - 2)%nat /\
    ((List.length points < 3)%nat -> cps = []) /\
    (forall j : nat,
        (j < List.length points - 2)%nat ->
        exists p c n,
          nth_error points j = Some p /\
          nth_error points (j + 1) = Some c /\
          nth_error points (j + 2) = Some n /\
          nth_error cps j = Some (splineCurve p c n tension)).
Proof.
  intros splineCurve tension points w.
  eexists. split; [apply DrawDataFacts.controlPoints_returns |].
  assert (Hlen : Z.to_nat (Js.len points - 1 - 1) = (List.length points - 2)%nat)
    by (unfold Js.len; lia).
  split; [| split].
  - now rewrite length_map, DrawDataFacts.range_length.
  - intros Hshort.
    assert (Hnil : DrawData.range 1 (Js.len points - 1) = []).
    { apply length_zero_iff_nil. rewrite DrawDataFacts.range_length. lia. }
    now rewrite Hnil.
  - intros j Hj.
    exists (nth j points DrawData.origin),
           (nth (j + 1) points DrawData.origin),
           (nth (j + 2) points DrawData.origin).
    repeat split; try (apply nth_error_nth'; lia).
    rewrite nth_error_map, DrawDataFacts.range_nth by lia.
    unfold option_map, DrawData.controlPointAt.
    replace (Z.to_nat (1 + Z.of_nat j - 1)) with j by lia.
    replace (Z.to_nat (1 + Z.of_nat j)) with (j + 1)%nat by lia.
    replace (Z.to_nat (1 + Z.of_nat j + 1)) with (j + 2)%nat by lia.
    reflexivity.
Qed.

(** What follows the loop in the cubic branch reads [controlPoints[0]], so
    with fewer than three points, and at least two so that the first reads
    succeed, the branch ends in a [TypeError]. *)
Lemma drawCubic_two_points_throws
    (splineCurve : DrawData.Point -> DrawData.Point -> DrawData.Point ->
                   Q -> DrawData.ControlPoint)
    (tension : Q) (p q : DrawData.Point) (w : World) :
  snd (DrawData.drawCubic splineCurve tension [p; q] w)
  = Thrown "TypeError: Cannot read properties of undefined".
Proof. reflexivity. Qed.

(** ** Comparisons and rounding *)

Module NumberFacts.

Local Open Scope Q_scope.

Lemma Math_min_le_l (a b : Q) : Js.Math_min a b <= a.
Proof.
  unfold Js.Math_min. destruct (Qle_bool a b) eqn:E.
  - apply Qle_refl.
  - apply Qlt_le_weak, Qnot_le_lt. intros H.
    apply Qle_bool_iff in H. congruence.
Qed.

Lemma Math_min_le_r (a b : Q) : Js.Math_min a b <= b.
Proof.
  unfold Js.Math_min. destruct (Qle_bool a b) eqn:E.
  - now apply Qle_bool_iff.
  - apply Qle_refl.
Qed.

Lemma Math_min_cases (a b : Q) : Js.Math_min a b = a \/ Js.Math_min a b = b.
Proof. unfold Js.Math_min. destruct (Qle_bool a b); auto. Qed.

Lemma Qlt_bool_iff (a b : Q) : Js.Qlt_bool a b = true <-> a < b.
Proof.
  unfold Js.Qlt_bool. rewrite negb_true_iff.
  split; intros H.
  - apply Qnot_le_lt. intros Hle. apply Qle_bool_iff in Hle. congruence.
  - destruct (Qle_bool b a) eqn:E; [| reflexivity].
    apply Qle_bool_iff in E. exfalso. exact (Qlt_not_le _ _ H E).
Qed.

Lemma Qlt_bool_false_iff (a b : Q) : Js.Qlt_bool a b = false <-> b <= a.
Proof.
  unfold Js.Qlt_bool. rewrite negb_false_iff. apply Qle_bool_iff.
Qed.

Lemma Qle_bool_false_iff (a b : Q) : Qle_bool a b = false <-> b < a.
Proof.
  split; intros H.
  - apply Qnot_le_lt. intros Hle. apply Qle_bool_iff in Hle.
    rewrite Hle in H. discriminate H.
  - destruct (Qle_bool a b) eqn:E; [| reflexivity].
    apply Qle_bool_iff in E. exfalso. exact (Qlt_not_le _ _ H E).
Qed.

Lemma inject_Z_succ (z : Z) : inject_Z (z + 1) == inject_Z z + 1.
Proof. rewrite inject_Z_plus. reflexivity. Qed.

Lemma inject_Z_nonneg (z : Z) : (0 <= z)%Z -> 0 <= inject_Z z.
Proof. intros H. rewrite Zle_Qle in H. exact H. Qed.

Lemma inject_Z_nonpos (z : Z) : (z <= 0)%Z -> inject_Z z <= 0.
Proof. intros H. rewrite Zle_Qle in H. exact H. Qed.

Lemma Qlt_floor_succ (x : Q) : x < inject_Z (Qfloor x) + 1.
Proof. rewrite <- inject_Z_succ. apply Qlt_floor. Qed.


Lemma inject_Z_lt_succ (a b : Z) :
  inject_Z a < inject_Z b + 1 -> (a <= b)%Z.
Proof.
  intros H.
  destruct (Z.le_gt_cases a b) as [Hle | Hgt]; [assumption |].
  assert (Hb : (b + 1 <= a)%Z) by lia.
  rewrite Zle_Qle, inject_Z_succ in Hb. lra.
Qed.

(** An integer strictly between [x - 1] and [x] is the floor of [x], one
    strictly between [x] and [x + 1] its successor. *)
Lemma floor_unique (x : Q) (z : Z) :
  inject_Z z <= x -> x < inject_Z z + 1 -> Qfloor x = z.
Proof.
  intros Hlo Hhi.
  pose proof (Qfloor_le x) as Hfl.
  pose proof (Qlt_floor_succ x) as Hfu.
  apply Z.le_antisymm; apply inject_Z_lt_succ; lra.
Qed.



End NumberFacts.

(** ** Grid geometry *)

Module GeometryFacts.

Local Open Scope Q_scope.


Lemma draw_geometry_square (g : BasicGraph.t) :
  BasicGraph.strict (BasicGraph.grid (BasicGraph.options g)) = true ->
  BasicGraph.x (BasicGraph.gridRectSize g) = BasicGraph.y (BasicGraph.gridRectSize g) ->
  BasicGraph.x (BasicGraph.gridRectSize (BasicGraph.draw_geometry g))
  = BasicGraph.y (BasicGraph.gridRectSize (BasicGraph.draw_geometry g)).
Proof.
  intros Hs Hxy. unfold BasicGraph.draw_geometry, BasicGraph.optimiseSquareSizePass.
  destruct (_ && _); simpl; [now rewrite Hs | exact Hxy].
Qed.

End GeometryFacts.

(** C4.  With [grid.strict] set, the constructor leaves both sides of a grid
    cell at the smaller of the two raw sides (for raw sides 12.3 and 9.7 both
    become 9.7), and the cell is still square after the geometry pass of
    [draw()]. *)
Theorem strict_grid_takes_minimum :
  forall g : BasicGraph.t,
    BasicGraph.strict (BasicGraph.grid (BasicGraph.options g)) = true ->
    let xl := (width (BasicGraph.canvas g)
               - (BasicGraph.right (BasicGraph.padding g)
                  + BasicGraph.left (BasicGraph.padding g)
                  + BasicGraph.labelFontSize (BasicGraph.options g)))%Q in
    let yl := (height (BasicGraph.canvas g)
               - (BasicGraph.top (BasicGraph.padding g)
                  + BasicGraph.bottom (BasicGraph.padding g)))%Q in
    let raw := BasicGraph.rawGridRectSize g xl yl in
    let m := Js.Math_min (BasicGraph.x raw) (BasicGraph.y raw) in
    let built := BasicGraph.constructor_geometry g in
    BasicGraph.gridRectSize built = {| BasicGraph.x := m; BasicGraph.y := m |} /\
    (m <= BasicGraph.x raw)%Q /\ (m <= BasicGraph.y raw)%Q /\
    (m = BasicGraph.x raw \/ m = BasicGraph.y raw) /\
    (BasicGraph.x raw = (123 # 10)%Q -> BasicGraph.y raw = (97 # 10)%Q ->
       BasicGraph.gridRectSize built
       = {| BasicGraph.x := (97 # 10)%Q; BasicGraph.y := (97 # 10)%Q |}) /\
    BasicGraph.x (BasicGraph.gridRectSize (BasicGraph.draw_geometry built))
    = BasicGraph.y (BasicGraph.gridRectSize (BasicGraph.draw_geometry built)).
Proof.
  intros g Hs xl yl raw m built.
  assert (Hbuilt : BasicGraph.gridRectSize built
                   = {| BasicGraph.x := m; BasicGraph.y := m |}).
  { unfold built, BasicGraph.constructor_geometry, BasicGraph.calculateLengths,
      BasicGraph.applyStrict. simpl. rewrite Hs. reflexivity. }
  split; [exact Hbuilt |].
  split; [apply NumberFacts.Math_min_le_l |].
  split; [apply NumberFacts.Math_min_le_r |].
  split; [apply NumberFacts.Math_min_cases |].
  split.
  - intros Hx Hy. rewrite Hbuilt. unfold m. rewrite Hx, Hy. reflexivity.
  - apply GeometryFacts.draw_geometry_square.
    + exact Hs.
    + rewrite Hbuilt. reflexivity.
Qed.

Lemma strict_grid_takes_minimum_witness :
  BasicGraph.strict
    (BasicGraph.grid (BasicGraph.options (Sample.graph true true 0))) = true /\
  BasicGraph.gridRectSize (BasicGraph.constructor_geometry (Sample.graph true true 0))
  = {| BasicGraph.x := (97 # 10)%Q; BasicGraph.y := (97 # 10)%Q |}.
Proof.
  split; [reflexivity |].
  destruct (strict_grid_takes_minimum (Sample.graph true true 0) eq_refl)
    as [_ [_ [_ [_ [Hexample _]]]]].
  apply Hexample; reflexivity.
Defined.



(** ** Drawing primitives out of bounds *)

(** C8, as amended.  A primitive (circle, horizontalLine, verticalLine,
    text) asked to draw at a point outside the canvas raises at once when
    [bypassOutOfBoundsDrawing] is off: nothing is logged and the context is
    not touched.  When it is on, each failed check is logged as a warning and
    the primitive then issues its canvas calls all the same. *)
Theorem out_of_bounds_raises_or_warns_and_draws :
  forall (d : Drawer.t) (p : Drawer.Primitive) (x y : Q) (w : World),
    Drawer.outOfBounds d x y = true ->
    (bypassOutOfBoundsDrawing (config w) = false ->
       exists message, Drawer.draw d p x y w = (w, Thrown message)) /\
    (bypassOutOfBoundsDrawing (config w) = true ->
       exists w' warnings,
         Drawer.draw d p x y w = (w', Returned tt) /\
         warnings <> [] /\
         console w' = console w ++ warnings /\
         calls (ctx w') = calls (ctx w) ++ Drawer.callsOf p x y).
Proof.
  intros d p x y [[bypass] con c] Hout.
  unfold Drawer.outOfBounds in Hout.
  split; intros Hb; simpl in Hb; subst bypass.
  - destruct p; unfold Drawer.draw, Drawer.circle, Drawer.horizontalLine,
      Drawer.verticalLine, Drawer.text, Drawer._coordinateSafetyCheck,
      Assert.assert, bind, getConfig, throw, ret; simpl;
    destruct (Drawer.inRange x 0 (width (Drawer.canvas d)));
    destruct (Drawer.inRange y 0 (height (Drawer.canvas d)));
    simpl in *; try discriminate; eexists; reflexivity.
  - destruct p as [rad | len | len | s size colour alignment];
      unfold Drawer.draw, Drawer.circle, Drawer.horizontalLine,
        Drawer.verticalLine, Drawer.text, Drawer._coordinateSafetyCheck,
        Drawer.toTextMode, Drawer.setStrokeStyle, call, modifyCtx, getCtx,
        Assert.assert, bind, getConfig, console_warn, warned, throw, ret; simpl;
    destruct (Drawer.inRange x 0 (width (Drawer.canvas d)));
    destruct (Drawer.inRange y 0 (height (Drawer.canvas d)));
    simpl in *; try discriminate;
    try (destruct (Drawer.inRange (x + len) 0 (width (Drawer.canvas d))); simpl);
    try (destruct (Drawer.inRange (y + len) 0 (width (Drawer.canvas d))); simpl);
    eexists; eexists;
    (split; [reflexivity |]);
    simpl; rewrite <- ?app_assoc; simpl;
    (split; [| split; [reflexivity | reflexivity]]); discriminate.
Qed.

Lemma out_of_bounds_raises_or_warns_and_draws_witness :
  Drawer.outOfBounds Sample.drawer (-1) 5 = true /\
  snd (Drawer.draw Sample.drawer (Drawer.Circle 2) (-1) 5 (Sample.world false))
  = Thrown "Assertion failed: Drawer request failed since x-coordinate is out of bounds" /\
  calls (ctx (fst (Drawer.draw Sample.drawer (Drawer.Circle 2) (-1) 5
                     (Sample.world true))))
  = Drawer.callsOf (Drawer.Circle 2) (-1) 5.
Proof.
  split; [reflexivity |].
  pose proof (@out_of_bounds_raises_or_warns_and_draws Sample.drawer
                (Drawer.Circle 2) (-1)%Q 5%Q (Sample.world false)
                eq_refl) as [Hoff _].
  pose proof (@out_of_bounds_raises_or_warns_and_draws Sample.drawer
                (Drawer.Circle 2) (-1)%Q 5%Q (Sample.world true)
                eq_refl) as [_ Hon].
  destruct (Hoff eq_refl) as [message Hm].
  destruct (Hon eq_refl) as [w' [warnings [Hd [_ [_ Hcalls]]]]].
  split.
  - reflexivity.
  - rewrite Hd. simpl. rewrite Hcalls. reflexivity.
Defined.

(** C8 as stated fails: with the bypass on, a circle centred left of the
    canvas is logged as a warning and drawn nevertheless. *)
Lemma bypass_does_not_skip_draw :
  ~ (forall (d : Drawer.t) (p : Drawer.Primitive) (x y : Q) (w : World),
       Drawer.outOfBounds d x y = true ->
       bypassOutOfBoundsDrawing (config w) = true ->
       calls (ctx (fst (Drawer.draw d p x y w))) = calls (ctx w))
  /\ Drawer.draw Sample.drawer (Drawer.Circle 2) (-1) 5 (Sample.world true)
     = ({| config := {| bypassOutOfBoundsDrawing := true |};
           console := ["Assertion failed: Drawer request failed since x-coordinate is out of bounds"];
           ctx := {| strokeStyle := "black"; fillStyle := "black";
                     globalAlpha := 1; lineWidth := 1; textAlign := "start";
                     font := "10px sans-serif";
                     calls := [BeginPath; Arc (-1) 5 2; Fill; ClosePath] |} |},
        Returned tt).
Proof.
  split; [| reflexivity].
  intros H.
  specialize (H Sample.drawer (Drawer.Circle 2) (-1)%Q 5%Q (Sample.world true)
                eq_refl eq_refl).
  discriminate H.
Qed.

(** The end point of a vertical line is compared with the canvas width: on
    the 143 x 127 sample canvas a line running from y = 120 down to y = 140
    passes the checks. *)
Lemma verticalLine_end_compared_with_width :
  Drawer.verticalLine Sample.drawer 10 120 20 (Sample.world false)
  = ({| config := {| bypassOutOfBoundsDrawing := false |};
        console := [];
        ctx := {| strokeStyle := "black"; fillStyle := "black";
                  globalAlpha := 1; lineWidth := 1; textAlign := "start";
                  font := "10px sans-serif";
                  calls := [BeginPath; MoveTo 10 120; LineTo 10 (120 + 20);
                            Stroke; ClosePath] |} |},
     Returned tt).
Proof. reflexivity. Qed.

(** ** The tick-count guard of [Axis] *)




(** ** Legend layout *)

Module LegendFacts.

Local Open Scope Q_scope.

Lemma fold_left_Qplus_acc (l : list Q) (acc : Q) :
  fold_left Qplus l acc == acc + fold_left Qplus l 0.
Proof.
  revert acc. induction l as [| a l IH]; intros acc; simpl.
  - ring.
  - rewrite (IH (acc + a)), (IH (0 + a)). ring.
Qed.

Lemma sum_cons (a : Q) (l : list Q) : Arrays.sum (a :: l) == a + Arrays.sum l.
Proof.
  unfold Arrays.sum. simpl. rewrite fold_left_Qplus_acc. ring.
Qed.

Lemma sum_nil : Arrays.sum [] == 0.
Proof. reflexivity. Qed.

Lemma sum_nonneg (l : list Q) : Forall (fun v => 0 <= v) l -> 0 <= Arrays.sum l.
Proof.
  induction 1 as [| a l Ha _ IH].
  - apply Qle_refl.
  - rewrite sum_cons. lra.
Qed.

Lemma mapi_length {A B} (f : nat -> A -> B) (i : nat) (xs : list A) :
  List.length (LegendManager.mapi f i xs) = List.length xs.
Proof.
  revert i. induction xs as [| a xs IH]; intros i; simpl; [reflexivity |].
  now rewrite IH.
Qed.

Lemma mapi_Forall {A B} (P : B -> Prop) (f : nat -> A -> B) (xs : list A) :
  (forall i a, P (f i a)) -> forall i, Forall P (LegendManager.mapi f i xs).
Proof.
  intros HP. induction xs as [| a xs IH]; intros i; simpl; constructor; auto.
Qed.

Section Host.

Variable measureText : string -> Q.
Variables axisColour PURPLE : string.

(** The loop moves the x offset by the sum of the spacings it walks over and
    leaves the y offset alone. *)
Lemma drawEntries_horizontal (l : LegendManager.t) (items : list LegendManager.Item) :
  forall (spaces : list Q) (xBegin yBegin : Q) (w w' : World) (final : Q * Q),
    List.length items = List.length spaces ->
    LegendManager.drawEntries axisColour l LegendManager.Horizontal items spaces
      xBegin yBegin w = (w', Returned final) ->
    fst final == xBegin + Arrays.sum spaces /\ snd final = yBegin.
Proof.
  induction items as [| item items IH];
    intros spaces xBegin yBegin w w' final Hlen Hrun.
  - destruct spaces; [| discriminate].
    simpl in Hrun. unfold ret in Hrun. injection Hrun as _ <-.
    simpl. split; [rewrite sum_nil; ring | reflexivity].
  - destruct spaces as [| space spaces]; [discriminate |].
    simpl in Hrun. unfold bind at 1 in Hrun.
    destruct (LegendManager.drawLegend axisColour l _ _ _ xBegin yBegin w)
      as [w1 [[] | e]]; [| discriminate].
    apply IH in Hrun; [| simpl in Hlen; lia].
    destruct Hrun as [Hx Hy].
    split; [rewrite Hx, sum_cons; ring | exact Hy].
Qed.

(** With the bypass on nothing in the loop can raise, so it returns. *)
Lemma assert_bypassed (condition : bool) (message : option string) (w : World) :
  bypassOutOfBoundsDrawing (config w) = true ->
  exists w', Assert.assert condition message w = (w', Returned tt) /\
             config w' = config w.
Proof.
  intros Hb. unfold Assert.assert, bind, getConfig, console_warn.
  destruct condition; simpl.
  - exists w. split; reflexivity.
  - rewrite Hb. eexists. split; reflexivity.
Qed.

Lemma text_bypassed (d : Drawer.t) (s : string) (x y size : Q)
    (colour alignment : option string) (w : World) :
  bypassOutOfBoundsDrawing (config w) = true ->
  exists w', Drawer.text d s x y size colour alignment w = (w', Returned tt) /\
             config w' = config w.
Proof.
  intros Hb. unfold Drawer.text, Drawer._coordinateSafetyCheck.
  destruct (assert_bypassed (Drawer.inRange x 0 (width (Drawer.canvas d)))
              (Some "Drawer request failed since x-coordinate is out of bounds")
              w Hb) as [w1 [H1 C1]].
  assert (Hb1 : bypassOutOfBoundsDrawing (config w1) = true) by now rewrite C1.
  destruct (assert_bypassed (Drawer.inRange y 0 (height (Drawer.canvas d)))
              (Some "Drawer request failed since y-coordinate is out of bounds")
              w1 Hb1) as [w2 [H2 C2]].
  unfold bind. rewrite H1, H2.
  unfold getCtx, Drawer.toTextMode, Drawer.setStrokeStyle, call, modifyCtx.
  eexists. split; [reflexivity |]. simpl. now rewrite C2.
Qed.

Lemma drawLegend_bypassed (l : LegendManager.t) (label colour style : string)
    (x y : Q) (w : World) :
  bypassOutOfBoundsDrawing (config w) = true ->
  exists w',
    LegendManager.drawLegend axisColour l label colour style x y w
    = (w', Returned tt) /\
    config w' = config w.
Proof.
  intros Hb. unfold LegendManager.drawLegend, bind.
  unfold LegendManager.setLegendStyle, LegendManager.setGlobalAlpha, call,
    modifyCtx.
  match goal with
  | |- context [Drawer.text ?d ?s ?a ?b ?sz ?c ?al ?w0] =>
      destruct (@text_bypassed d s a b sz c al w0 Hb) as [w1 [H1 C1]]
  end.
  rewrite H1. exists w1. split; [reflexivity | exact C1].
Qed.

Lemma drawEntries_bypassed (l : LegendManager.t) (o : LegendManager.Orientation)
    (items : list LegendManager.Item) :
  forall (spaces : list Q) (xBegin yBegin : Q) (w : World),
    bypassOutOfBoundsDrawing (config w) = true ->
    exists w' final,
      LegendManager.drawEntries axisColour l o items spaces xBegin yBegin w
      = (w', Returned final).
Proof.
  induction items as [| item items IH]; intros spaces xBegin yBegin w Hb.
  - simpl. eexists. eexists. reflexivity.
  - destruct spaces as [| space spaces];
      [simpl; eexists; eexists; reflexivity |].
    simpl. unfold bind at 1.
    destruct (@drawLegend_bypassed l (LegendManager.label item)
                (LegendManager.colour item) (LegendManager.style item)
                xBegin yBegin w Hb) as [w1 [H1 C1]].
    rewrite H1.
    assert (Hb1 : bypassOutOfBoundsDrawing (config w1) = true) by now rewrite C1.
    destruct o; apply IH; exact Hb1.
Qed.

Lemma debugBoundary_returns (l : LegendManager.t) (o : LegendManager.Orientation)
    (xBegin yBegin : Q) (w : World) :
  exists w',
    LegendManager.debugBoundary measureText PURPLE l o xBegin yBegin w
    = (w', Returned tt) /\
    config w' = config w.
Proof.
  unfold LegendManager.debugBoundary.
  destruct (BasicGraph.debug _).
  - unfold bind, getCtx, LegendManager.setStroke, call, modifyCtx.
    eexists. split; reflexivity.
  - exists w. split; reflexivity.
Qed.

Lemma placement_horizontal (l : LegendManager.t) :
  LegendManager.position l = LegendManager.Pos.TOP \/
  LegendManager.position l = LegendManager.Pos.BOTTOM ->
  exists xBegin yBegin,
    LegendManager.placement l = Some (LegendManager.Horizontal, xBegin, yBegin).
Proof.
  intros [H | H]; unfold LegendManager.placement; rewrite H; simpl;
    eexists; eexists; reflexivity.
Qed.

(** The constructor's [requiredSpace] for a legend above or below the plot. *)
Lemma new_requiredSpace_horizontal (g : BasicGraph.t)
    (data : list LegendManager.Item) (w w' : World) (l : LegendManager.t) :
  LegendManager.new measureText g data w = (w', Returned l) ->
  LegendManager.position l = LegendManager.Pos.TOP \/
  LegendManager.position l = LegendManager.Pos.BOTTOM ->
  LegendManager.requiredSpace l = LegendManager.boxSize l + LegendManager.PADDING /\
  LegendManager.boxSize l = BasicGraph.labelFontSize (BasicGraph.options g) + 4 /\
  LegendManager.data l = data.
Proof.
  unfold LegendManager.new.
  change (Assert.assert true (Some "Legend data must not be null")) with (ret tt).
  unfold bind, ret.
  destruct (String.eqb (LegendManager.resolvePosition g) LegendManager.Pos.LEFT
            || String.eqb (LegendManager.resolvePosition g) LegendManager.Pos.RIGHT)
    eqn:Hside.
  - destruct (Arrays.longest (map LegendManager.label data) w) as [w1 [s | e]];
      [| discriminate].
    intros [= _ <-]. simpl. intros [Hp | Hp]; rewrite Hp in Hside; discriminate.
  - intros [= _ <-]. simpl. intros _. repeat split.
Qed.

End Host.

End LegendFacts.

(** C9, as amended.  For a legend above or below the plot, whenever [draw()]
    returns, the x offset has moved from its first value by exactly
    [arrays.sum(requiredSpaces)], the per-entry list that the alignment step
    sums as well, and the y offset has not moved.  The [requiredSpace] that
    the constructor computes for the padding is [boxSize + PADDING], the
    height of the legend row, whatever the entries. *)
Theorem legend_horizontal_offsets :
  forall (measureText : string -> Q) (axisColour PURPLE : string)
         (g : BasicGraph.t) (data : list LegendManager.Item)
         (w0 w1 w w' : World) (l : LegendManager.t)
         (first final : Q * Q),
    LegendManager.new measureText g data w0 = (w1, Returned l) ->
    LegendManager.position l = LegendManager.Pos.TOP \/
    LegendManager.position l = LegendManager.Pos.BOTTOM ->
    LegendManager.draw measureText axisColour PURPLE l w
    = (w', Returned (Some (first, final))) ->
    (fst final
     == fst first
        + Arrays.sum (LegendManager.requiredSpaces measureText l
                        LegendManager.Horizontal))%Q /\
    snd final = snd first /\
    LegendManager.requiredSpace l
    = (BasicGraph.labelFontSize (BasicGraph.options g) + 4
       + LegendManager.PADDING)%Q.
Proof.
  intros measureText axisColour PURPLE g data w0 w1 w w' l first final
    Hnew Hpos Hdraw.
  destruct (LegendFacts.new_requiredSpace_horizontal _ _ _ _ Hnew Hpos)
    as [Hspace [Hbox _]].
  destruct (LegendFacts.placement_horizontal l Hpos) as [xBegin [yBegin Hpl]].
  unfold LegendManager.draw in Hdraw. rewrite Hpl in Hdraw.
  unfold bind in Hdraw.
  destruct (LegendManager.debugBoundary _ _ _ _ _ _ w) as [w2 [[] | e]];
    [| discriminate].
  destruct (LegendManager.drawEntries _ _ _ _ _ _ _ w2) as [w3 [fin | e]] eqn:Hrun;
    [| discriminate].
  unfold ret in Hdraw. injection Hdraw as _ <- <-.
  apply LegendFacts.drawEntries_horizontal in Hrun.
  - destruct Hrun as [Hx Hy].
    split; [exact Hx |]. split; [exact Hy |].
    rewrite Hspace, Hbox. reflexivity.
  - unfold LegendManager.requiredSpaces. now rewrite LegendFacts.mapi_length.
Qed.

Lemma legend_horizontal_offsets_witness :
  LegendManager.new Sample.measureText Sample.legendGraph Sample.legendItems
    (Sample.world false)
  = (Sample.world false, Returned Sample.legend) /\
  (fst (20 + 47 + 46, 8)
   == fst (20, 8)
      + Arrays.sum (LegendManager.requiredSpaces Sample.measureText Sample.legend
                      LegendManager.Horizontal))%Q /\
  LegendManager.requiredSpace Sample.legend = (12 + 4 + LegendManager.PADDING)%Q.
Proof.
  assert (Hnew : LegendManager.new Sample.measureText Sample.legendGraph
                   Sample.legendItems (Sample.world false)
                 = (Sample.world false, Returned Sample.legend))
    by (vm_compute; reflexivity).
  assert (Hdraw : LegendManager.draw Sample.measureText "grey" "purple"
                    Sample.legend (Sample.world false)
                  = (Sample.drawnLegendWorld,
                     Returned (Some ((20, 8)%Q, (20 + 47 + 46, 8)%Q))))
    by (vm_compute; reflexivity).
  split; [exact Hnew |].
  pose proof (@legend_horizontal_offsets Sample.measureText "grey" "purple"
                Sample.legendGraph Sample.legendItems
                (Sample.world false) (Sample.world false) (Sample.world false)
                Sample.drawnLegendWorld
                Sample.legend (20, 8)%Q (20 + 47 + 46, 8)%Q
                Hnew (or_introl eq_refl) Hdraw) as [Hx [_ Hspace]].
  split; [exact Hx | exact Hspace].
Defined.

(** C9 as stated fails: for the two-entry sample legend the entries take
    47 + 46 pixels along the row, while [requiredSpace] is 24. *)
Lemma legend_spacing_differs_from_requiredSpace :
  ~ (forall (measureText : string -> Q) (axisColour PURPLE : string)
            (g : BasicGraph.t) (data : list LegendManager.Item)
            (w0 w1 w w' : World) (l : LegendManager.t) (first final : Q * Q),
       LegendManager.new measureText g data w0 = (w1, Returned l) ->
       LegendManager.position l = LegendManager.Pos.TOP \/
       LegendManager.position l = LegendManager.Pos.BOTTOM ->
       LegendManager.draw measureText axisColour PURPLE l w
       = (w', Returned (Some (first, final))) ->
       (fst final - fst first == LegendManager.requiredSpace l)%Q)
  /\ LegendManager.requiredSpaces Sample.measureText Sample.legend
       LegendManager.Horizontal = [47%Q; 46%Q]
  /\ LegendManager.requiredSpace Sample.legend = (12 + 4 + 8)%Q
  /\ snd (LegendManager.draw Sample.measureText "grey" "purple" Sample.legend
            (Sample.world false))
     = Returned (Some ((20, 8)%Q, (20 + 47 + 46, 8)%Q)).
Proof.
  assert (Hnew : LegendManager.new Sample.measureText Sample.legendGraph
                   Sample.legendItems (Sample.world false)
                 = (Sample.world false, Returned Sample.legend))
    by (vm_compute; reflexivity).
  assert (Hdraw : LegendManager.draw Sample.measureText "grey" "purple"
                    Sample.legend (Sample.world false)
                  = (Sample.drawnLegendWorld,
                     Returned (Some ((20, 8)%Q, (20 + 47 + 46, 8)%Q))))
    by (vm_compute; reflexivity).
  split; [| split; [| split]].
  - intros H.
    specialize (H Sample.measureText "grey" "purple" Sample.legendGraph
                  Sample.legendItems (Sample.world false) (Sample.world false)
                  (Sample.world false) Sample.drawnLegendWorld
                  Sample.legend (20, 8)%Q (20 + 47 + 46, 8)%Q
                  Hnew (or_introl eq_refl) Hdraw).
    vm_compute in H. discriminate H.
  - vm_compute. reflexivity.
  - vm_compute. reflexivity.
  - rewrite Hdraw. reflexivity.
Qed.

(** More generally the two never agree on a legend with an entry, as long as
    font size and text widths are not negative. *)
Lemma legend_spacing_exceeds_requiredSpace
    (measureText : string -> Q) (l : LegendManager.t) :
  (forall s, 0 <= measureText s)%Q ->
  (0 <= LegendManager.boxSize l)%Q ->
  LegendManager.data l <> [] ->
  (LegendManager.boxSize l + LegendManager.PADDING
   < Arrays.sum (LegendManager.requiredSpaces measureText l
                   LegendManager.Horizontal))%Q.
Proof.
  intros Hm Hbox Hdata.
  assert (Hspace : forall i item,
             (2 * LegendManager.PADDING + LegendManager.boxSize l
              <= LegendManager.spaceOf measureText l LegendManager.Horizontal i item)%Q).
  { intros i item. unfold LegendManager.spaceOf, LegendManager.getRequiredSpaceFor.
    specialize (Hm (LegendManager.label item)).
    destruct (Nat.eqb i _); unfold LegendManager.PADDING; lra. }
  unfold LegendManager.requiredSpaces.
  destruct (LegendManager.data l) as [| item rest]; [congruence |].
  cbn [LegendManager.mapi]. rewrite LegendFacts.sum_cons.
  assert (Hrest : (0 <= Arrays.sum
                          (LegendManager.mapi
                             (LegendManager.spaceOf measureText l
                                LegendManager.Horizontal) 1 rest))%Q).
  { apply LegendFacts.sum_nonneg, LegendFacts.mapi_Forall.
    intros i a. specialize (Hspace i a).
    unfold LegendManager.PADDING in Hspace. lra. }
  specialize (Hspace 0%nat item).
  unfold LegendManager.PADDING in *. lra.
Qed.

(** With the bypass on, [draw()] returns for every legend above or below the
    plot, so the statement about its offsets is about every such legend. *)
Lemma legend_draw_returns_bypassed
    (measureText : string -> Q) (axisColour PURPLE : string)
    (l : LegendManager.t) (w : World) :
  bypassOutOfBoundsDrawing (config w) = true ->
  LegendManager.position l = LegendManager.Pos.TOP \/
  LegendManager.position l = LegendManager.Pos.BOTTOM ->
  exists w' offsets,
    LegendManager.draw measureText axisColour PURPLE l w
    = (w', Returned (Some offsets)).
Proof.
  intros Hb Hpos.
  destruct (LegendFacts.placement_horizontal l Hpos) as [xBegin [yBegin Hpl]].
  unfold LegendManager.draw. rewrite Hpl. unfold bind.
  match goal with
  | |- context [LegendManager.debugBoundary ?m ?c ?l0 ?o ?a ?b ?w0] =>
      destruct (@LegendFacts.debugBoundary_returns m c l0 o a b w0)
        as [w1 [H1 C1]]
  end.
  rewrite H1.
  assert (Hb1 : bypassOutOfBoundsDrawing (config w1) = true) by now rewrite C1.
  match goal with
  | |- context [LegendManager.drawEntries ?c ?l0 ?o ?items ?spaces ?a ?b ?w0] =>
      destruct (@LegendFacts.drawEntries_bypassed c l0 o items spaces a b w0 Hb1)
        as [w2 [final H2]]
  end.
  rewrite H2. eexists. eexists. reflexivity.
Qed.

(** ** Printing numbers *)

Module ToStringFacts.

Lemma length_append (a b : string) :
  String.length (append a b) = (String.length a + String.length b)%nat.
Proof. induction a as [| c a IH]; simpl; [reflexivity | now rewrite IH]. Qed.

Lemma Z_toString_zero (z : Z) : Js.Z_toString z = "0" -> z = 0%Z.
Proof.
  unfold Js.Z_toString. destruct z as [| p | p]; simpl.
  - reflexivity.
  - intros H. exfalso.
    pose proof (NilZero.usu _ (DecimalPos.Unsigned.to_uint_nonnil p)) as Hu.
    rewrite H in Hu. simpl in Hu. injection Hu as Hu.
    exact (DecimalPos.Unsigned.to_uint_nonzero p (eq_sym Hu)).
  - discriminate.
Qed.

Lemma Z_toString_nonempty (z : Z) : (1 <= String.length (Js.Z_toString z))%nat.
Proof.
  unfold Js.Z_toString.
  destruct z as [| p | p]; cbn [Z.to_int NilZero.string_of_int].
  - simpl. lia.
  - destruct (Pos.to_uint p); simpl; lia.
  - cbn [String.length]. lia.
Qed.

(** "0" is how zero prints, and nothing else prints so. *)
Lemma Number_toString_zero (q : Q) : Js.Number_toString q = "0" <-> (q == 0)%Q.
Proof.
  unfold Js.Number_toString. split.
  - destruct (Z.eqb_spec (Zpos (Qden (Qred q))) 1) as [Hden | Hden].
    + intros H. apply Z_toString_zero in H.
      rewrite <- (Qred_correct q).
      destruct (Qred q) as [n d]. simpl in *.
      injection Hden as ->. subst n. reflexivity.
    + intros H. exfalso.
      apply (f_equal String.length) in H.
      rewrite !length_append in H. cbn [String.length] in H.
      pose proof (Z_toString_nonempty
                    (Z.abs (Qnum (Qred q)) / Z.pos (Qden (Qred q)))).
      lia.
  - intros H. apply Qred_complete in H. rewrite H. reflexivity.
Qed.

End ToStringFacts.

(** ** Scales *)

Module ScaleFacts.

Local Open Scope Q_scope.

Lemma normalise_scale_pos (fuel : nat) :
  forall f p, 0 < p -> 0 < snd (Scale.normalise fuel f p).
Proof.
  induction fuel as [| n IH]; intros f p Hp; simpl; [exact Hp |].
  destruct (Js.Qlt_bool f 1).
  - apply IH. apply Qlt_shift_div_l; lra.
  - destruct (Qle_bool 10 f); [apply IH; lra | exact Hp].
Qed.

Lemma niceFraction_pos (f : Q) : 0 < Scale.niceFraction f.
Proof.
  unfold Scale.niceFraction.
  destruct (Qle_bool f 1); [reflexivity |].
  destruct (Qle_bool f 2); [reflexivity |].
  destruct (Qle_bool f 5); reflexivity.
Qed.

(** The rounded step is positive whatever it is computed from. *)
Lemma niceNum_pos (r : Q) : 0 < Scale.niceNum r.
Proof.
  unfold Scale.niceNum.
  pose proof (@normalise_scale_pos (Scale.fuelFor r) r 1 ltac:(reflexivity))
    as Hp.
  destruct (Scale.normalise (Scale.fuelFor r) r 1) as [f p]. simpl in Hp.
  apply Qmult_lt_0_compat; [apply niceFraction_pos | exact Hp].
Qed.

Lemma pow2_succ (n : nat) : Scale.pow2 (S n) == 2 * Scale.pow2 n.
Proof.
  unfold Scale.pow2. rewrite Nat2Z.inj_succ, Z.pow_succ_r by lia.
  now rewrite inject_Z_mult.
Qed.

Lemma pow2_pos (n : nat) : 0 < Scale.pow2 n.
Proof.
  unfold Scale.pow2. change 0 with (inject_Z 0). rewrite <- Zlt_Qlt.
  apply Z.pow_pos_nonneg; lia.
Qed.

(** [normalise] keeps the product of mantissa and power of ten, and with
    enough fuel its mantissa ends in [1, 10). *)
Lemma normalise_product (fuel : nat) :
  forall f p,
    fst (Scale.normalise fuel f p) * snd (Scale.normalise fuel f p) == f * p.
Proof.
  induction fuel as [| n IH]; intros f p; simpl; [reflexivity |].
  destruct (Js.Qlt_bool f 1).
  - rewrite IH. field.
  - destruct (Qle_bool 10 f); [rewrite IH; field | reflexivity].
Qed.

Lemma normalise_range (fuel : nat) :
  forall f p,
    0 < f ->
    (f < 1 -> 1 <= f * Scale.pow2 fuel) ->
    (10 <= f -> f < 10 * Scale.pow2 fuel) ->
    1 <= fst (Scale.normalise fuel f p) /\ fst (Scale.normalise fuel f p) < 10.
Proof.
  induction fuel as [| n IH]; intros f p Hf Hlow Hhigh.
  - simpl. change (Scale.pow2 0) with 1 in *.
    destruct (Qlt_le_dec f 1) as [H1 | H1]; [specialize (Hlow H1); lra |].
    destruct (Qlt_le_dec f 10) as [H2 | H2]; [lra | specialize (Hhigh H2); lra].
  - simpl. rewrite pow2_succ in Hlow, Hhigh.
    pose proof (pow2_pos n) as Hp.
    destruct (Js.Qlt_bool f 1) eqn:E1.
    + apply NumberFacts.Qlt_bool_iff in E1. specialize (Hlow E1).
      apply IH; [lra | |].
      * intros _.
        assert (0 <= f * Scale.pow2 n) by (apply Qmult_le_0_compat; lra).
        lra.
      * intros H. lra.
    + apply NumberFacts.Qlt_bool_false_iff in E1.
      destruct (Qle_bool 10 f) eqn:E2.
      * apply Qle_bool_iff in E2. specialize (Hhigh E2).
        apply IH.
        -- apply Qlt_shift_div_l; lra.
        -- intros H. exfalso.
           assert (1 <= f / 10) by (apply Qle_shift_div_l; lra). lra.
        -- intros _. apply Qlt_shift_div_r; [lra |].
           assert (0 < Scale.pow2 n) by exact Hp. nra.
      * cbn [fst]. split; [exact E1 |].
        now apply NumberFacts.Qle_bool_false_iff.
Qed.

Lemma fuelFor_low (r : Q) :
  0 < r -> r < 1 -> 1 <= r * Scale.pow2 (Scale.fuelFor r).
Proof.
  destruct r as [n d]. intros Hpos _.
  assert (Hn : (0 < n)%Z) by (unfold Qlt in Hpos; simpl in Hpos; lia).
  unfold Scale.pow2, Scale.fuelFor. simpl Qnum. simpl Qden.
  set (k := (Z.to_nat (Z.log2 (Z.abs n)) + Pos.to_nat (Pos.size d) + 1)%nat).
  assert (Hd : (Z.pos d < 2 ^ Z.of_nat k)%Z).
  { apply Z.lt_le_trans with (2 ^ Z.pos (Pos.size d))%Z.
    - pose proof (Pos.size_gt d) as H.
      apply Pos2Z.pos_lt_pos in H. rewrite Pos2Z.inj_pow in H. exact H.
    - apply Z.pow_le_mono_r; lia. }
  set (P := (2 ^ Z.of_nat k)%Z) in *.
  unfold Qle, Qmult, inject_Z. cbn [Qnum Qden]. nia.
Qed.

Lemma fuelFor_high (r : Q) : 0 < r -> r < 10 * Scale.pow2 (Scale.fuelFor r).
Proof.
  destruct r as [n d]. intros Hpos.
  assert (Hn : (0 < n)%Z) by (unfold Qlt in Hpos; simpl in Hpos; lia).
  unfold Scale.pow2, Scale.fuelFor. simpl Qnum. simpl Qden.
  rewrite (Z.abs_eq n) by lia.
  assert (Hk : (n < 2 ^ Z.of_nat (Z.to_nat (Z.log2 n)
                                    + Pos.to_nat (Pos.size d) + 1))%Z).
  { destruct (Z.log2_spec n Hn) as [_ Hlt].
    apply Z.lt_le_trans with (2 ^ Z.succ (Z.log2 n))%Z; [exact Hlt |].
    apply Z.pow_le_mono_r; [lia |].
    pose proof (Z.log2_nonneg n). lia. }
  set (P := (2 ^ Z.of_nat (Z.to_nat (Z.log2 n)
                           + Pos.to_nat (Pos.size d) + 1))%Z) in *.
  unfold Qlt, Qmult, inject_Z. cbn [Qnum Qden].
  pose proof (Pos2Z.is_pos d). nia.
Qed.

Lemma niceFraction_ge (f : Q) : f < 10 -> f <= Scale.niceFraction f.
Proof.
  intros H. unfold Scale.niceFraction.
  destruct (Qle_bool f 1) eqn:E1; [now apply Qle_bool_iff |].
  destruct (Qle_bool f 2) eqn:E2; [now apply Qle_bool_iff |].
  destruct (Qle_bool f 5) eqn:E5; [now apply Qle_bool_iff |].
  lra.
Qed.

Lemma niceFraction_le (f : Q) : 1 <= f -> Scale.niceFraction f <= (5 # 2) * f.
Proof.
  intros H. unfold Scale.niceFraction.
  destruct (Qle_bool f 1) eqn:E1; [lra |].
  apply NumberFacts.Qle_bool_false_iff in E1.
  destruct (Qle_bool f 2) eqn:E2; [lra |].
  apply NumberFacts.Qle_bool_false_iff in E2.
  destruct (Qle_bool f 5) eqn:E5; [lra |].
  apply NumberFacts.Qle_bool_false_iff in E5.
  lra.
Qed.

(** The rounded step is not below the raw step and less than two and a half
    times it. *)
Lemma niceNum_rounds_up (r : Q) :
  0 < r -> r <= Scale.niceNum r /\ Scale.niceNum r <= (5 # 2) * r.
Proof.
  intros Hr. unfold Scale.niceNum.
  pose proof (normalise_product (Scale.fuelFor r) r 1) as Hprod.
  pose proof (@normalise_range (Scale.fuelFor r) r 1 Hr
                (@fuelFor_low r Hr) (fun _ => @fuelFor_high r Hr)) as [Hlo Hhi].
  pose proof (@normalise_scale_pos (Scale.fuelFor r) r 1 ltac:(reflexivity))
    as Hp.
  destruct (Scale.normalise (Scale.fuelFor r) r 1) as [f p].
  cbn [fst snd] in *.
  pose proof (@niceFraction_ge f Hhi) as Hge.
  pose proof (@niceFraction_le f Hlo) as Hle.
  split.
  - assert (H1 : f * p <= Scale.niceFraction f * p)
      by (apply Qmult_le_compat_r; lra).
    rewrite Hprod in H1. lra.
  - assert (H1 : Scale.niceFraction f * p <= ((5 # 2) * f) * p)
      by (apply Qmult_le_compat_r; lra).
    assert (H2 : ((5 # 2) * f) * p == (5 # 2) * (f * p)) by ring.
    rewrite H2, Hprod in H1. lra.
Qed.

Lemma Math_max_pos (a b : Q) : 0 < a -> 0 < b -> 0 < Js.Math_max a b.
Proof. unfold Js.Math_max. now destruct (Qle_bool a b). Qed.

Lemma Math_max_ge_l (a b : Q) : a <= Js.Math_max a b.
Proof.
  unfold Js.Math_max. destruct (Qle_bool a b) eqn:E.
  - now apply Qle_bool_iff.
  - apply Qle_refl.
Qed.

Lemma Math_max_ge_r (a b : Q) : b <= Js.Math_max a b.
Proof.
  unfold Js.Math_max. destruct (Qle_bool a b) eqn:E.
  - apply Qle_refl.
  - apply Qlt_le_weak, Qnot_le_lt. intros H.
    apply Qle_bool_iff in H. congruence.
Qed.

(** The step of a scale built without [minimumScaleStep] and without
    switching the rounding off: the two scales of a y axis. *)
(** The example of the spec: over [0, 97] with ten ticks the step is 10, the
    rounded minimum 0 and the labels run from "0" to "100". *)
Example scale_0_97_10 :
  Scale.new Sample.scaleOptions (Sample.world false)
  = (Sample.world false, Returned (Scale.build Sample.scaleOptions)) /\
  Scale.scaleStep (Scale.build Sample.scaleOptions) = 10 /\
  Scale.roundedMinimum (Scale.build Sample.scaleOptions) == 0 /\
  Scale.getScaleLabels (Scale.build Sample.scaleOptions)
  = ["0"; "10"; "20"; "30"; "40"; "50"; "60"; "70"; "80"; "90"; "100"].
Proof. repeat split; vm_compute; reflexivity. Qed.

Lemma computeStep_pos (o : Scale.Options) :
  Scale.minimumScaleStep o = None ->
  Scale.optimiseTicks o = None ->
  0 < Scale.computeStep o.
Proof.
  intros Hm Ho. unfold Scale.computeStep. rewrite Hm, Ho. simpl.
  destruct (Qeq_bool _ _); [reflexivity | apply niceNum_pos].
Qed.

Lemma tickIndices_length (tc : Q) :
  0 <= tc ->
  List.length (Scale.tickIndices tc) = S (Z.to_nat (Qfloor tc)).
Proof.
  intros H. unfold Scale.tickIndices.
  assert (Hb : Js.Qlt_bool tc 0 = false)
    by (apply NumberFacts.Qlt_bool_false_iff; exact H).
  rewrite Hb. now rewrite length_map, length_seq.
Qed.

Lemma labelValues_length (s : Scale.t) :
  List.length (Scale.labelValues s)
  = List.length (Scale.tickIndices (Scale.getTickCount s)).
Proof.
  unfold Scale.labelValues.
  destruct (Js.nullish _ _); now rewrite ?length_rev, !length_map.
Qed.

Lemma getScaleLabels_length (s : Scale.t) :
  0 <= Scale.getTickCount s ->
  List.length (Scale.getScaleLabels s)
  = S (Z.to_nat (Qfloor (Scale.getTickCount s))).
Proof.
  intros H. unfold Scale.getScaleLabels.
  now rewrite length_map, labelValues_length, tickIndices_length.
Qed.

End ScaleFacts.

(** ** Labels of a scale and the zero among them *)

Module LabelFacts.

Local Open Scope Q_scope.

(** The label of tick [k] on a scale with rounded minimum [rm] and step [st]. *)
Lemma labels_as_map (rm st : Q) (ks : list nat) :
  map Js.Number_toString
    (map (fun i => rm + inject_Z i * st) (map Z.of_nat ks))
  = map (fun k => Js.Number_toString (rm + inject_Z (Z.of_nat k) * st)) ks.
Proof. now rewrite !map_map. Qed.

Lemma tick_value_increasing (rm st : Q) (a k : nat) :
  0 < st -> (a < k)%nat ->
  rm + inject_Z (Z.of_nat a) * st < rm + inject_Z (Z.of_nat k) * st.
Proof.
  intros Hst Hak.
  assert (Hz : (Z.of_nat a < Z.of_nat k)%Z) by lia.
  rewrite Zlt_Qlt in Hz. nra.
Qed.

(** On a scale with a positive step at most one tick is labelled "0". *)
Lemma zero_label_at_most_once (rm st : Q) (n : nat) :
  0 < st ->
  forall a,
    (count_occ string_dec
       (map (fun k => Js.Number_toString (rm + inject_Z (Z.of_nat k) * st))
            (seq a n)) "0" <= 1)%nat.
Proof.
  intros Hst. induction n as [| n IH]; intros a; simpl; [lia |].
  destruct (string_dec _ "0") as [Hzero | Hnz]; [| apply IH].
  apply ToStringFacts.Number_toString_zero in Hzero.
  assert (Hnone : ~ In "0"
                    (map (fun k => Js.Number_toString
                                     (rm + inject_Z (Z.of_nat k) * st))
                         (seq (S a) n))).
  { rewrite in_map_iff. intros [k [Hk Hin]].
    apply ToStringFacts.Number_toString_zero in Hk.
    apply in_seq in Hin.
    pose proof (@tick_value_increasing rm st a k Hst ltac:(lia)). lra. }
  apply (count_occ_not_In string_dec) in Hnone. lia.
Qed.

Lemma positive_labels_zero_once (s : Scale.t) :
  Scale.isNegativeScale (Scale.options s) = None ->
  0 < Scale.scaleStep s ->
  (count_occ string_dec (Scale.getScaleLabels s) "0" <= 1)%nat.
Proof.
  intros Hneg Hst.
  unfold Scale.getScaleLabels, Scale.labelValues. rewrite Hneg. simpl.
  unfold Scale.tickIndices. destruct (Js.Qlt_bool _ 0); [simpl; lia |].
  rewrite labels_as_map. now apply zero_label_at_most_once.
Qed.

Lemma includes_zero_count (labels : list string) :
  (count_occ string_dec labels "0" <= 1)%nat ->
  count_occ string_dec labels "0"
  = if existsb (String.eqb "0") labels then 1%nat else 0%nat.
Proof.
  intros Hle.
  destruct (existsb (String.eqb "0") labels) eqn:E.
  - apply existsb_exists in E. destruct E as [x [Hin Hx]].
    apply String.eqb_eq in Hx. subst x.
    apply (count_occ_In string_dec) in Hin. lia.
  - apply (count_occ_not_In string_dec).
    intros Hin.
    assert (Ht : existsb (String.eqb "0") labels = true).
    { apply existsb_exists. exists "0". split; [exact Hin | apply String.eqb_refl]. }
    congruence.
Qed.

(** A negative scale that starts at zero: every label but the last is the
    negation of a positive multiple of the step, and the last one is "0". *)
Lemma negative_labels_shape (s : Scale.t) :
  Scale.isNegativeScale (Scale.options s) = Some true ->
  0 <= Scale.getTickCount s ->
  Scale.roundedMinimum s == 0 ->
  0 < Scale.scaleStep s ->
  exists init,
    Scale.getScaleLabels s = init ++ ["0"] /\
    ~ In "0" init /\
    List.length init = Z.to_nat (Qfloor (Scale.getTickCount s)).
Proof.
  intros Hneg Htc Hrm Hst.
  unfold Scale.getScaleLabels, Scale.labelValues. rewrite Hneg. simpl.
  unfold Scale.tickIndices.
  assert (Hb : Js.Qlt_bool (Scale.getTickCount s) 0 = false)
    by (apply NumberFacts.Qlt_bool_false_iff; exact Htc).
  rewrite Hb. set (n := Z.to_nat (Qfloor (Scale.getTickCount s))).
  simpl seq. simpl map at 3. simpl map at 2. simpl map at 1.
  rewrite !map_app. simpl.
  eexists. split; [| split].
  - f_equal. f_equal.
    apply ToStringFacts.Number_toString_zero. rewrite Hrm. ring.
  - rewrite <- !map_rev, !map_map, in_map_iff.
    intros [k [Hk Hin]].
    apply ToStringFacts.Number_toString_zero in Hk.
    apply in_rev, in_seq in Hin.
    assert (Hz : (1 <= Z.of_nat k)%Z) by lia.
    rewrite Zle_Qle in Hz. change (inject_Z 1) with 1 in Hz.
    rewrite Hrm in Hk.
    assert (Hprod : 0 <= (inject_Z (Z.of_nat k) - 1) * Scale.scaleStep s)
      by (apply Qmult_le_0_compat; lra).
    lra.
  - now rewrite !length_map, length_rev, !length_map, length_seq.
Qed.

(** Tick [i] of a negative scale that starts at zero carries the value
    [-(n - i) * step], [n] being the last tick: the values run from
    [-n * step] up to zero. *)
Lemma negative_values_descend (s : Scale.t) :
  Scale.isNegativeScale (Scale.options s) = Some true ->
  0 <= Scale.getTickCount s ->
  Scale.roundedMinimum s == 0 ->
  forall i : nat,
    (i <= Z.to_nat (Qfloor (Scale.getTickCount s)))%nat ->
    exists v,
      nth_error (Scale.labelValues s) i = Some v /\
      v == - (inject_Z (Z.of_nat (Z.to_nat (Qfloor (Scale.getTickCount s)) - i))
              * Scale.scaleStep s).
Proof.
  intros Hneg Htc Hrm i Hi.
  unfold Scale.labelValues. rewrite Hneg. cbn [Js.nullish].
  unfold Scale.tickIndices.
  assert (Hb : Js.Qlt_bool (Scale.getTickCount s) 0 = false)
    by (apply NumberFacts.Qlt_bool_false_iff; exact Htc).
  rewrite Hb. set (n := Z.to_nat (Qfloor (Scale.getTickCount s))) in *.
  rewrite nth_error_rev, !length_map, length_seq.
  destruct (Nat.ltb_spec i (S n)) as [_ | Hge]; [| lia].
  rewrite !nth_error_map, nth_error_seq.
  destruct (Nat.ltb_spec (S n - S i) (S n)) as [_ | Hge]; [| lia].
  cbn [option_map]. eexists. split; [reflexivity |].
  replace (0 + (S n - S i))%nat with (n - i)%nat by lia.
  rewrite Hrm. ring.
Qed.

Lemma lastLabel_snoc (init : list string) (l : string) :
  Axis.lastLabel (init ++ [l]) = Some l.
Proof.
  unfold Axis.lastLabel, Js.len.
  rewrite length_app. simpl.
  replace (Z.of_nat (List.length init + 1) - 1)%Z
    with (Z.of_nat (List.length init)) by lia.
  rewrite ArrayFacts.idx_nth_error.
  rewrite nth_error_app2 by lia. now rewrite Nat.sub_diag.
Qed.

End LabelFacts.

(** ** Construction of an axis *)

Module AxisFacts.

Local Open Scope Q_scope.

Lemma halfTicks_pos (o : Axis.Options) :
  (0 < Axis.ticks o)%Z -> 0 < Axis.halfTicks o.
Proof.
  intros H. unfold Axis.halfTicks.
  rewrite Zlt_Qlt in H. change (inject_Z 0) with 0 in H.
  apply Qlt_shift_div_l; lra.
Qed.

Lemma halfTicks_floor (o : Axis.Options) :
  Qfloor (Axis.halfTicks o) = (Axis.ticks o / 2)%Z.
Proof. unfold Axis.halfTicks. symmetry. apply (Zdiv_Qdiv (Axis.ticks o) 2). Qed.

Lemma guard_passes (o : Axis.Options) (type : string) (w : World) :
  (0 < Axis.ticks o)%Z ->
  Assert.assert (0 <? Axis.ticks o)%Z (Some (Axis.typeMessage type)) w
  = (w, Returned tt).
Proof.
  intros H. unfold Assert.assert.
  now destruct (Z.ltb_spec 0 (Axis.ticks o)); [| lia].
Qed.

Lemma detects_negative (yData : list Q) (maxLen : Z) :
  (exists v, In v yData /\ v < 0) ->
  AxisManager.negativeScale (AxisManager.new yData maxLen) = true.
Proof.
  intros [v [Hin Hv]].
  unfold AxisManager.new, AxisManager.detectNegativeScale. simpl.
  apply existsb_exists. exists v. split; [exact Hin |].
  now apply NumberFacts.Qlt_bool_iff.
Qed.

(** The axis the constructor returns when the data has a negative half. *)
Lemma new_split (m : AxisManager.t) (o : Axis.Options) (w : World) :
  AxisManager.negativeScale m = true ->
  (0 < Axis.ticks o)%Z ->
  let a0 := Axis.initial m Axis.Y_AXIS o in
  let pos0 := Scale.build (Axis.positiveScaleOptions a0) in
  let neg0 := Scale.build (Axis.negativeScaleOptions a0) in
  let step := Js.Math_max (Scale.getScaleStep pos0) (Scale.getScaleStep neg0) in
  let pos := Scale.setTickStep pos0 step in
  let neg := Scale.setTickStep neg0 step in
  Axis.new m Axis.Y_AXIS o w
  = (w, Returned
          (Axis.set_scaleLabels
             (Axis.set_scales a0 step (Some pos) (Some neg) (Some 0))
             ((if match Axis.lastLabel (Scale.getScaleLabels neg) with
                  | Some l => String.eqb l "0"
                  | None => false
                  end
                  && existsb (String.eqb "0") (Scale.getScaleLabels pos)
               then removelast (Scale.getScaleLabels neg)
               else Scale.getScaleLabels neg)
              ++ Scale.getScaleLabels pos))).
Proof.
  intros Hneg Hticks a0 pos0 neg0 step pos neg.
  pose proof (halfTicks_pos o Hticks) as Hhalf.
  unfold Axis.new, bind. rewrite guard_passes by assumption.
  unfold Axis.computeAndGenerate, Axis._computeAxisScale, bind.
  change (String.eqb (Axis.type (Axis.initial m Axis.Y_AXIS o)) Axis.X_AXIS)
    with false.
  change (String.eqb (Axis.type (Axis.initial m Axis.Y_AXIS o)) Axis.Y_AXIS)
    with true.
  change (Axis.manager (Axis.initial m Axis.Y_AXIS o)) with m.
  rewrite Hneg. cbv iota.
  unfold Scale.new.
  assert (Htn : Qle_bool (Scale.tickCount (Axis.negativeScaleOptions
                   (Axis.initial m Axis.Y_AXIS o))) 0 = false)
    by (apply NumberFacts.Qle_bool_false_iff; exact Hhalf).
  assert (Htp : Qle_bool (Scale.tickCount (Axis.positiveScaleOptions
                   (Axis.initial m Axis.Y_AXIS o))) 0 = false).
  { apply NumberFacts.Qle_bool_false_iff. unfold Axis.positiveScaleOptions. simpl.
    rewrite Hneg. exact Hhalf. }
  rewrite Htn. unfold ret at 1. unfold ret at 1. rewrite Htp.
  unfold ret at 1. unfold ret at 1.
  unfold Axis.generateScaleNumbers. simpl.
  rewrite Hneg. reflexivity.
Qed.

(** With a negative half, only a positive tick count lets the constructor
    return. *)
Lemma new_split_ticks (m : AxisManager.t) (o : Axis.Options) (w w' : World)
    (axis : Axis.t) :
  AxisManager.negativeScale m = true ->
  Axis.new m Axis.Y_AXIS o w = (w', Returned axis) ->
  (0 < Axis.ticks o)%Z.
Proof.
  intros Hneg.
  destruct (Z.lt_ge_cases 0 (Axis.ticks o)) as [Hpos | Hle]; [intros _; exact Hpos |].
  assert (Hhalf : Qle_bool (Axis.halfTicks o) 0 = true).
  { apply Qle_bool_iff. unfold Axis.halfTicks.
    apply Qle_shift_div_r; [reflexivity |].
    rewrite Qmult_0_l. now apply NumberFacts.inject_Z_nonpos. }
  unfold Axis.new, bind.
  destruct (Assert.assert _ _ w) as [w1 [[] | e]]; [| discriminate].
  unfold Axis.computeAndGenerate, Axis._computeAxisScale, bind.
  change (String.eqb (Axis.type (Axis.initial m Axis.Y_AXIS o)) Axis.X_AXIS)
    with false.
  change (String.eqb (Axis.type (Axis.initial m Axis.Y_AXIS o)) Axis.Y_AXIS)
    with true.
  change (Axis.manager (Axis.initial m Axis.Y_AXIS o)) with m.
  rewrite Hneg. cbv iota. unfold Scale.new.
  change (Scale.tickCount
            (Axis.negativeScaleOptions (Axis.initial m Axis.Y_AXIS o)))
    with (Axis.halfTicks o).
  rewrite Hhalf. unfold throw. discriminate.
Qed.

(** The common step of a split axis is positive. *)
Lemma split_step_pos (m : AxisManager.t) (o : Axis.Options) :
  let a0 := Axis.initial m Axis.Y_AXIS o in
  0 < Js.Math_max
        (Scale.getScaleStep (Scale.build (Axis.positiveScaleOptions a0)))
        (Scale.getScaleStep (Scale.build (Axis.negativeScaleOptions a0))).
Proof.
  intros a0.
  apply ScaleFacts.Math_max_pos; apply ScaleFacts.computeStep_pos; reflexivity.
Qed.

(** The negative scale starts at zero. *)
Lemma neg_roundedMinimum (m : AxisManager.t) (o : Axis.Options) (step : Q) :
  let a0 := Axis.initial m Axis.Y_AXIS o in
  Scale.roundedMinimum
    (Scale.setTickStep (Scale.build (Axis.negativeScaleOptions a0)) step) == 0.
Proof.
  intros a0.
  change (Scale.computeRoundedMinimum (Axis.negativeScaleOptions a0)
            (Scale.computeStep (Axis.negativeScaleOptions a0)) == 0).
  unfold Scale.computeRoundedMinimum.
  change (Js.nullish (Scale.startAtZero (Axis.negativeScaleOptions a0)) false)
    with false.
  cbv iota.
  assert (Hlo : Scale.lowerBound (Axis.negativeScaleOptions a0) = 0)
    by (unfold Scale.lowerBound; simpl; now destruct (Arrays.getMax _)).
  rewrite Hlo.
  assert (Hfl : Js.Math_floor (0 / Scale.computeStep (Axis.negativeScaleOptions a0))
                = 0%Z).
  { unfold Js.Math_floor. apply NumberFacts.floor_unique.
    - unfold Qdiv. rewrite Qmult_0_l. apply Qle_refl.
    - unfold Qdiv. rewrite Qmult_0_l. reflexivity. }
  rewrite Hfl. ring.
Qed.

End AxisFacts.

(** C1.  Let the data of a y axis hold a negative value.  With a positive
    tick count the constructor returns; and whenever it returns, the axis
    holds both scales, the step of the positive scale and the step of the
    negative scale are one and the same, namely [Math.max] of the steps the
    two scales computed on their own, and that maximum is not below either
    of them. *)
Theorem split_axis_steps_synchronised :
  forall (yData : list Q) (maxLen : Z) (o : Axis.Options) (w : World),
    (exists v, In v yData /\ (v < 0)%Q) ->
    let m := AxisManager.new yData maxLen in
    let a0 := Axis.initial m Axis.Y_AXIS o in
    let positiveStep := Scale.getScaleStep (Scale.build (Axis.positiveScaleOptions a0)) in
    let negativeStep := Scale.getScaleStep (Scale.build (Axis.negativeScaleOptions a0)) in
    ((0 < Axis.ticks o)%Z ->
       exists axis, Axis.new m Axis.Y_AXIS o w = (w, Returned axis)) /\
    (forall (w' : World) (axis : Axis.t),
        Axis.new m Axis.Y_AXIS o w = (w', Returned axis) ->
        exists positive negative : Scale.t,
          Axis.positveScale axis = Some positive /\
          Axis.negativeScale axis = Some negative /\
          Scale.scaleStep positive = Scale.scaleStep negative /\
          Scale.scaleStep positive = Js.Math_max positiveStep negativeStep /\
          Axis.scaleStep axis = Js.Math_max positiveStep negativeStep /\
          (positiveStep <= Js.Math_max positiveStep negativeStep)%Q /\
          (negativeStep <= Js.Math_max positiveStep negativeStep)%Q /\
          (Js.Math_max positiveStep negativeStep = positiveStep \/
           Js.Math_max positiveStep negativeStep = negativeStep)).
Proof.
  intros yData maxLen o w Hdata m a0 positiveStep negativeStep.
  pose proof (AxisFacts.detects_negative yData maxLen Hdata) as Hneg.
  split.
  - intros Hticks. eexists. apply (AxisFacts.new_split m o w Hneg Hticks).
  - intros w' axis Hnew.
    pose proof (AxisFacts.new_split_ticks m o w Hneg Hnew) as Hticks.
    pose proof (AxisFacts.new_split m o w Hneg Hticks) as Hsplit.
    cbv zeta in Hsplit. rewrite Hsplit in Hnew. injection Hnew as _ <-.
    eexists. eexists.
    cbn [Axis.positveScale Axis.negativeScale Axis.scaleStep
           Axis.set_scaleLabels Axis.set_scales].
    repeat (split; [reflexivity |]).
    split; [apply ScaleFacts.Math_max_ge_l |].
    split; [apply ScaleFacts.Math_max_ge_r |].
    unfold Js.Math_max. destruct (Qle_bool _ _); auto.
Qed.

Lemma split_axis_steps_synchronised_witness :
  (exists v, In v Sample.mixedData /\ (v < 0)%Q) /\
  exists axis positive negative,
    Axis.new Sample.mixedManager Axis.Y_AXIS (Sample.yOptions 10)
      (Sample.world false) = (Sample.world false, Returned axis) /\
    Axis.positveScale axis = Some positive /\
    Axis.negativeScale axis = Some negative /\
    Scale.scaleStep positive = Scale.scaleStep negative.
Proof.
  assert (Hdata : exists v, In v Sample.mixedData /\ (v < 0)%Q).
  { exists (-5)%Q. split; [left; reflexivity | reflexivity]. }
  split; [exact Hdata |].
  destruct (@split_axis_steps_synchronised Sample.mixedData 4
              (Sample.yOptions 10) (Sample.world false) Hdata)
    as [Hreturns Hsteps].
  destruct (Hreturns ltac:(reflexivity)) as [axis Hnew].
  destruct (Hsteps _ _ Hnew) as [positive [negative [Hp [Hn [Hsame _]]]]].
  exists axis, positive, negative. auto.
Defined.

(** ** The label list of a split y axis *)

Module SplitFacts.

Local Open Scope Q_scope.

(** The axis built over data with a negative half: its two scales share the
    halved tick count, the negative labels are some labels other than "0"
    followed by "0", and the axis labels are the negative ones, without their
    last when the positive ones contain "0", followed by the positive ones. *)
Lemma split_axis_shape (m : AxisManager.t) (o : Axis.Options) (w : World) :
  AxisManager.negativeScale m = true ->
  (0 < Axis.ticks o)%Z ->
  exists (axis : Axis.t) (positive negative : Scale.t) (init : list string),
    Axis.new m Axis.Y_AXIS o w = (w, Returned axis) /\
    Axis.positveScale axis = Some positive /\
    Axis.negativeScale axis = Some negative /\
    Scale.getTickCount positive = Axis.halfTicks o /\
    Scale.getTickCount negative = Axis.halfTicks o /\
    Scale.getScaleLabels negative = init ++ ["0"] /\
    ~ In "0" init /\
    List.length init = Z.to_nat (Axis.ticks o / 2) /\
    (count_occ string_dec (Scale.getScaleLabels positive) "0" <= 1)%nat /\
    Axis.scaleLabels axis
    = (if existsb (String.eqb "0") (Scale.getScaleLabels positive)
       then init else init ++ ["0"])
      ++ Scale.getScaleLabels positive /\
    0 < Scale.scaleStep negative /\
    (forall i : nat,
        (i <= Z.to_nat (Axis.ticks o / 2))%nat ->
        exists v,
          nth_error (Scale.labelValues negative) i = Some v /\
          v == - (inject_Z (Z.of_nat (Z.to_nat (Axis.ticks o / 2) - i))
                  * Scale.scaleStep negative)).
Proof.
  intros Hneg Hticks.
  pose proof (AxisFacts.new_split m o w Hneg Hticks) as Hnew.
  cbv zeta in Hnew.
  set (a0 := Axis.initial m Axis.Y_AXIS o) in *.
  set (step := Js.Math_max _ _) in *.
  set (pos := Scale.setTickStep (Scale.build (Axis.positiveScaleOptions a0)) step) in *.
  set (neg := Scale.setTickStep (Scale.build (Axis.negativeScaleOptions a0)) step) in *.
  assert (Hstep : 0 < step) by apply AxisFacts.split_step_pos.
  assert (Hcp : Scale.getTickCount pos = Axis.halfTicks o).
  { unfold pos, Scale.getTickCount, Scale.setTickStep, Scale.build,
      Axis.positiveScaleOptions. simpl. now rewrite Hneg. }
  destruct (@LabelFacts.negative_labels_shape neg) as [init [Hshape [Hnone Hlen]]].
  - reflexivity.
  - apply Qlt_le_weak. exact (AxisFacts.halfTicks_pos o Hticks).
  - apply AxisFacts.neg_roundedMinimum.
  - exact Hstep.
  - assert (Hlast : Axis.lastLabel (Scale.getScaleLabels neg) = Some "0")
      by (rewrite Hshape; apply LabelFacts.lastLabel_snoc).
    assert (Hpos : (count_occ string_dec (Scale.getScaleLabels pos) "0" <= 1)%nat)
      by (apply LabelFacts.positive_labels_zero_once; [reflexivity | exact Hstep]).
    rewrite Hlast in Hnew. cbv iota in Hnew.
    change (String.eqb "0" "0") with true in Hnew. cbn [andb] in Hnew.
    eexists. exists pos, neg, init.
    split; [exact Hnew |].
    cbn [Axis.positveScale Axis.negativeScale Axis.scaleLabels
           Axis.set_scaleLabels Axis.set_scales].
    split; [reflexivity |]. split; [reflexivity |].
    split; [exact Hcp |]. split; [reflexivity |].
    split; [exact Hshape |]. split; [exact Hnone |].
    split.
    { rewrite Hlen. change (Scale.getTickCount neg) with (Axis.halfTicks o).
      now rewrite AxisFacts.halfTicks_floor. }
    split; [exact Hpos |].
    split; [| split; [exact Hstep |]].
    { rewrite Hshape.
      destruct (existsb (String.eqb "0") (Scale.getScaleLabels pos));
        [now rewrite removelast_last | reflexivity]. }
    intros i Hi.
    assert (Hfloor : Qfloor (Scale.getTickCount neg) = (Axis.ticks o / 2)%Z)
      by (change (Scale.getTickCount neg) with (Axis.halfTicks o);
          apply AxisFacts.halfTicks_floor).
    destruct (@LabelFacts.negative_values_descend neg) with (i := i)
      as [v [Hv Hval]].
    + reflexivity.
    + apply Qlt_le_weak. exact (AxisFacts.halfTicks_pos o Hticks).
    + apply AxisFacts.neg_roundedMinimum.
    + rewrite Hfloor. exact Hi.
    + exists v. split; [exact Hv |]. rewrite Hfloor in Hval. exact Hval.
Qed.

End SplitFacts.

(** C6.  Let the data of a y axis hold a negative value.  With a positive
    tick count the constructor returns; and whenever it returns, the label
    list of the axis is the labels of the negative scale followed by the
    labels of the positive scale.  The negative labels print the values
    [-(n - i) * step] for tick [i] of [n], so they descend towards a final
    "0"; when the positive labels contain "0" that final "0" is dropped
    before the two lists are joined.  Either way "0" occurs exactly once in
    the list. *)
Theorem split_axis_labels_single_zero :
  forall (yData : list Q) (maxLen : Z) (o : Axis.Options) (w : World),
    (exists v, In v yData /\ (v < 0)%Q) ->
    let m := AxisManager.new yData maxLen in
    ((0 < Axis.ticks o)%Z ->
       exists axis, Axis.new m Axis.Y_AXIS o w = (w, Returned axis)) /\
    (forall (w' : World) (axis : Axis.t),
        Axis.new m Axis.Y_AXIS o w = (w', Returned axis) ->
        exists positive negative : Scale.t,
          Axis.positveScale axis = Some positive /\
          Axis.negativeScale axis = Some negative /\
          Scale.getScaleLabels negative
          = map Js.Number_toString (Scale.labelValues negative) /\
          (0 < Scale.scaleStep negative)%Q /\
          (forall i : nat,
              (i <= Z.to_nat (Axis.ticks o / 2))%nat ->
              exists v,
                nth_error (Scale.labelValues negative) i = Some v /\
                (v == - (inject_Z (Z.of_nat (Z.to_nat (Axis.ticks o / 2) - i))
                         * Scale.scaleStep negative))%Q) /\
          Axis.lastLabel (Scale.getScaleLabels negative) = Some "0" /\
          Axis.scaleLabels axis
          = (if existsb (String.eqb "0") (Scale.getScaleLabels positive)
             then removelast (Scale.getScaleLabels negative)
             else Scale.getScaleLabels negative)
            ++ Scale.getScaleLabels positive /\
          count_occ string_dec (Axis.scaleLabels axis) "0" = 1%nat).
Proof.
  intros yData maxLen o w Hdata m.
  pose proof (AxisFacts.detects_negative yData maxLen Hdata) as Hneg.
  split.
  - intros Hticks.
    destruct (SplitFacts.split_axis_shape m o w Hneg Hticks) as [axis [_ [_ [_ [Hnew _]]]]].
    exists axis. exact Hnew.
  - intros w' axis0 Hnew0.
    pose proof (AxisFacts.new_split_ticks m o w Hneg Hnew0) as Hticks.
    destruct (SplitFacts.split_axis_shape m o w Hneg Hticks)
      as [axis [positive [negative [init
           [Hnew [Hp [Hn [_ [_ [Hshape [Hnone [_ [Hpos
             [Hlabels [Hstep Hdescend]]]]]]]]]]]]]]].
    rewrite Hnew in Hnew0. injection Hnew0 as _ <-.
    exists positive, negative.
    split; [exact Hp |]. split; [exact Hn |].
    split; [reflexivity |]. split; [exact Hstep |]. split; [exact Hdescend |].
    split; [rewrite Hshape; apply LabelFacts.lastLabel_snoc |].
    split.
    + rewrite Hlabels, Hshape.
      destruct (existsb (String.eqb "0") (Scale.getScaleLabels positive));
        [now rewrite removelast_last | reflexivity].
    + rewrite Hlabels, count_occ_app.
      rewrite (LabelFacts.includes_zero_count _ Hpos).
      apply (count_occ_not_In string_dec) in Hnone.
      destruct (existsb (String.eqb "0") (Scale.getScaleLabels positive)).
      * lia.
      * rewrite count_occ_app.
        change (count_occ string_dec ["0"] "0") with 1%nat. lia.
Qed.

Lemma split_axis_labels_single_zero_witness :
  (exists v, In v Sample.mixedData /\ (v < 0)%Q) /\
  exists axis,
    Axis.new Sample.mixedManager Axis.Y_AXIS (Sample.yOptions 10)
      (Sample.world false) = (Sample.world false, Returned axis) /\
    count_occ string_dec (Axis.scaleLabels axis) "0" = 1%nat.
Proof.
  assert (Hdata : exists v, In v Sample.mixedData /\ (v < 0)%Q).
  { exists (-5)%Q. split; [left; reflexivity | reflexivity]. }
  split; [exact Hdata |].
  destruct (@split_axis_labels_single_zero Sample.mixedData 4
              (Sample.yOptions 10) (Sample.world false) Hdata)
    as [Hreturns Hlabels].
  destruct (Hreturns ltac:(reflexivity)) as [axis Hnew].
  destruct (Hlabels _ _ Hnew)
    as [positive [negative [_ [_ [_ [_ [_ [_ [_ Hcount]]]]]]]]].
  exists axis. auto.
Defined.

Module AxisLabelFacts.

Local Open Scope Q_scope.

Lemma fillRange_length (max : Q) (w w' : World) (xs : list Z) :
  Arrays.fillRange max w = (w', Returned xs) ->
  List.length xs = Z.to_nat (Qfloor max).
Proof.
  unfold Arrays.fillRange.
  destruct (_ && _); [| discriminate].
  unfold ret. intros [= _ <-]. now rewrite length_map, length_seq.
Qed.

Lemma x_tickCount (m : AxisManager.t) (o : Axis.Options) :
  Scale.tickCount (Axis.xScaleOptions (Axis.initial m Axis.X_AXIS o))
  = inject_Z (Axis.ticks o - 1).
Proof. reflexivity. Qed.

Lemma computeAxisScale_x_inv (m : AxisManager.t) (o : Axis.Options)
    (w w' : World) (a1 : Axis.t) :
  Axis._computeAxisScale (Axis.initial m Axis.X_AXIS o) w = (w', Returned a1) ->
  Axis.positveScale a1
  = Some (Scale.build (Axis.xScaleOptions (Axis.initial m Axis.X_AXIS o))) /\
  Axis.type a1 = Axis.X_AXIS /\
  Axis.options a1 = o /\
  (1 < Axis.ticks o)%Z.
Proof.
  unfold Axis._computeAxisScale, bind.
  change (String.eqb (Axis.type (Axis.initial m Axis.X_AXIS o)) Axis.X_AXIS)
    with true.
  cbv iota. unfold Scale.new. rewrite x_tickCount.
  destruct (Qle_bool (inject_Z (Axis.ticks o - 1)) 0) eqn:Htc;
    [unfold throw; discriminate |].
  unfold ret. intros [= _ <-].
  repeat split.
  destruct (Z.lt_ge_cases 1 (Axis.ticks o)) as [H | H]; [exact H |].
  assert (Hq : inject_Z (Axis.ticks o - 1) <= 0)
    by (apply NumberFacts.inject_Z_nonpos; lia).
  apply Qle_bool_iff in Hq. congruence.
Qed.

Lemma generateScaleNumbers_x_inv (a : Axis.t) (pos : Scale.t) (n : Z)
    (w w' : World) (axis : Axis.t) :
  Axis.positveScale a = Some pos ->
  Axis.type a = Axis.X_AXIS ->
  Scale.getTickCount pos = inject_Z (n - 1) ->
  (1 < n)%Z ->
  Axis.generateScaleNumbers a w = (w', Returned axis) ->
  Axis.positveScale axis = Some pos /\
  List.length (Axis.scaleLabels axis) = Z.to_nat n.
Proof.
  intros Hpos Htype Hcount Hn.
  unfold Axis.generateScaleNumbers. rewrite Hpos, Htype.
  change (String.eqb Axis.X_AXIS Axis.X_AXIS) with true. cbv iota.
  assert (Hlabels : List.length (Scale.getScaleLabels pos) = Z.to_nat n).
  { rewrite ScaleFacts.getScaleLabels_length.
    - rewrite Hcount, Qfloor_Z. lia.
    - rewrite Hcount. apply NumberFacts.inject_Z_nonneg. lia. }
  assert (Hfill : forall w1 w2 xs,
             Arrays.fillRange (Scale.getTickCount pos + 1) w1 = (w2, Returned xs) ->
             List.length xs = Z.to_nat n).
  { intros w1 w2 xs Hf. rewrite (fillRange_length _ _ Hf), Hcount.
    assert (Hq : inject_Z (n - 1) + 1 == inject_Z n).
    { rewrite <- NumberFacts.inject_Z_succ.
      now replace (n - 1 + 1)%Z with n by lia. }
    rewrite Hq. now rewrite Qfloor_Z. }
  destruct (Axis.tickLabels (Axis.options a)) as [custom |];
    [destruct (Axis.drawLabels (Axis.options a)) |].
  - unfold bind.
    destruct (Assert.assert (0 <? Js.len custom)%Z None w) as [w2 [[] | e]];
      [| discriminate].
    unfold ret. intros [= _ <-]. cbn [Axis.positveScale Axis.scaleLabels Axis.set_scaleLabels].
    split; [exact Hpos |].
    now rewrite length_map, length_seq.
  - unfold bind.
    destruct (Arrays.fillRange _ w) as [w2 [xs | e]] eqn:Hf; [| discriminate].
    unfold ret. intros [= _ <-]. cbn [Axis.positveScale Axis.scaleLabels Axis.set_scaleLabels].
    split; [exact Hpos |].
    rewrite length_map. exact (Hfill _ _ _ Hf).
  - unfold bind.
    destruct (Arrays.fillRange _ w) as [w2 [xs | e]] eqn:Hf; [| discriminate].
    unfold ret. intros [= _ <-]. cbn [Axis.positveScale Axis.scaleLabels Axis.set_scaleLabels].
    split; [exact Hpos |].
    rewrite length_map. exact (Hfill _ _ _ Hf).
Qed.

(** What is known of an x axis once its constructor has returned. *)
Lemma new_x_inv (m : AxisManager.t) (o : Axis.Options) (w w' : World)
    (axis : Axis.t) :
  Axis.new m Axis.X_AXIS o w = (w', Returned axis) ->
  Axis.positveScale axis
  = Some (Scale.build (Axis.xScaleOptions (Axis.initial m Axis.X_AXIS o))) /\
  (1 < Axis.ticks o)%Z /\
  List.length (Axis.scaleLabels axis) = Z.to_nat (Axis.ticks o).
Proof.
  unfold Axis.new, bind.
  destruct (Assert.assert _ _ w) as [w1 [[] | e]]; [| discriminate].
  unfold Axis.computeAndGenerate, bind.
  destruct (Axis._computeAxisScale _ w1) as [w2 [a1 | e]] eqn:Hc; [| discriminate].
  apply computeAxisScale_x_inv in Hc. destruct Hc as [Hpos [Htype [_ Hticks]]].
  intros Hgen.
  destruct (@generateScaleNumbers_x_inv a1 _ (Axis.ticks o) w2 w' axis
              Hpos Htype eq_refl Hticks Hgen) as [Hp Hl].
  auto.
Qed.

Lemma fillRange_integer (max : Q) (n : Z) (w : World) :
  max == inject_Z n ->
  (0 <= n <= 4294967295)%Z ->
  exists xs, Arrays.fillRange max w = (w, Returned xs).
Proof.
  intros Hmax [Hlo Hhi]. unfold Arrays.fillRange.
  assert (Hfl : Qfloor max = n) by (rewrite Hmax; apply Qfloor_Z).
  rewrite Hfl.
  assert (H1 : Qeq_bool (inject_Z n) max = true)
    by (apply Qeq_bool_iff; now symmetry).
  assert (H2 : (0 <=? n)%Z = true) by (apply Z.leb_le; exact Hlo).
  assert (H3 : (n <=? 4294967295)%Z = true) by (apply Z.leb_le; exact Hhi).
  rewrite H1, H2, H3. eexists. reflexivity.
Qed.

(** An x axis with generated labels and a tick count from 2 up to the
    largest array length is built without incident. *)
Lemma new_x_returns (m : AxisManager.t) (o : Axis.Options) (w : World) :
  Axis.tickLabels o = None ->
  (2 <= Axis.ticks o <= 4294967295)%Z ->
  exists axis, Axis.new m Axis.X_AXIS o w = (w, Returned axis).
Proof.
  intros Hlabels [Hlo Hhi].
  unfold Axis.new, bind. rewrite AxisFacts.guard_passes by lia.
  unfold Axis.computeAndGenerate, Axis._computeAxisScale, bind.
  change (String.eqb (Axis.type (Axis.initial m Axis.X_AXIS o)) Axis.X_AXIS)
    with true.
  cbv iota. unfold Scale.new. rewrite x_tickCount.
  assert (Htc : Qle_bool (inject_Z (Axis.ticks o - 1)) 0 = false).
  { apply NumberFacts.Qle_bool_false_iff.
    assert (H : (0 < Axis.ticks o - 1)%Z) by lia.
    rewrite Zlt_Qlt in H. exact H. }
  rewrite Htc. unfold ret at 1. unfold ret at 1.
  unfold Axis.generateScaleNumbers.
  cbn [Axis.positveScale Axis.set_scales Axis.type Axis.options Axis.initial].
  change (String.eqb Axis.X_AXIS Axis.X_AXIS) with true. cbv iota.
  rewrite Hlabels. unfold bind.
  destruct (@fillRange_integer
              (Scale.getTickCount
                 (Scale.build (Axis.xScaleOptions (Axis.initial m Axis.X_AXIS o)))
               + 1)
              (Axis.ticks o) w) as [xs Hxs].
  - change (Scale.getTickCount _) with (inject_Z (Axis.ticks o - 1)).
    rewrite <- NumberFacts.inject_Z_succ.
    now replace (Axis.ticks o - 1 + 1)%Z with (Axis.ticks o) by lia.
  - lia.
  - rewrite Hxs. eexists. reflexivity.
Qed.

(** The y axis over data without a negative value. *)
Lemma new_single (m : AxisManager.t) (o : Axis.Options) (w : World) :
  AxisManager.negativeScale m = false ->
  (0 < Axis.ticks o)%Z ->
  exists axis positive,
    Axis.new m Axis.Y_AXIS o w = (w, Returned axis) /\
    Axis.positveScale axis = Some positive /\
    Axis.negativeScale axis = None /\
    Scale.getTickCount positive = inject_Z (Axis.ticks o) /\
    Axis.scaleLabels axis = Scale.getScaleLabels positive.
Proof.
  intros Hneg Hticks.
  unfold Axis.new, bind. rewrite AxisFacts.guard_passes by assumption.
  unfold Axis.computeAndGenerate, Axis._computeAxisScale, bind.
  change (String.eqb (Axis.type (Axis.initial m Axis.Y_AXIS o)) Axis.X_AXIS)
    with false.
  change (String.eqb (Axis.type (Axis.initial m Axis.Y_AXIS o)) Axis.Y_AXIS)
    with true.
  change (Axis.manager (Axis.initial m Axis.Y_AXIS o)) with m.
  rewrite Hneg. cbv iota. unfold ret at 1.
  unfold Scale.new.
  assert (Hcount : Scale.tickCount
                     (Axis.positiveScaleOptions (Axis.initial m Axis.Y_AXIS o))
                   = inject_Z (Axis.ticks o)).
  { unfold Axis.positiveScaleOptions. simpl. now rewrite Hneg. }
  assert (Htp : Qle_bool (Scale.tickCount (Axis.positiveScaleOptions
                   (Axis.initial m Axis.Y_AXIS o))) 0 = false).
  { apply NumberFacts.Qle_bool_false_iff. rewrite Hcount.
    rewrite Zlt_Qlt in Hticks. exact Hticks. }
  rewrite Htp. unfold ret at 1. unfold ret at 1.
  unfold Axis.generateScaleNumbers.
  cbn [Axis.positveScale Axis.negativeScale Axis.set_scales Axis.type
         Axis.manager Axis.initial].
  change (String.eqb Axis.Y_AXIS Axis.X_AXIS) with false. cbv iota.
  rewrite Hneg.
  eexists. eexists. split; [reflexivity |].
  cbn [Axis.positveScale Axis.negativeScale Axis.scaleLabels
         Axis.set_scaleLabels Axis.set_scales Axis.initial].
  repeat split. exact Hcount.
Qed.

End AxisLabelFacts.

(** C3, as amended.  The label list of an axis has the tick count of its
    scale plus one entries when the axis has a single scale: [ticks] entries
    on an x axis, whose scale is given [ticks - 1]; [ticks + 1] on a y axis
    over data without a negative value.  On a y axis with a negative half
    each of the two scales is given [ticks / 2] and produces
    [floor(ticks / 2) + 1] labels, and the axis list has twice that many
    entries, less one when the positive labels contain "0". *)
Theorem axis_label_counts :
  forall (m : AxisManager.t) (o : Axis.Options) (w : World),
    (forall w' axis,
        Axis.new m Axis.X_AXIS o w = (w', Returned axis) ->
        exists positive,
          Axis.positveScale axis = Some positive /\
          Scale.getTickCount positive = inject_Z (Axis.ticks o - 1) /\
          Js.len (Axis.scaleLabels axis) = (Axis.ticks o - 1 + 1)%Z) /\
    (Axis.tickLabels o = None ->
     (2 <= Axis.ticks o <= 4294967295)%Z ->
     exists axis, Axis.new m Axis.X_AXIS o w = (w, Returned axis)) /\
    (AxisManager.negativeScale m = false ->
     (0 < Axis.ticks o)%Z ->
     exists axis positive,
       Axis.new m Axis.Y_AXIS o w = (w, Returned axis) /\
       Axis.positveScale axis = Some positive /\
       Axis.negativeScale axis = None /\
       Scale.getTickCount positive = inject_Z (Axis.ticks o) /\
       Js.len (Axis.scaleLabels axis) = (Axis.ticks o + 1)%Z) /\
    (AxisManager.negativeScale m = true ->
     (0 < Axis.ticks o)%Z ->
     exists axis positive negative,
       Axis.new m Axis.Y_AXIS o w = (w, Returned axis) /\
       Axis.positveScale axis = Some positive /\
       Axis.negativeScale axis = Some negative /\
       Scale.getTickCount positive = Axis.halfTicks o /\
       Scale.getTickCount negative = Axis.halfTicks o /\
       Js.len (Scale.getScaleLabels positive) = (Axis.ticks o / 2 + 1)%Z /\
       Js.len (Scale.getScaleLabels negative) = (Axis.ticks o / 2 + 1)%Z /\
       Js.len (Axis.scaleLabels axis)
       = (2 * (Axis.ticks o / 2 + 1)
          - (if existsb (String.eqb "0") (Scale.getScaleLabels positive)
             then 1 else 0))%Z).
Proof.
  intros m o w. split; [| split; [| split]].
  - intros w' axis Hnew.
    apply AxisLabelFacts.new_x_inv in Hnew. destruct Hnew as [Hpos [Hticks Hlen]].
    eexists. split; [exact Hpos |]. split; [reflexivity |].
    unfold Js.len. rewrite Hlen. lia.
  - apply AxisLabelFacts.new_x_returns.
  - intros Hneg Hticks.
    destruct (AxisLabelFacts.new_single m o w Hneg Hticks)
      as [axis [positive [Hnew [Hp [Hn [Hcount Hlabels]]]]]].
    exists axis, positive.
    repeat (split; [assumption |]).
    unfold Js.len. rewrite Hlabels, ScaleFacts.getScaleLabels_length.
    + rewrite Hcount, Qfloor_Z. lia.
    + rewrite Hcount. apply NumberFacts.inject_Z_nonneg. lia.
  - intros Hneg Hticks.
    destruct (SplitFacts.split_axis_shape m o w Hneg Hticks)
      as [axis [positive [negative [init
           [Hnew [Hp [Hn [Hcp [Hcn [Hshape [_ [Hinit [_ [Hlabels _]]]]]]]]]]]]]].
    exists axis, positive, negative.
    repeat (split; [assumption |]).
    assert (Hhalf : (0 <= Axis.ticks o / 2)%Z) by (apply Z.div_pos; lia).
    assert (Hplen : List.length (Scale.getScaleLabels positive)
                    = S (Z.to_nat (Axis.ticks o / 2))).
    { rewrite ScaleFacts.getScaleLabels_length.
      - now rewrite Hcp, AxisFacts.halfTicks_floor.
      - rewrite Hcp. apply Qlt_le_weak, AxisFacts.halfTicks_pos, Hticks. }
    split; [unfold Js.len; rewrite Hplen; lia |].
    split; [unfold Js.len; rewrite Hshape, length_app, Hinit;
            cbn [List.length]; lia |].
    unfold Js.len. rewrite Hlabels, length_app, Hplen.
    destruct (existsb (String.eqb "0") (Scale.getScaleLabels positive)).
    + rewrite Hinit. lia.
    + rewrite length_app, Hinit. cbn [List.length]. lia.
Qed.

Lemma axis_label_counts_witness :
  (exists axis,
     Axis.new Sample.positiveManager Axis.X_AXIS (Sample.xOptions 10)
       (Sample.world false) = (Sample.world false, Returned axis) /\
     Js.len (Axis.scaleLabels axis) = 10%Z) /\
  (exists axis,
     Axis.new Sample.positiveManager Axis.Y_AXIS (Sample.yOptions 10)
       (Sample.world false) = (Sample.world false, Returned axis) /\
     Js.len (Axis.scaleLabels axis) = 11%Z) /\
  (exists axis,
     Axis.new Sample.aroundZeroManager Axis.Y_AXIS (Sample.yOptions 10)
       (Sample.world false) = (Sample.world false, Returned axis) /\
     Js.len (Axis.scaleLabels axis) = 11%Z).
Proof.
  destruct (axis_label_counts Sample.positiveManager (Sample.xOptions 10)
              (Sample.world false)) as [Hx [Hxr _]].
  destruct (axis_label_counts Sample.positiveManager (Sample.yOptions 10)
              (Sample.world false)) as [_ [_ [Hy _]]].
  destruct (axis_label_counts Sample.aroundZeroManager (Sample.yOptions 10)
              (Sample.world false)) as [_ [_ [_ Hs]]].
  split; [| split].
  - destruct (Hxr eq_refl ltac:(simpl; lia)) as [axis Hnew].
    exists axis. split; [exact Hnew |].
    destruct (Hx _ _ Hnew) as [positive [_ [_ Hlen]]]. exact Hlen.
  - destruct (Hy eq_refl ltac:(simpl; lia))
      as [axis [positive [Hnew [_ [_ [_ Hlen]]]]]].
    exists axis. split; [exact Hnew | exact Hlen].
  - destruct (Hs eq_refl ltac:(simpl; lia))
      as [axis [positive [negative [Hnew [Hp [_ [_ [_ [_ [_ Hlen]]]]]]]]]].
    exists axis. split; [exact Hnew |].
    rewrite Hlen.
    assert (Hpos : positive
                   = Scale.setTickStep
                       (Scale.build (Axis.positiveScaleOptions
                          (Axis.initial Sample.aroundZeroManager Axis.Y_AXIS
                             (Sample.yOptions 10))))
                       (2 # 10)).
    { pose proof (AxisFacts.new_split Sample.aroundZeroManager
                    (Sample.yOptions 10) (Sample.world false) eq_refl
                    ltac:(simpl; lia)) as Hnew'.
      cbv zeta in Hnew'. rewrite Hnew in Hnew'. injection Hnew' as Hax.
      rewrite Hax in Hp. cbn [Axis.positveScale Axis.set_scaleLabels
                                Axis.set_scales] in Hp.
      injection Hp as <-. vm_compute. reflexivity. }
    rewrite Hpos. vm_compute. reflexivity.
Defined.

(** C3 as stated fails on a y axis with a negative half, whether the labels
    are counted on the axis or on each of its scales.  Over the data
    [-5, -3, 10, 20] with ten ticks each scale is given five ticks and the
    axis has twelve labels, neither 5 + 1 nor 10 + 1.  With five ticks over
    [-1, 0, 1] each scale is given 2.5 ticks and has three labels, and the
    axis has five. *)
Lemma split_axis_label_count_differs :
  ~ (forall (m : AxisManager.t) (type : string) (o : Axis.Options)
            (w w' : World) (axis : Axis.t) (positive : Scale.t),
       Axis.new m type o w = (w', Returned axis) ->
       Axis.positveScale axis = Some positive ->
       (inject_Z (Js.len (Axis.scaleLabels axis))
        == Scale.getTickCount positive + 1)%Q)
  /\ ~ (forall (m : AxisManager.t) (type : string) (o : Axis.Options)
              (w w' : World) (axis : Axis.t) (positive : Scale.t),
         Axis.new m type o w = (w', Returned axis) ->
         Axis.positveScale axis = Some positive ->
         (inject_Z (Js.len (Scale.getScaleLabels positive))
          == Scale.getTickCount positive + 1)%Q)
  /\ option_map Axis.scaleLabels
       (valueOf (Axis.new Sample.mixedManager Axis.Y_AXIS (Sample.yOptions 10))
          (Sample.world false))
     = Some ["-10"; "-8"; "-6"; "-4"; "-2"; "0";
             "10"; "12"; "14"; "16"; "18"; "20"]
  /\ option_map Axis.scaleLabels
       (valueOf (Axis.new Sample.aroundZeroManager Axis.Y_AXIS (Sample.yOptions 5))
          (Sample.world false))
     = Some ["-1"; "-0.5"; "0"; "0.5"; "1"]
  /\ option_map (fun axis => option_map Scale.getScaleLabels (Axis.positveScale axis))
       (valueOf (Axis.new Sample.aroundZeroManager Axis.Y_AXIS (Sample.yOptions 5))
          (Sample.world false))
     = Some (Some ["0"; "0.5"; "1"]).
Proof.
  split; [| split; [| split; [| split]]].
  3-5: (vm_compute; reflexivity).
  - intros H.
    pose proof (AxisFacts.new_split Sample.mixedManager (Sample.yOptions 10)
                  (Sample.world false) eq_refl ltac:(simpl; lia)) as Hnew.
    cbv zeta in Hnew.
    specialize (H _ _ _ _ _ _ _ Hnew eq_refl).
    unfold Qeq in H. vm_compute in H. discriminate H.
  - intros H.
    pose proof (AxisFacts.new_split Sample.aroundZeroManager (Sample.yOptions 5)
                  (Sample.world false) eq_refl ltac:(simpl; lia)) as Hnew.
    cbv zeta in Hnew.
    specialize (H _ _ _ _ _ _ _ Hnew eq_refl).
    unfold Qeq in H. vm_compute in H. discriminate H.
Qed.

(* ================================================================== *)
(** * Further properties of the array helpers *)

Module ArrayMoreFacts.

Local Open Scope Q_scope.

Lemma fold_longer (rest : list string) :
  forall (pre : list string) (a : string) (post : list string),
    Forall (fun t => (String.length t <= String.length a)%nat) pre ->
    Forall (fun t => (String.length t < String.length a)%nat) post ->
    exists pre' s post',
      fold_left Arrays.longer rest a = s /\
      pre ++ a :: post ++ rest = pre' ++ s :: post' /\
      Forall (fun t => (String.length t <= String.length s)%nat) pre' /\
      Forall (fun t => (String.length t < String.length s)%nat) post'.
Proof.
  induction rest as [| b rest IH]; intros pre a post Hpre Hpost.
  - exists pre, a, post. rewrite app_nil_r. auto.
  - cbn [fold_left]. unfold Arrays.longer at 2.
    destruct (Nat.ltb_spec (String.length b) (String.length a)) as [Hlt | Hge].
    + destruct (IH pre a (post ++ [b]) Hpre) as [pre' [s [post' [Hs [Heq H]]]]].
      { apply Forall_app. split; [exact Hpost | constructor; [exact Hlt | constructor]]. }
      exists pre', s, post'. split; [exact Hs |]. split; [| exact H].
      rewrite <- Heq, <- app_assoc. reflexivity.
    + destruct (IH (pre ++ a :: post) b []) as [pre' [s [post' [Hs [Heq H]]]]].
      { apply Forall_app. split.
        - eapply Forall_impl; [| exact Hpre]. cbv beta. intros t Ht. lia.
        - constructor; [exact Hge |].
          eapply Forall_impl; [| exact Hpost]. cbv beta. intros t Ht. lia. }
      { constructor. }
      exists pre', s, post'. split; [exact Hs |]. split; [| exact H].
      rewrite <- Heq, <- app_assoc. reflexivity.
Qed.





End ArrayMoreFacts.

(** X1.  [longest(arr)] raises a [TypeError] on an empty array and otherwise
    returns an entry of the array, touching neither console nor canvas: no
    entry is longer than it, and every entry after it is strictly shorter, so
    of several entries of the greatest length it is the last one. *)
Theorem longest_is_last_of_greatest_length :
  forall (arr : list string) (w : World),
    match arr with
    | [] =>
        Arrays.longest arr w
        = (w, Thrown "TypeError: Reduce of empty array with no initial value")
    | _ :: _ =>
        exists pre s post,
          Arrays.longest arr w = (w, Returned s) /\
          arr = pre ++ s :: post /\
          Forall (fun t => (String.length t <= String.length s)%nat) pre /\
          Forall (fun t => (String.length t < String.length s)%nat) post
    end.
Proof.
  intros [| a0 rest] w; [reflexivity |].
  destruct (@ArrayMoreFacts.fold_longer rest [] a0 [] (Forall_nil _) (Forall_nil _))
    as [pre [s [post [Hs [Heq H]]]]].
  exists pre, s, post. split; [| split; [exact Heq | exact H]].
  unfold Arrays.longest, ret. f_equal. f_equal. exact Hs.
Qed.





(** X5.  [fillRange(max)] returns the integers [0, 1, ..., max - 1] in order
    when [max] is an integer from 0 up to the largest array length, leaving
    console and canvas alone; for a negative or fractional [max] it raises a
    [RangeError]. *)
Theorem fillRange_counts_from_zero :
  forall (max : Q) (w : World),
    (forall n : Z,
        (max == inject_Z n)%Q -> (0 <= n <= 4294967295)%Z ->
        exists xs,
          Arrays.fillRange max w = (w, Returned xs) /\
          Js.len xs = n /\
          forall i, (0 <= i < n)%Z -> Js.idx xs i = Some i) /\
    ((max < 0)%Q \/ (forall n : Z, ~ (max == inject_Z n)%Q) ->
     Arrays.fillRange max w = (w, Thrown "RangeError: Invalid array length")).
Proof.
  intros max w. split.
  - intros n Hmax [Hlo Hhi]. unfold Arrays.fillRange.
    assert (Hfl : Qfloor max = n) by (rewrite Hmax; apply Qfloor_Z).
    rewrite Hfl.
    assert (H1 : Qeq_bool (inject_Z n) max = true)
      by (apply Qeq_bool_iff; now symmetry).
    assert (H2 : (0 <=? n)%Z = true) by (apply Z.leb_le; exact Hlo).
    assert (H3 : (n <=? 4294967295)%Z = true) by (apply Z.leb_le; exact Hhi).
    rewrite H1, H2, H3. cbn [andb].
    eexists. split; [reflexivity |]. split.
    + unfold Js.len. rewrite length_map, length_seq. lia.
    + intros i Hi. unfold Js.idx.
      destruct (Z.ltb_spec i 0); [lia |].
      rewrite nth_error_map, nth_error_seq.
      destruct (Nat.ltb_spec (Z.to_nat i) (Z.to_nat n)); [| lia].
      cbn. f_equal. lia.
  - intros H. unfold Arrays.fillRange.
    destruct (Qeq_bool (inject_Z (Qfloor max)) max) eqn:E1; [| reflexivity].
    apply Qeq_bool_iff in E1.
    destruct H as [Hneg | Hfrac].
    + destruct (Z.leb_spec 0 (Qfloor max)) as [Hle | Hlt]; [| reflexivity].
      exfalso. rewrite Zle_Qle in Hle. rewrite E1 in Hle.
      change (inject_Z 0) with 0%Q in Hle. lra.
    + exfalso. apply (Hfrac (Qfloor max)). now symmetry.
Qed.

Lemma fillRange_counts_from_zero_witness :
  (3 == inject_Z 3)%Q /\ (0 <= 3 <= 4294967295)%Z /\
  Arrays.fillRange 3 (Sample.world false)
  = (Sample.world false, Returned [0; 1; 2]%Z) /\
  ((5 # 2) < 0 \/ (forall n : Z, ~ (5 # 2 == inject_Z n)))%Q /\
  Arrays.fillRange (5 # 2) (Sample.world false)
  = (Sample.world false, Thrown "RangeError: Invalid array length").
Proof.
  assert (Heq : (3 == inject_Z 3)%Q) by reflexivity.
  assert (Hrange : (0 <= 3 <= 4294967295)%Z) by lia.
  assert (Hfrac : ((5 # 2) < 0 \/ (forall n : Z, ~ (5 # 2 == inject_Z n)))%Q).
  { right. intros n H. unfold Qeq in H. cbn in H. lia. }
  destruct (@fillRange_counts_from_zero 3%Q (Sample.world false)) as [Hint _].
  destruct (Hint 3%Z Heq Hrange) as [xs [Hrun _]].
  destruct (@fillRange_counts_from_zero (5 # 2)%Q (Sample.world false))
    as [_ Hthrow].
  split; [exact Heq |]. split; [exact Hrange |].
  split; [reflexivity |]. split; [exact Hfrac | exact (Hthrow Hfrac)].
Defined.

(* ================================================================== *)
(** * Further properties of the drawing primitives *)

Module DrawerMoreFacts.

Local Open Scope Q_scope.

Lemma inBounds_checks (d : Drawer.t) (x y : Q) :
  Drawer.outOfBounds d x y = false ->
  Drawer.inRange x 0 (width (Drawer.canvas d)) = true /\
  Drawer.inRange y 0 (height (Drawer.canvas d)) = true.
Proof.
  unfold Drawer.outOfBounds. intros H.
  apply orb_false_elim in H. destruct H as [Hx Hy].
  apply negb_false_iff in Hx. apply negb_false_iff in Hy. auto.
Qed.

Lemma coordinateSafetyCheck_passes (d : Drawer.t) (x y : Q) (w : World) :
  Drawer.outOfBounds d x y = false ->
  Drawer._coordinateSafetyCheck d x y w = (w, Returned tt).
Proof.
  intros H. destruct (inBounds_checks d x y H) as [Hx Hy].
  unfold Drawer._coordinateSafetyCheck. rewrite Hx, Hy. reflexivity.
Qed.

Lemma inRange_iff (v lo hi : Q) :
  Drawer.inRange v lo hi = true <-> lo <= v <= hi.
Proof.
  unfold Drawer.inRange. rewrite andb_true_iff, !Qle_bool_iff. reflexivity.
Qed.

Lemma text_in_bounds (d : Drawer.t) (s : string) (x y size : Q)
    (colour alignment : option string) (w : World) :
  Drawer.outOfBounds d x y = false ->
  exists w',
    Drawer.text d s x y size colour alignment w = (w', Returned tt) /\
    strokeStyle (ctx w') = strokeStyle (ctx w) /\
    fillStyle (ctx w') = Js.nullish colour (fillStyle (ctx w)) /\
    globalAlpha (ctx w') = 1 /\
    textAlign (ctx w') = Js.nullish alignment "center" /\
    font (ctx w')
    = append (Js.Number_toString size) (append "px " (Drawer.labelFont d)) /\
    lineWidth (ctx w') = lineWidth (ctx w) /\
    calls (ctx w') = calls (ctx w) ++ [FillText s x y] /\
    console w' = console w /\ config w' = config w.
Proof.
  intros Hin.
  unfold Drawer.text, bind.
  rewrite (coordinateSafetyCheck_passes d x y w Hin).
  unfold getCtx, Drawer.toTextMode, Drawer.setStrokeStyle, call, modifyCtx.
  eexists. split; [reflexivity |].
  cbn [ctx strokeStyle fillStyle globalAlpha textAlign font lineWidth calls
       console config Js.nullish].
  repeat split.
Qed.

End DrawerMoreFacts.

(** X6.  [text] drawn at a point inside the canvas returns without a
    warning and issues one [fillText].  Of the context properties it sets, it
    restores the stroke colour only: the fill colour stays at the text colour
    (when one is given), the alpha at 1, the alignment at the one asked for,
    ["center"] when none is, and the font at [<size>px <labelFont>]. *)
Theorem text_restores_stroke_colour_only :
  forall (d : Drawer.t) (s : string) (x y size : Q)
         (colour alignment : option string) (w : World),
    Drawer.outOfBounds d x y = false ->
    exists w',
      Drawer.text d s x y size colour alignment w = (w', Returned tt) /\
      strokeStyle (ctx w') = strokeStyle (ctx w) /\
      fillStyle (ctx w') = Js.nullish colour (fillStyle (ctx w)) /\
      globalAlpha (ctx w') = 1%Q /\
      textAlign (ctx w') = Js.nullish alignment "center" /\
      font (ctx w')
      = append (Js.Number_toString size) (append "px " (Drawer.labelFont d)) /\
      lineWidth (ctx w') = lineWidth (ctx w) /\
      calls (ctx w') = calls (ctx w) ++ [FillText s x y] /\
      console w' = console w /\ config w' = config w.
Proof.
  intros d s x y size colour alignment w Hin.
  unfold Drawer.text, bind.
  rewrite (DrawerMoreFacts.coordinateSafetyCheck_passes d x y w Hin).
  unfold getCtx, Drawer.toTextMode, Drawer.setStrokeStyle, call, modifyCtx.
  eexists. split; [reflexivity |].
  cbn [ctx strokeStyle fillStyle globalAlpha textAlign font lineWidth calls
       console config Js.nullish].
  repeat split.
Qed.

Lemma text_restores_stroke_colour_only_witness :
  Drawer.outOfBounds Sample.drawer 10 20 = false /\
  Drawer.text Sample.drawer "Graph" 10 20 24 (Some "red") None (Sample.world false)
  = ({| config := {| bypassOutOfBoundsDrawing := false |};
        console := [];
        ctx := {| strokeStyle := "black"; fillStyle := "red";
                  globalAlpha := 1; lineWidth := 1; textAlign := "center";
                  font := "24px monospace";
                  calls := [FillText "Graph" 10 20] |} |},
     Returned tt).
Proof.
  assert (Hin : Drawer.outOfBounds Sample.drawer 10 20 = false) by reflexivity.
  split; [exact Hin |].
  destruct (@text_restores_stroke_colour_only Sample.drawer "Graph" 10%Q 20%Q
              24%Q (Some "red") None (Sample.world false) Hin)
    as [w' [Hrun _]].
  vm_compute. reflexivity.
Defined.

(** X7.  A primitive whose point lies inside the canvas and whose second
    check (the end point of a line) passes behaves the same whether
    [bypassOutOfBoundsDrawing] is set or not: it returns, logs nothing, and
    appends exactly its own canvas calls. *)
Theorem in_bounds_draws_without_warning :
  forall (d : Drawer.t) (p : Drawer.Primitive) (x y : Q) (w : World),
    Drawer.outOfBounds d x y = false ->
    Drawer.endCheck d p x y = true ->
    exists w',
      Drawer.draw d p x y w = (w', Returned tt) /\
      console w' = console w /\
      config w' = config w /\
      calls (ctx w') = calls (ctx w) ++ Drawer.callsOf p x y.
Proof.
  intros d p x y w Hin Hend.
  pose proof (DrawerMoreFacts.coordinateSafetyCheck_passes d x y w Hin) as Hc.
  destruct p as [rad | len | len | s size colour alignment];
    unfold Drawer.draw, Drawer.circle, Drawer.horizontalLine,
      Drawer.verticalLine, Drawer.text, bind;
    rewrite Hc; cbn [Drawer.endCheck] in Hend; try rewrite Hend;
    unfold Assert.assert, negb, ret, getCtx, Drawer.toTextMode,
      Drawer.setStrokeStyle, call, modifyCtx;
    eexists; (split; [reflexivity |]);
    cbn [ctx calls console config Drawer.callsOf];
    rewrite <- ?app_assoc; repeat split.
Qed.

Lemma in_bounds_draws_without_warning_witness :
  Drawer.outOfBounds Sample.drawer 10 20 = false /\
  Drawer.endCheck Sample.drawer (Drawer.HorizontalLine 100) 10 20 = true /\
  Drawer.draw Sample.drawer (Drawer.HorizontalLine 100) 10 20 (Sample.world true)
  = ({| config := {| bypassOutOfBoundsDrawing := true |};
        console := [];
        ctx := {| strokeStyle := "black"; fillStyle := "black";
                  globalAlpha := 1; lineWidth := 1; textAlign := "start";
                  font := "10px sans-serif";
                  calls := [BeginPath; MoveTo 10 20; LineTo (10 + 100) 20;
                            Stroke; ClosePath] |} |},
     Returned tt).
Proof.
  assert (Hin : Drawer.outOfBounds Sample.drawer 10 20 = false) by reflexivity.
  assert (Hend : Drawer.endCheck Sample.drawer (Drawer.HorizontalLine 100) 10 20
                 = true) by reflexivity.
  split; [exact Hin |]. split; [exact Hend |].
  destruct (@in_bounds_draws_without_warning Sample.drawer
              (Drawer.HorizontalLine 100) 10%Q 20%Q (Sample.world true) Hin Hend)
    as [w' [Hrun _]].
  reflexivity.
Defined.

(** X8.  [verticalLine] compares the end of the line, [y + len], with
    [canvas.width], not with [canvas.height].  From a point inside the canvas
    and with the bypass off it draws exactly when [0 <= y + len <= width],
    and otherwise raises "Assertion failed: undefined" (the check carries no
    message) before any canvas call.  So a line that stays inside a canvas
    taller than wide is refused once it passes [width], and on a canvas wider
    than tall a line running below the bottom edge is drawn. *)
Theorem verticalLine_end_checked_against_width :
  forall (d : Drawer.t) (x y len : Q) (w : World),
    Drawer.outOfBounds d x y = false ->
    bypassOutOfBoundsDrawing (config w) = false ->
    ((0 <= y + len <= width (Drawer.canvas d))%Q ->
       exists w',
         Drawer.verticalLine d x y len w = (w', Returned tt) /\
         console w' = console w /\
         calls (ctx w')
         = calls (ctx w)
           ++ [BeginPath; MoveTo x y; LineTo x (y + len); Stroke; ClosePath]) /\
    (~ (0 <= y + len <= width (Drawer.canvas d))%Q ->
       Drawer.verticalLine d x y len w
       = (w, Thrown "Assertion failed: undefined")).
Proof.
  intros d x y len w Hin Hb.
  pose proof (DrawerMoreFacts.coordinateSafetyCheck_passes d x y w Hin) as Hc.
  split; intros Hend.
  - apply DrawerMoreFacts.inRange_iff in Hend.
    unfold Drawer.verticalLine, bind. rewrite Hc, Hend.
    unfold Assert.assert, negb, ret, call, modifyCtx.
    eexists. split; [reflexivity |].
    cbn [ctx calls console]. rewrite <- ?app_assoc. split; reflexivity.
  - assert (Hf : Drawer.inRange (y + len) 0 (width (Drawer.canvas d)) = false).
    { destruct (Drawer.inRange (y + len) 0 (width (Drawer.canvas d))) eqn:E;
        [| reflexivity].
      apply DrawerMoreFacts.inRange_iff in E. contradiction. }
    unfold Drawer.verticalLine, bind. rewrite Hc, Hf.
    unfold Assert.assert, negb, bind, getConfig. rewrite Hb. reflexivity.
Qed.

Lemma verticalLine_end_checked_against_width_witness :
  let tall := {| Drawer.canvas := {| width := 50; height := 100 |};
                 Drawer.labelFont := "monospace" |} in
  Drawer.outOfBounds tall 10 0 = false /\
  bypassOutOfBoundsDrawing (config (Sample.world false)) = false /\
  ~ (0 <= 0 + 80 <= width (Drawer.canvas tall))%Q /\
  Drawer.verticalLine tall 10 0 80 (Sample.world false)
  = (Sample.world false, Thrown "Assertion failed: undefined") /\
  Drawer.outOfBounds Sample.drawer 10 120 = false /\
  (0 <= 120 + 20 <= width (Drawer.canvas Sample.drawer))%Q /\
  calls (ctx (fst (Drawer.verticalLine Sample.drawer 10 120 20
                     (Sample.world false))))
  = [BeginPath; MoveTo 10 120; LineTo 10 (120 + 20); Stroke; ClosePath].
Proof.
  intros tall.
  assert (Hin : Drawer.outOfBounds tall 10 0 = false) by reflexivity.
  assert (Hout : ~ (0 <= 0 + 80 <= width (Drawer.canvas tall))%Q).
  { intros [_ H]. vm_compute in H. apply H. reflexivity. }
  assert (Hin' : Drawer.outOfBounds Sample.drawer 10 120 = false) by reflexivity.
  assert (Hok : (0 <= 120 + 20 <= width (Drawer.canvas Sample.drawer))%Q).
  { split; vm_compute; discriminate. }
  destruct (@verticalLine_end_checked_against_width tall 10%Q 0%Q 80%Q
              (Sample.world false) Hin eq_refl) as [_ Hrefused].
  destruct (@verticalLine_end_checked_against_width Sample.drawer 10%Q 120%Q
              20%Q (Sample.world false) Hin' eq_refl) as [Hdrawn _].
  destruct (Hdrawn Hok) as [w' [Hrun [_ Hcalls]]].
  split; [exact Hin |]. split; [reflexivity |]. split; [exact Hout |].
  split; [exact (Hrefused Hout) |]. split; [exact Hin' |].
  split; [exact Hok |].
  rewrite Hrun. cbn [fst]. rewrite Hcalls. reflexivity.
Defined.

(* ================================================================== *)
(** * The title and the lengths of the plot *)

(** X9.  [determinePositionFromSetting] answers ["center"] with the centre
    of the plot and ["end"] with its right edge, right-aligned.  For
    ["start"] it stores ["left"] under the key [alignement]; the title block
    reads the key [alignment], finds it [undefined], and [text] falls back
    to its default: a title at ["start"] is anchored at [x_begin] and drawn
    centred there. *)
Theorem title_at_start_is_drawn_centred :
  forall (g : BasicGraph.t) (text : BasicGraph.TitleText) (w : World),
    BasicGraph.title_draw (BasicGraph.title (BasicGraph.options g)) = true ->
    let size := BasicGraph.title_fontSize (BasicGraph.title (BasicGraph.options g)) in
    let y := ((size + BasicGraph.textPadding (BasicGraph.padding g)) / 2)%Q in
    let drawn (x : Q) (alignment : string) : M unit :=
      saved <- getCtx ;;
      Drawer.text (BasicGraph.drawer g) (BasicGraph.title_content text) x y size
        (BasicGraph.title_colour text) (Some alignment) ;;
      BasicGraph.restore saved in
    BasicGraph.determinePositionFromSetting g "start" w
    = (w, Returned (Some {| BasicGraph.offset := BasicGraph.x_begin (BasicGraph.lengths g);
                            BasicGraph.alignement := Some "left";
                            BasicGraph.alignment := None |})) /\
    (BasicGraph.title_position text = "start" ->
       BasicGraph.drawTitle g text w
       = drawn (BasicGraph.x_begin (BasicGraph.lengths g)) "center" w) /\
    (BasicGraph.title_position text = "center" ->
       BasicGraph.drawTitle g text w
       = drawn (BasicGraph.x_center (BasicGraph.lengths g)) "center" w) /\
    (BasicGraph.title_position text = "end" ->
       BasicGraph.drawTitle g text w
       = drawn (BasicGraph.x_end (BasicGraph.lengths g)) "right" w).
Proof.
  intros g text w Hdraw size y drawn.
  split; [reflexivity |].
  unfold BasicGraph.drawTitle. rewrite Hdraw.
  split; [| split]; intros Hpos; rewrite Hpos; reflexivity.
Qed.

Lemma title_at_start_is_drawn_centred_witness :
  let g := BasicGraph.constructor_geometry (Sample.titledGraph) in
  BasicGraph.title_draw (BasicGraph.title (BasicGraph.options g)) = true /\
  BasicGraph.title_position (Sample.titleText "start") = "start" /\
  BasicGraph.drawTitle g (Sample.titleText "start") (Sample.world false)
  = ({| config := {| bypassOutOfBoundsDrawing := false |};
        console := [];
        ctx := {| strokeStyle := "black"; fillStyle := "black";
                  globalAlpha := 1; lineWidth := 1; textAlign := "start";
                  font := "10px sans-serif";
                  calls := [FillText "Graph" 20 ((24 + 4) / 2)] |} |},
     Returned tt) /\
  textAlign
    (ctx (fst (Drawer.text (BasicGraph.drawer g) "Graph" 20 14 24 (Some "grey")
                 (BasicGraph.alignment
                    {| BasicGraph.offset := 20;
                       BasicGraph.alignement := Some "left";
                       BasicGraph.alignment := None |})
                 (Sample.world false))))
  = "center".
Proof.
  intros g.
  assert (Hdraw : BasicGraph.title_draw (BasicGraph.title (BasicGraph.options g))
                  = true) by reflexivity.
  destruct (@title_at_start_is_drawn_centred g (Sample.titleText "start")
              (Sample.world false) Hdraw) as [_ [Hstart _]].
  split; [exact Hdraw |]. split; [reflexivity |].
  split; [| vm_compute; reflexivity].
  rewrite (Hstart eq_refl). vm_compute. reflexivity.
Defined.

(** X10.  A title position that is none of ["start"], ["center"], ["end"]
    stops the title block in either mode and nothing is drawn: with the
    bypass off the assertion raises; with it on the assertion is logged and
    destructuring the [undefined] that comes back raises a [TypeError]. *)
Theorem unknown_title_position_always_raises :
  forall (g : BasicGraph.t) (text : BasicGraph.TitleText) (w : World),
    BasicGraph.title_draw (BasicGraph.title (BasicGraph.options g)) = true ->
    BasicGraph.title_position text <> "start" ->
    BasicGraph.title_position text <> "center" ->
    BasicGraph.title_position text <> "end" ->
    let message :=
      "Assertion failed: Positional setting did not match any of the presets" in
    (bypassOutOfBoundsDrawing (config w) = false ->
       BasicGraph.drawTitle g text w = (w, Thrown message)) /\
    (bypassOutOfBoundsDrawing (config w) = true ->
       BasicGraph.drawTitle g text w
       = (warned w message,
          Thrown "TypeError: Cannot destructure property 'offset' of undefined")).
Proof.
  intros g text w Hdraw Hs Hc He message.
  apply String.eqb_neq in Hs. apply String.eqb_neq in Hc.
  apply String.eqb_neq in He.
  unfold BasicGraph.drawTitle, BasicGraph.determinePositionFromSetting.
  rewrite Hdraw, Hs, Hc, He.
  unfold Assert.assert, negb, bind, getConfig, console_warn, throw, ret.
  split; intros Hb; rewrite Hb; reflexivity.
Qed.

Lemma unknown_title_position_always_raises_witness :
  let g := BasicGraph.constructor_geometry (Sample.titledGraph) in
  BasicGraph.title_draw (BasicGraph.title (BasicGraph.options g)) = true /\
  BasicGraph.title_position (Sample.titleText "left") <> "start" /\
  BasicGraph.drawTitle g (Sample.titleText "left") (Sample.world true)
  = (warned (Sample.world true)
       "Assertion failed: Positional setting did not match any of the presets",
     Thrown "TypeError: Cannot destructure property 'offset' of undefined").
Proof.
  intros g.
  assert (Hdraw : BasicGraph.title_draw (BasicGraph.title (BasicGraph.options g))
                  = true) by reflexivity.
  assert (Hs : BasicGraph.title_position (Sample.titleText "left") <> "start")
    by discriminate.
  assert (Hc : BasicGraph.title_position (Sample.titleText "left") <> "center")
    by discriminate.
  assert (He : BasicGraph.title_position (Sample.titleText "left") <> "end")
    by discriminate.
  destruct (@unknown_title_position_always_raises g (Sample.titleText "left")
              (Sample.world true) Hdraw Hs Hc He) as [_ Hon].
  split; [exact Hdraw |]. split; [exact Hs |].
  exact (Hon eq_refl).
Defined.

(** X11.  With a known position whose anchor lies inside the canvas, the
    title block returns, logs nothing and adds one [fillText] of the title at
    the anchor, [(fontSize + textPadding) / 2] below the top; thanks to the
    [save()] / [restore()] around it every property of the context (colours,
    alpha, line width, alignment, font) is as it was before. *)
Theorem title_leaves_context_properties :
  forall (g : BasicGraph.t) (text : BasicGraph.TitleText) (w : World)
         (p : BasicGraph.Positional),
    BasicGraph.title_draw (BasicGraph.title (BasicGraph.options g)) = true ->
    BasicGraph.determinePositionFromSetting g (BasicGraph.title_position text) w
    = (w, Returned (Some p)) ->
    let size := BasicGraph.title_fontSize (BasicGraph.title (BasicGraph.options g)) in
    let y := ((size + BasicGraph.textPadding (BasicGraph.padding g)) / 2)%Q in
    Drawer.outOfBounds (BasicGraph.drawer g) (BasicGraph.offset p) y = false ->
    BasicGraph.drawTitle g text w
    = ({| config := config w; console := console w;
          ctx := {| strokeStyle := strokeStyle (ctx w);
                    fillStyle := fillStyle (ctx w);
                    globalAlpha := globalAlpha (ctx w);
                    lineWidth := lineWidth (ctx w);
                    textAlign := textAlign (ctx w);
                    font := font (ctx w);
                    calls := calls (ctx w)
                             ++ [FillText (BasicGraph.title_content text)
                                   (BasicGraph.offset p) y] |} |},
       Returned tt).
Proof.
  intros g text w p Hdraw Hpos size y Hin.
  unfold BasicGraph.drawTitle. rewrite Hdraw.
  unfold bind at 1. rewrite Hpos.
  unfold bind at 1. unfold getCtx at 1.
  unfold bind at 1.
  fold size. fold y.
  destruct (@DrawerMoreFacts.text_in_bounds (BasicGraph.drawer g) (BasicGraph.title_content text)
              (BasicGraph.offset p) y size (BasicGraph.title_colour text)
              (BasicGraph.alignment p) w Hin) as [w' [Hrun H]].
  rewrite Hrun.
  destruct H as [_ [_ [_ [_ [_ [_ [Hcalls [Hconsole Hconfig]]]]]]]].
  unfold BasicGraph.restore, modifyCtx.
  rewrite Hcalls, Hconsole, Hconfig. reflexivity.
Qed.

Lemma title_leaves_context_properties_witness :
  let g := BasicGraph.constructor_geometry (Sample.titledGraph) in
  BasicGraph.title_draw (BasicGraph.title (BasicGraph.options g)) = true /\
  Drawer.outOfBounds (BasicGraph.drawer g) (8 + 12 + (143 + 0 - (0 + 8 + 12)) / 2)
    ((24 + 4) / 2) = false /\
  BasicGraph.drawTitle g (Sample.titleText "center") (Sample.world false)
  = ({| config := {| bypassOutOfBoundsDrawing := false |};
        console := [];
        ctx := {| strokeStyle := "black"; fillStyle := "black";
                  globalAlpha := 1; lineWidth := 1; textAlign := "start";
                  font := "10px sans-serif";
                  calls := [FillText "Graph" (8 + 12 + (143 + 0 - (0 + 8 + 12)) / 2)
                              ((24 + 4) / 2)] |} |},
     Returned tt).
Proof.
  intros g.
  assert (Hdraw : BasicGraph.title_draw (BasicGraph.title (BasicGraph.options g))
                  = true) by reflexivity.
  assert (Hin : Drawer.outOfBounds (BasicGraph.drawer g)
                  (8 + 12 + (143 + 0 - (0 + 8 + 12)) / 2) ((24 + 4) / 2) = false)
    by (vm_compute; reflexivity).
  split; [exact Hdraw |]. split; [exact Hin |].
  exact (@title_leaves_context_properties g (Sample.titleText "center")
           (Sample.world false)
           {| BasicGraph.offset := (8 + 12 + (143 + 0 - (0 + 8 + 12)) / 2)%Q;
              BasicGraph.alignement := None;
              BasicGraph.alignment := Some "center" |}
           Hdraw eq_refl Hin).
Defined.

(** X12.  [calculateLengths] keeps the six lengths consistent with each
    other when the drawer works on the graph's canvas, as the constructor sets
    it up: the plot spans exactly [xLength] from [x_begin] to [x_end], and
    [x_center] and [y_center] are the midpoints of the two spans.  The
    vertical span from [y_begin] to [y_end] is [yLength] plus the label font
    size.  Padding and grid cell are not touched. *)
Theorem calculateLengths_centres_are_midpoints :
  forall g : BasicGraph.t,
    Drawer.canvas (BasicGraph.drawer g) = BasicGraph.canvas g ->
    let g' := BasicGraph.calculateLengths g in
    let l := BasicGraph.lengths g' in
    (BasicGraph.x_begin l + BasicGraph.xLength g' == BasicGraph.x_end l)%Q /\
    (BasicGraph.x_center l == (BasicGraph.x_begin l + BasicGraph.x_end l) / 2)%Q /\
    (BasicGraph.y_center l == (BasicGraph.y_begin l + BasicGraph.y_end l) / 2)%Q /\
    (BasicGraph.y_end l - BasicGraph.y_begin l
     == BasicGraph.yLength g' + BasicGraph.labelFontSize (BasicGraph.options g))%Q /\
    BasicGraph.padding g' = BasicGraph.padding g /\
    BasicGraph.gridRectSize g' = BasicGraph.gridRectSize g.
Proof.
  intros g Hc g' l. unfold l, g', BasicGraph.calculateLengths, BasicGraph.set_geometry.
  cbn [BasicGraph.lengths BasicGraph.xLength BasicGraph.yLength
       BasicGraph.x_begin BasicGraph.x_end BasicGraph.x_center
       BasicGraph.y_begin BasicGraph.y_end BasicGraph.y_center
       BasicGraph.padding BasicGraph.gridRectSize].
  rewrite Hc.
  repeat split; field.
Qed.

Lemma calculateLengths_centres_are_midpoints_witness :
  Drawer.canvas (BasicGraph.drawer (Sample.graph false false 3))
  = BasicGraph.canvas (Sample.graph false false 3) /\
  (BasicGraph.x_center
     (BasicGraph.lengths (BasicGraph.calculateLengths (Sample.graph false false 3)))
   == (20 + 143) / 2)%Q.
Proof.
  assert (Hc : Drawer.canvas (BasicGraph.drawer (Sample.graph false false 3))
               = BasicGraph.canvas (Sample.graph false false 3)) by reflexivity.
  split; [exact Hc |].
  destruct (@calculateLengths_centres_are_midpoints (Sample.graph false false 3) Hc)
    as [_ [Hx _]].
  rewrite Hx. vm_compute. reflexivity.
Defined.

(* ================================================================== *)
(** * The grid inside the canvas *)

Module SnapFacts.

Local Open Scope Q_scope.



End SnapFacts.



(* ================================================================== *)
(** * Removing a line by its label *)

Module LinesFacts.

Section Lines.

Variable Line : Type.
Variable label : Line -> string.

Lemma idx_middle (pre : list Line) (x : Line) (rest : list Line) :
  Js.idx (pre ++ x :: rest) (Js.len pre) = Some x.
Proof.
  unfold Js.len. rewrite ArrayFacts.idx_nth_error.
  rewrite nth_error_app2 by lia. now rewrite Nat.sub_diag.
Qed.

Lemma splice_middle (pre : list Line) (x : Line) (rest : list Line) :
  Lines.splice (pre ++ x :: rest) (Js.len pre) = pre ++ rest.
Proof.
  unfold Lines.splice, Js.len. rewrite Nat2Z.id.
  rewrite firstn_app, Nat.sub_diag, firstn_all. cbn [firstn]. rewrite app_nil_r.
  replace (S (List.length pre)) with (List.length pre + 1)%nat by lia.
  rewrite skipn_app.
  rewrite skipn_all2 by lia.
  replace (List.length pre + 1 - List.length pre)%nat with 1%nat by lia.
  reflexivity.
Qed.

Lemma len_snoc (pre : list Line) (x : Line) :
  Js.len (pre ++ [x]) = (Js.len pre + 1)%Z.
Proof. unfold Js.len. rewrite length_app. cbn [List.length]. lia. Qed.

Lemma len_app (pre rest : list Line) :
  Js.len (pre ++ rest) = (Js.len pre + Js.len rest)%Z.
Proof. unfold Js.len. rewrite length_app. lia. Qed.

(** Once a line has been found the loop changes nothing any more. *)
Lemma removeLoop_found (target : string) (fuel : nat) :
  forall (k : Z) (data : list Line),
    Lines.removeLoop label fuel target k data true = (data, true).
Proof.
  induction fuel as [| fuel IH]; intros k data; [reflexivity |].
  cbn [Lines.removeLoop].
  destruct (k <? Js.len data)%Z; [| reflexivity].
  destruct (Js.idx data k); [| reflexivity].
  rewrite andb_false_r. apply IH.
Qed.

(** The loop over lines none of which carries the label. *)
Lemma removeLoop_no_match (target : string) (rest : list Line) :
  forall (pre : list Line) (fuel : nat),
    (forall l, In l rest -> label l <> target) ->
    Lines.removeLoop label fuel target (Js.len pre) (pre ++ rest) false
    = (pre ++ rest, false).
Proof.
  induction rest as [| x rest IH]; intros pre fuel Hno.
  - destruct fuel; [reflexivity |]. cbn [Lines.removeLoop].
    rewrite app_nil_r. now rewrite Z.ltb_irrefl.
  - destruct fuel; [reflexivity |]. cbn [Lines.removeLoop].
    destruct (Js.len pre <? Js.len (pre ++ x :: rest))%Z; [| reflexivity].
    rewrite idx_middle.
    assert (Hx : String.eqb (label x) target = false)
      by (apply String.eqb_neq, Hno; now left).
    rewrite Hx. cbn [andb].
    rewrite <- (len_snoc pre x).
    replace (pre ++ x :: rest) with ((pre ++ [x]) ++ rest)
      by (now rewrite <- app_assoc).
    apply IH. intros l Hl. apply Hno. now right.
Qed.

(** The loop up to and including the first line that carries the label. *)
Lemma removeLoop_first_match (target : string) (a : list Line) :
  forall (pre : list Line) (line : Line) (b : list Line) (fuel : nat),
    (List.length a < fuel)%nat ->
    (forall l, In l a -> label l <> target) ->
    label line = target ->
    Lines.removeLoop label fuel target (Js.len pre) (pre ++ a ++ line :: b) false
    = (pre ++ a ++ b, true).
Proof.
  induction a as [| x a IH]; intros pre line b fuel Hfuel Hno Hline.
  - destruct fuel; [cbn in Hfuel; lia |]. cbn [Lines.removeLoop app].
    assert (Hlt : (Js.len pre <? Js.len (pre ++ line :: b))%Z = true).
    { apply Z.ltb_lt. rewrite len_app. unfold Js.len. cbn [List.length]. lia. }
    rewrite Hlt, idx_middle, Hline, String.eqb_refl. cbn [andb negb].
    rewrite splice_middle. apply removeLoop_found.
  - destruct fuel; [cbn in Hfuel; lia |]. cbn [Lines.removeLoop].
    assert (Hlt : (Js.len pre <? Js.len (pre ++ (x :: a) ++ line :: b))%Z = true).
    { apply Z.ltb_lt. rewrite len_app. unfold Js.len. cbn [List.length app]. lia. }
    rewrite Hlt. cbn [app]. rewrite idx_middle.
    assert (Hx : String.eqb (label x) target = false)
      by (apply String.eqb_neq, Hno; now left).
    rewrite Hx. cbn [andb].
    rewrite <- (len_snoc pre x).
    replace (pre ++ x :: a ++ line :: b) with ((pre ++ [x]) ++ a ++ line :: b)
      by (now rewrite <- app_assoc).
    rewrite IH.
    + now rewrite <- app_assoc.
    + cbn [List.length] in Hfuel. lia.
    + intros l Hl. apply Hno. now right.
    + exact Hline.
Qed.

End Lines.

End LinesFacts.

Module LegacyLinesFacts.

Section Lines.

Variable Line : Type.
Variable label : Line -> string.

Lemma sweep_step (target : string) (a b : Line) (rest : list Line) :
  LegacyLines.sweep label target (a :: b :: rest)
  = if String.eqb (label a) target
    then b :: LegacyLines.sweep label target rest
    else a :: LegacyLines.sweep label target (b :: rest).
Proof. reflexivity. Qed.

Lemma removeLoop_sweep (target : string) (n : nat) :
  forall (rest pre : list Line) (fuel : nat),
    (List.length rest <= n)%nat ->
    (List.length rest <= fuel)%nat ->
    LegacyLines.removeLoop label fuel target (Js.len pre) (pre ++ rest)
    = pre ++ LegacyLines.sweep label target rest.
Proof.
  induction n as [| n IH]; intros rest pre fuel Hn Hfuel.
  - destruct rest; [| cbn in Hn; lia].
    destruct fuel; [reflexivity |]. cbn [LegacyLines.removeLoop LegacyLines.sweep].
    rewrite !app_nil_r.
    destruct (Z.ltb_spec (Js.len pre) (Js.len pre - 1)); [lia | reflexivity].
  - destruct rest as [| a [| b rest']].
    + destruct fuel; [reflexivity |].
      cbn [LegacyLines.removeLoop LegacyLines.sweep].
      rewrite !app_nil_r.
      destruct (Z.ltb_spec (Js.len pre) (Js.len pre - 1)); [lia | reflexivity].
    + destruct fuel; [reflexivity |].
      cbn [LegacyLines.removeLoop LegacyLines.sweep].
      rewrite LinesFacts.len_snoc.
      destruct (Z.ltb_spec (Js.len pre) (Js.len pre + 1 - 1)); [lia | reflexivity].
    + destruct fuel; [cbn in Hfuel; lia |]. cbn [LegacyLines.removeLoop].
      assert (Hlt : (Js.len pre <? Js.len (pre ++ a :: b :: rest') - 1)%Z = true).
      { apply Z.ltb_lt. rewrite LinesFacts.len_app. unfold Js.len. cbn [List.length]. lia. }
      rewrite Hlt, LinesFacts.idx_middle, sweep_step.
      cbn [List.length] in Hn, Hfuel.
      destruct (String.eqb (label a) target).
      * rewrite LinesFacts.splice_middle, <- (LinesFacts.len_snoc pre b).
        replace (pre ++ b :: rest') with ((pre ++ [b]) ++ rest')
          by (now rewrite <- app_assoc).
        rewrite IH by lia. now rewrite <- app_assoc.
      * rewrite <- (LinesFacts.len_snoc pre a).
        replace (pre ++ a :: b :: rest') with ((pre ++ [a]) ++ b :: rest')
          by (now rewrite <- app_assoc).
        rewrite IH by (cbn [List.length]; lia). now rewrite <- app_assoc.
Qed.

Lemma sweep_nonempty (target : string) (rest : list Line) :
  rest <> [] -> LegacyLines.sweep label target rest <> [].
Proof.
  destruct rest as [| a [| b rest']]; [congruence | discriminate |].
  intros _. cbn [LegacyLines.sweep].
  destruct (String.eqb (label a) target); discriminate.
Qed.

Lemma last_cons (a : Line) (l : list Line) (d : Line) :
  l <> [] -> last (a :: l) d = last l d.
Proof. destruct l; [congruence | reflexivity]. Qed.

Lemma sweep_last (target : string) (d : Line) (n : nat) :
  forall rest : list Line,
    (List.length rest <= n)%nat ->
    last (LegacyLines.sweep label target rest) d = last rest d.
Proof.
  induction n as [| n IH]; intros rest Hn.
  - destruct rest; [reflexivity | cbn in Hn; lia].
  - destruct rest as [| a [| b rest']]; [reflexivity | reflexivity |].
    rewrite sweep_step. cbn [List.length] in Hn.
    rewrite (@last_cons a (b :: rest')) by discriminate.
    destruct (String.eqb (label a) target).
    + destruct rest' as [| c more]; [reflexivity |].
      rewrite last_cons by (apply sweep_nonempty; discriminate).
      rewrite (@last_cons b (c :: more)) by discriminate.
      apply IH. cbn [List.length] in *. lia.
    + rewrite last_cons by (apply sweep_nonempty; discriminate).
      apply IH. cbn [List.length]. lia.
Qed.

(** The lines that do not carry the label. *)
Lemma sweep_keeps_others (target : string) (n : nat) :
  forall rest : list Line,
    (List.length rest <= n)%nat ->
    filter (fun l => negb (String.eqb (label l) target))
      (LegacyLines.sweep label target rest)
    = filter (fun l => negb (String.eqb (label l) target)) rest.
Proof.
  induction n as [| n IH]; intros rest Hn.
  - destruct rest; [reflexivity | cbn in Hn; lia].
  - destruct rest as [| a [| b rest']]; [reflexivity | reflexivity |].
    rewrite sweep_step. cbn [List.length] in Hn.
    destruct (String.eqb (label a) target) eqn:Ha.
    + cbn [filter]. rewrite Ha. cbn [negb].
      rewrite IH by lia. reflexivity.
    + cbn [filter]. rewrite Ha. cbn [negb].
      f_equal. apply (IH (b :: rest')). cbn [List.length]. lia.
Qed.

(** The line after the first one removed is stepped over. *)
Lemma sweep_skips_next (target : string) (pre : list Line) :
  forall (l1 l2 : Line) (post : list Line),
    (forall l, In l pre -> label l <> target) ->
    label l1 = target ->
    LegacyLines.sweep label target (pre ++ l1 :: l2 :: post)
    = pre ++ l2 :: LegacyLines.sweep label target post.
Proof.
  induction pre as [| x pre IH]; intros l1 l2 post Hno H1.
  - cbn [app LegacyLines.sweep]. now rewrite H1, String.eqb_refl.
  - cbn [app].
    assert (Hx : String.eqb (label x) target = false)
      by (apply String.eqb_neq, Hno; now left).
    destruct (pre ++ l1 :: l2 :: post) as [| y tl] eqn:E;
      [destruct pre; discriminate |].
    destruct tl as [| z tl]; [destruct pre as [| ? [| ? ?]]; discriminate |].
    rewrite sweep_step, Hx, <- E.
    rewrite IH; [reflexivity | | exact H1].
    intros l Hl. apply Hno. now right.
Qed.

End Lines.

End LegacyLinesFacts.

(** X14.  [removeLineByLabel(label)] takes the first line that carries the
    label out of [dataManager.data] and leaves every other line, later ones
    with the same label included, where it was; the graph is then redrawn
    and nothing is raised.  When no line carries the label the data stay as
    they are, the graph is redrawn all the same, and only then does the
    assertion "No line named '<label>' found on this graph." fail. *)
Theorem removeLineByLabel_removes_first_match :
  forall (Line : Type) (label : Line -> string) (draw : list Line -> M unit)
         (data : list Line) (target : string),
    let message :=
      append "Assertion failed: No line named '"
        (append target "' found on this graph.") in
    (forall pre line post,
        data = pre ++ line :: post ->
        label line = target ->
        (forall l, In l pre -> label l <> target) ->
        fst (Lines.removeLineByLabel label draw data target) = pre ++ post /\
        forall w,
          snd (Lines.removeLineByLabel label draw data target) w
          = (draw (pre ++ post) ;; ret tt) w) /\
    ((forall l, In l data -> label l <> target) ->
     fst (Lines.removeLineByLabel label draw data target) = data /\
     forall w w',
       draw data w = (w', Returned tt) ->
       bypassOutOfBoundsDrawing (config w') = false ->
       snd (Lines.removeLineByLabel label draw data target) w
       = (w', Thrown message)).
Proof.
  intros Line label draw data target message.
  unfold Lines.removeLineByLabel. split.
  - intros pre line post Hdata Hline Hpre. subst data.
    pose proof (@LinesFacts.removeLoop_first_match Line label target pre []
                  line post (S (List.length (pre ++ line :: post)))) as Hloop.
    cbn [app Js.len List.length Z.of_nat] in Hloop.
    rewrite Hloop; [| rewrite length_app; lia | exact Hpre | exact Hline].
    cbn [fst snd]. split; reflexivity.
  - intros Hno.
    pose proof (@LinesFacts.removeLoop_no_match Line label target data []
                  (S (List.length data)) Hno) as Hloop.
    cbn [app Js.len List.length Z.of_nat] in Hloop.
    rewrite Hloop. cbn [fst snd]. split; [reflexivity |].
    intros w w' Hdraw Hb. unfold bind. rewrite Hdraw.
    unfold Assert.assert, negb, bind, getConfig. rewrite Hb. reflexivity.
Qed.

Lemma removeLineByLabel_removes_first_match_witness :
  ["a"; "b"; "a"] = ["a"] ++ "b" :: ["a"] /\
  (forall l : string, In l ["a"] -> l <> "b") /\
  fst (Lines.removeLineByLabel (fun l : string => l) (fun _ => ret tt)
         ["a"; "b"; "a"] "b") = ["a"; "a"] /\
  fst (Lines.removeLineByLabel (fun l : string => l) (fun _ => ret tt)
         ["a"; "b"; "a"] "a") = ["b"; "a"] /\
  snd (Lines.removeLineByLabel (fun l : string => l) (fun _ => ret tt)
         ["a"; "b"; "a"] "c") (Sample.world false)
  = (Sample.world false,
     Thrown "Assertion failed: No line named 'c' found on this graph.").
Proof.
  assert (Hpre : forall l : string, In l ["a"] -> l <> "b").
  { intros l [<- | []]. discriminate. }
  assert (Hno : forall l : string, In l ["a"; "b"; "a"] -> l <> "c").
  { intros l [<- | [<- | [<- | []]]]; discriminate. }
  destruct (@removeLineByLabel_removes_first_match string (fun l => l)
              (fun _ => ret tt) ["a"; "b"; "a"] "b") as [Hfound _].
  destruct (Hfound ["a"] "b" ["a"] eq_refl eq_refl Hpre) as [Hdata _].
  destruct (@removeLineByLabel_removes_first_match string (fun l => l)
              (fun _ => ret tt) ["a"; "b"; "a"] "c") as [_ Hmissing].
  destruct (Hmissing Hno) as [_ Hraise].
  split; [reflexivity |]. split; [exact Hpre |]. split; [exact Hdata |].
  split; [reflexivity |].
  exact (Hraise (Sample.world false) (Sample.world false) eq_refl eq_refl).
Defined.

(** X15.  The older [removeLineByLabel] of basic.graph.js stops its loop one
    short of the end and steps on after a [splice]: the last line is never
    removed, whatever its label, so a graph with a single line keeps it; the
    line that follows the first removed one is stepped over and stays, even
    with the same label.  It removes nothing but lines carrying the label:
    the other lines are left in their order.  The graph is redrawn on what
    is left, and the loop needs no more rounds than there are lines. *)
Theorem legacy_removeLineByLabel_spares_last_and_next :
  forall (Line : Type) (label : Line -> string) (redraw : list Line -> M unit)
         (data : list Line) (target : string),
    let data' := fst (LegacyLines.removeLineByLabel label redraw data target) in
    (forall init x, data = init ++ [x] -> exists init', data' = init' ++ [x]) /\
    (forall pre l1 l2 post,
        data = pre ++ l1 :: l2 :: post ->
        (forall l, In l pre -> label l <> target) ->
        label l1 = target ->
        exists post', data' = pre ++ l2 :: post') /\
    filter (fun l => negb (String.eqb (label l) target)) data'
    = filter (fun l => negb (String.eqb (label l) target)) data /\
    snd (LegacyLines.removeLineByLabel label redraw data target) = redraw data' /\
    (forall fuel, (List.length data <= fuel)%nat ->
                  LegacyLines.removeLoop label fuel target 0 data = data').
Proof.
  intros Line label redraw data target data'.
  assert (Hloop : forall fuel, (List.length data <= fuel)%nat ->
            LegacyLines.removeLoop label fuel target 0 data
            = LegacyLines.sweep label target data).
  { intros fuel Hfuel.
    exact (@LegacyLinesFacts.removeLoop_sweep Line label target (List.length data)
             data [] fuel (Nat.le_refl _) Hfuel). }
  assert (Hdata' : data' = LegacyLines.sweep label target data).
  { unfold data', LegacyLines.removeLineByLabel. cbn [fst].
    apply Hloop. apply Nat.le_refl. }
  split; [| split; [| split; [| split]]].
  - intros init x Hdata.
    assert (Hne : data' <> []).
    { rewrite Hdata'. apply LegacyLinesFacts.sweep_nonempty.
      subst data. destruct init; discriminate. }
    exists (removelast data').
    rewrite (app_removelast_last x Hne) at 1.
    do 2 f_equal. rewrite Hdata'.
    rewrite (@LegacyLinesFacts.sweep_last Line label target x (List.length data))
      by apply Nat.le_refl.
    subst data. apply last_last.
  - intros pre l1 l2 post Hdata Hno H1. rewrite Hdata'. subst data.
    rewrite LegacyLinesFacts.sweep_skips_next by assumption.
    eexists. reflexivity.
  - rewrite Hdata'.
    apply (@LegacyLinesFacts.sweep_keeps_others Line label target (List.length data)).
    apply Nat.le_refl.
  - reflexivity.
  - intros fuel Hfuel. rewrite Hdata'. now apply Hloop.
Qed.

Lemma legacy_removeLineByLabel_spares_last_and_next_witness :
  ["a"] = [] ++ ["a"] /\
  fst (LegacyLines.removeLineByLabel (fun l : string => l) (fun _ => ret tt)
         ["a"] "a") = ["a"] /\
  ["a"; "a"; "b"] = [] ++ "a" :: "a" :: ["b"] /\
  fst (LegacyLines.removeLineByLabel (fun l : string => l) (fun _ => ret tt)
         ["a"; "a"; "b"] "a") = ["a"; "b"].
Proof.
  destruct (@legacy_removeLineByLabel_spares_last_and_next string (fun l => l)
              (fun _ => ret tt) ["a"] "a") as [Hlast _].
  destruct (Hlast [] "a" eq_refl) as [init' Hinit].
  destruct (@legacy_removeLineByLabel_spares_last_and_next string (fun l => l)
              (fun _ => ret tt) ["a"; "a"; "b"] "a") as [_ [Hnext _]].
  destruct (Hnext [] "a" "a" ["b"] eq_refl (fun l (H : In l []) => match H with end)
              eq_refl) as [post' Hpost].
  repeat split; reflexivity.
Defined.

(* ================================================================== *)
(** * The legend constructor *)

Module LegendMoreFacts.

Lemma includes_In (values : list string) (v : string) :
  LegendManager.includes values v = true <-> In v values.
Proof.
  unfold LegendManager.includes. rewrite existsb_exists. split.
  - intros [x [Hin Heq]]. apply String.eqb_eq in Heq. now subst.
  - intros Hin. exists v. split; [exact Hin | apply String.eqb_refl].
Qed.

Lemma resolvePosition_valid (g : BasicGraph.t) :
  In (LegendManager.resolvePosition g) LegendManager.Pos.values.
Proof.
  unfold LegendManager.resolvePosition.
  destruct (LegendManager.includes _ _) eqn:E.
  - now apply includes_In.
  - right. right. now left.
Qed.

Lemma resolveAlignment_valid (g : BasicGraph.t) :
  In (LegendManager.resolveAlignment g) LegendManager.Alignment.values.
Proof.
  unfold LegendManager.resolveAlignment.
  destruct (LegendManager.includes _ _) eqn:E.
  - now apply includes_In.
  - right. now left.
Qed.

Lemma new_fields (measureText : string -> Q) (g : BasicGraph.t)
    (data : list LegendManager.Item) (w w' : World) (l : LegendManager.t) :
  LegendManager.new measureText g data w = (w', Returned l) ->
  w' = w /\
  LegendManager.position l = LegendManager.resolvePosition g /\
  LegendManager.alignment l = LegendManager.resolveAlignment g /\
  LegendManager.data l = data /\
  LegendManager.graph l = g.
Proof.
  unfold LegendManager.new.
  change (Assert.assert true (Some "Legend data must not be null")) with (ret tt).
  unfold bind, ret.
  destruct (String.eqb (LegendManager.resolvePosition g) LegendManager.Pos.LEFT
            || String.eqb (LegendManager.resolvePosition g) LegendManager.Pos.RIGHT).
  - unfold Arrays.longest.
    destruct (map LegendManager.label data); [discriminate |].
    unfold ret. intros [= <- <-]. repeat split.
  - intros [= <- <-]. repeat split.
Qed.

End LegendMoreFacts.

(** X16.  Whatever [options.legend] holds, a legend manager that the
    constructor returns has one of the four positions and one of the three
    alignments: a valid option is taken as it is, a missing or unknown
    position becomes ["top"], a missing or unknown alignment ["center"].
    So the [switch] of [draw()] never reaches its [default] case, the
    assertion "Invalid legend position", for a constructed manager. *)
Theorem legend_position_always_valid :
  forall (measureText : string -> Q) (g : BasicGraph.t)
         (data : list LegendManager.Item) (w w' : World) (l : LegendManager.t),
    LegendManager.new measureText g data w = (w', Returned l) ->
    let opts := BasicGraph.legend (BasicGraph.options g) in
    In (LegendManager.position l) ["left"; "right"; "top"; "bottom"] /\
    In (LegendManager.alignment l) ["start"; "center"; "end"] /\
    (forall p, BasicGraph.legend_position opts = Some p ->
               In p ["left"; "right"; "top"; "bottom"] ->
               LegendManager.position l = p) /\
    ((forall p, BasicGraph.legend_position opts = Some p ->
                ~ In p ["left"; "right"; "top"; "bottom"]) ->
     LegendManager.position l = "top") /\
    (forall a, BasicGraph.legend_alignment opts = Some a ->
               In a ["start"; "center"; "end"] ->
               LegendManager.alignment l = a) /\
    ((forall a, BasicGraph.legend_alignment opts = Some a ->
                ~ In a ["start"; "center"; "end"]) ->
     LegendManager.alignment l = "center") /\
    LegendManager.placement l <> None.
Proof.
  intros measureText g data w w' l Hnew opts.
  destruct (LegendMoreFacts.new_fields _ _ _ _ Hnew) as [_ [Hp [Ha _]]].
  pose proof (LegendMoreFacts.resolvePosition_valid g) as Hpv.
  pose proof (LegendMoreFacts.resolveAlignment_valid g) as Hav.
  rewrite <- Hp in Hpv. rewrite <- Ha in Hav.
  split; [exact Hpv |]. split; [exact Hav |].
  split; [| split; [| split; [| split]]].
  - intros p Hopt Hin. rewrite Hp. unfold LegendManager.resolvePosition.
    fold opts. rewrite Hopt. cbn [Js.nullish]. cbv zeta.
    apply LegendMoreFacts.includes_In in Hin.
    change (LegendManager.includes LegendManager.Pos.values p = true) in Hin.
    now rewrite Hin.
  - intros Hbad. rewrite Hp. unfold LegendManager.resolvePosition. fold opts.
    destruct (BasicGraph.legend_position opts) as [p |] eqn:Hopt;
      cbn [Js.nullish]; cbv zeta; [| reflexivity].
    destruct (LegendManager.includes LegendManager.Pos.values p) eqn:E;
      [| reflexivity].
    apply LegendMoreFacts.includes_In in E. exfalso. exact (Hbad p eq_refl E).
  - intros a Hopt Hin. rewrite Ha. unfold LegendManager.resolveAlignment.
    fold opts. rewrite Hopt. cbn [Js.nullish]. cbv zeta.
    apply LegendMoreFacts.includes_In in Hin.
    change (LegendManager.includes LegendManager.Alignment.values a = true) in Hin.
    now rewrite Hin.
  - intros Hbad. rewrite Ha. unfold LegendManager.resolveAlignment. fold opts.
    destruct (BasicGraph.legend_alignment opts) as [a |] eqn:Hopt;
      cbn [Js.nullish]; cbv zeta; [| reflexivity].
    destruct (LegendManager.includes LegendManager.Alignment.values a) eqn:E;
      [| reflexivity].
    apply LegendMoreFacts.includes_In in E. exfalso. exact (Hbad a eq_refl E).
  - unfold LegendManager.placement.
    destruct Hpv as [H | [H | [H | [H | []]]]]; rewrite <- H; discriminate.
Qed.

Lemma legend_position_always_valid_witness :
  LegendManager.new Sample.measureText (Sample.legendGraphAt (Some "middle"))
    Sample.legendItems (Sample.world false)
  = (Sample.world false,
     Returned
       {| LegendManager.graph := Sample.legendGraphAt (Some "middle");
          LegendManager.data := Sample.legendItems;
          LegendManager.position := "top";
          LegendManager.boxSize := 12 + 4;
          LegendManager.alignment := "start";
          LegendManager.requiredSpace := 12 + 4 + LegendManager.PADDING |}) /\
  LegendManager.position
    {| LegendManager.graph := Sample.legendGraphAt (Some "middle");
       LegendManager.data := Sample.legendItems;
       LegendManager.position := "top";
       LegendManager.boxSize := 12 + 4;
       LegendManager.alignment := "start";
       LegendManager.requiredSpace := 12 + 4 + LegendManager.PADDING |} = "top".
Proof.
  assert (Hnew : LegendManager.new Sample.measureText
                   (Sample.legendGraphAt (Some "middle"))
                   Sample.legendItems (Sample.world false)
                 = (Sample.world false,
                    Returned
                      {| LegendManager.graph := Sample.legendGraphAt (Some "middle");
                         LegendManager.data := Sample.legendItems;
                         LegendManager.position := "top";
                         LegendManager.boxSize := 12 + 4;
                         LegendManager.alignment := "start";
                         LegendManager.requiredSpace :=
                           12 + 4 + LegendManager.PADDING |}))
    by (vm_compute; reflexivity).
  split; [exact Hnew |].
  destruct (legend_position_always_valid _ _ _ _ Hnew) as [_ [_ [_ [Hbad _]]]].
  apply Hbad. intros p [= <-] [H | [H | [H | [H | []]]]]; discriminate.
Defined.

(** X17.  A legend without entries can be built above or below the plot,
    where [requiredSpace] is the row height [labelFontSize + 4 + 8] and
    [draw()] draws nothing and leaves its offsets where they start; asked for
    at the left or the right, the constructor looks for the longest label and
    raises the [TypeError] of [reduce] on an empty array. *)
Theorem legend_without_entries :
  forall (measureText : string -> Q) (g : BasicGraph.t) (w : World),
    (LegendManager.resolvePosition g = "left" \/
     LegendManager.resolvePosition g = "right" ->
     LegendManager.new measureText g [] w
     = (w, Thrown "TypeError: Reduce of empty array with no initial value")) /\
    (LegendManager.resolvePosition g = "top" \/
     LegendManager.resolvePosition g = "bottom" ->
     exists l,
       LegendManager.new measureText g [] w = (w, Returned l) /\
       (LegendManager.requiredSpace l
        = BasicGraph.labelFontSize (BasicGraph.options g) + 4 + 8)%Q /\
       forall axisColour PURPLE w0,
         BasicGraph.debug (BasicGraph.options g) = false ->
         exists first final,
           LegendManager.draw measureText axisColour PURPLE l w0
           = (w0, Returned (Some (first, final))) /\
           fst final = fst first /\ snd final = snd first).
Proof.
  intros measureText g w. unfold LegendManager.new.
  change (Assert.assert true (Some "Legend data must not be null")) with (ret tt).
  split.
  - intros [H | H]; rewrite H; reflexivity.
  - intros Hpos.
    assert (Hside : String.eqb (LegendManager.resolvePosition g) LegendManager.Pos.LEFT
                    || String.eqb (LegendManager.resolvePosition g) LegendManager.Pos.RIGHT
                    = false)
      by (destruct Hpos as [H | H]; rewrite H; reflexivity).
    unfold bind, ret. rewrite Hside.
    eexists. split; [reflexivity |]. split; [reflexivity |].
    intros axisColour PURPLE w0 Hdebug.
    unfold LegendManager.draw, LegendManager.placement.
    cbn [LegendManager.position LegendManager.graph LegendManager.data
         LegendManager.requiredSpaces LegendManager.mapi].
    destruct Hpos as [H | H]; rewrite H;
      cbv iota; cbn [String.eqb Ascii.eqb Bool.eqb];
      unfold bind, LegendManager.debugBoundary;
      cbn [LegendManager.graph]; rewrite Hdebug;
      cbn [LegendManager.drawEntries]; unfold ret; eexists; eexists;
      (split; [reflexivity | split; reflexivity]).
Qed.

Lemma legend_without_entries_witness :
  (LegendManager.resolvePosition (Sample.legendGraphAt (Some "left")) = "left" \/
   LegendManager.resolvePosition (Sample.legendGraphAt (Some "left")) = "right") /\
  LegendManager.new Sample.measureText (Sample.legendGraphAt (Some "left")) []
    (Sample.world false)
  = (Sample.world false,
     Thrown "TypeError: Reduce of empty array with no initial value") /\
  (LegendManager.resolvePosition (Sample.legendGraphAt None) = "top" \/
   LegendManager.resolvePosition (Sample.legendGraphAt None) = "bottom") /\
  exists l,
    LegendManager.new Sample.measureText (Sample.legendGraphAt None) []
      (Sample.world false)
    = (Sample.world false, Returned l).
Proof.
  assert (Hleft : LegendManager.resolvePosition (Sample.legendGraphAt (Some "left"))
                  = "left" \/
                  LegendManager.resolvePosition (Sample.legendGraphAt (Some "left"))
                  = "right") by (left; reflexivity).
  assert (Htop : LegendManager.resolvePosition (Sample.legendGraphAt None) = "top" \/
                 LegendManager.resolvePosition (Sample.legendGraphAt None) = "bottom")
    by (left; reflexivity).
  destruct (@legend_without_entries Sample.measureText
              (Sample.legendGraphAt (Some "left")) (Sample.world false))
    as [Hside _].
  destruct (@legend_without_entries Sample.measureText
              (Sample.legendGraphAt None) (Sample.world false))
    as [_ Hrow].
  destruct (Hrow Htop) as [l [Hnew _]].
  split; [exact Hleft |]. split; [exact (Hside Hleft) |].
  split; [exact Htop |]. exists l. exact Hnew.
Defined.

(* ================================================================== *)
(** * The two interpolation branches of [_drawData] *)

Module CurveFacts.

Import DrawData.

Lemma addCalls_nil (w : World) : addCalls w [] = w.
Proof.
  destruct w as [cfg con [ss fs ga lw ta f cs]]. unfold addCalls.
  cbn [config console ctx strokeStyle fillStyle globalAlpha lineWidth textAlign
       font calls].
  now rewrite app_nil_r.
Qed.

Lemma addCalls_app (w : World) (a b : list CtxCall) :
  addCalls (addCalls w a) b = addCalls w (a ++ b).
Proof.
  unfold addCalls.
  cbn [config console ctx strokeStyle fillStyle globalAlpha lineWidth textAlign
       font calls].
  now rewrite app_assoc.
Qed.

Lemma call_addCalls (c : CtxCall) (w : World) :
  call c w = (addCalls w [c], Returned tt).
Proof. reflexivity. Qed.

(** A loop whose rounds return after adding calls adds them in turn. *)
Lemma forEach_calls (body : Z -> M unit) (cs : Z -> list CtxCall) (ks : list Z) :
  (forall k w, In k ks -> body k w = (addCalls w (cs k), Returned tt)) ->
  forall w, forEach ks body w
            = (addCalls w (flat_map cs ks), Returned (map (fun _ => tt) ks)).
Proof.
  induction ks as [| k rest IH]; intros Hbody w.
  - cbn [forEach flat_map map]. unfold ret. now rewrite addCalls_nil.
  - cbn [forEach flat_map map]. unfold bind.
    rewrite (Hbody k w (or_introl eq_refl)).
    rewrite IH by (intros; apply Hbody; now right).
    unfold ret. now rewrite addCalls_app.
Qed.

Lemma get_in_range (points : list Point) (i : Z) (w : World) :
  (0 <= i < Js.len points)%Z ->
  get points i w = (w, Returned (pointAt points i)).
Proof.
  intros H. unfold get, pointAt.
  rewrite (DrawDataFacts.idx_nth points H). reflexivity.
Qed.

Section Cubic.

Variable splineCurve : Point -> Point -> Point -> Q -> ControlPoint.
Variable tension : Q.

(** The control points the loop leaves, read by index. *)
Lemma get_controlPoint (points : list Point) (j : Z) (w : World) :
  (0 <= j < Js.len points - 2)%Z ->
  get (map (controlPointAt splineCurve tension points)
         (range 1 (Js.len points - 1))) j w
  = (w, Returned (controlPointAt splineCurve tension points (j + 1))).
Proof.
  intros H. unfold get, Js.idx.
  destruct (Z.ltb_spec j 0); [lia |].
  rewrite nth_error_map, DrawDataFacts.range_nth by lia.
  cbn [option_map]. rewrite Z2Nat.id by lia.
  now replace (1 + j)%Z with (j + 1)%Z by lia.
Qed.

Lemma controlPoints_len (points : list Point) :
  Js.len (map (controlPointAt splineCurve tension points)
            (range 1 (Js.len points - 1)))
  = Z.max 0 (Js.len points - 2).
Proof.
  unfold Js.len. rewrite length_map, DrawDataFacts.range_length.
  fold (Js.len points). lia.
Qed.

End Cubic.

(** One statement of a block: run it, keep the calls in one list. *)
Ltac run_statement :=
  unfold bind at 1;
  first [ rewrite call_addCalls
        | rewrite get_in_range by lia
        | rewrite get_controlPoint by lia ];
  cbv beta iota;
  rewrite ?addCalls_app.

Lemma lineSegment_calls (points : list Point) (p : Z) (w : World) :
  (0 <= p < Js.len points - 1)%Z ->
  lineSegment points p w
  = (addCalls w (segmentCalls (pointAt points p) (pointAt points (p + 1))),
     Returned tt).
Proof.
  intros H. unfold lineSegment.
  do 6 run_statement.
  rewrite call_addCalls, addCalls_app. reflexivity.
Qed.

Lemma bezierSegment_calls
    (splineCurve : Point -> Point -> Point -> Q -> ControlPoint) (tension : Q)
    (points : list Point) (i : Z) (w : World) :
  (1 <= i < Js.len points - 2)%Z ->
  bezierSegment points
    (map (controlPointAt splineCurve tension points)
       (range 1 (Js.len points - 1))) i w
  = (addCalls w (bezierCalls splineCurve tension points i), Returned tt).
Proof.
  intros H. unfold bezierSegment.
  do 8 run_statement.
  rewrite call_addCalls, addCalls_app.
  replace (i - 1 + 1)%Z with i by lia.
  reflexivity.
Qed.

Lemma drawCubic_calls
    (splineCurve : Point -> Point -> Point -> Q -> ControlPoint) (tension : Q)
    (points : list Point) (w : World) :
  (3 <= Js.len points)%Z ->
  drawCubic splineCurve tension points w
  = (addCalls w
       (flat_map (bezierCalls splineCurve tension points)
          (range 1 (Js.len points - 2))
        ++ firstQuadraticCalls splineCurve tension points
        ++ lastQuadraticCalls splineCurve tension points),
     Returned tt).
Proof.
  intros HN. unfold drawCubic.
  unfold bind at 1. rewrite DrawDataFacts.controlPoints_returns.
  cbv beta iota.
  unfold bind at 1.
  rewrite (@forEach_calls _ (bezierCalls splineCurve tension points)).
  2:{ intros k w0 Hk. apply DrawDataFacts.range_In in Hk.
      now apply bezierSegment_calls. }
  cbv beta iota.
  rewrite controlPoints_len.
  do 15 run_statement.
  rewrite call_addCalls, addCalls_app.
  replace (Z.max 0 (Js.len points - 2) - 1 + 1)%Z with (Js.len points - 2)%Z by lia.
  unfold firstQuadraticCalls, lastQuadraticCalls.
  cbn [app]. rewrite <- !app_assoc. reflexivity.
Qed.

End CurveFacts.

(** X18.  The straight-line branch of [_drawData] never raises, whatever
    the number N of points: it strokes one segment from each point to the
    next, N - 1 segments in the order of the points, and nothing at all for
    an empty line or a single point; console and context properties are left
    alone. *)
Theorem linear_branch_joins_consecutive_points :
  forall (points : list DrawData.Point) (w : World),
    DrawData.drawLinear points w
    = (DrawData.addCalls w
         (flat_map
            (fun p => DrawData.segmentCalls (DrawData.pointAt points p)
                        (DrawData.pointAt points (p + 1)))
            (DrawData.range 0 (Js.len points - 1))),
       Returned tt) /\
    List.length (DrawData.range 0 (Js.len points - 1))
    = (List.length points - 1)%nat.
Proof.
  intros points w. split.
  - unfold DrawData.drawLinear, bind.
    rewrite (@CurveFacts.forEach_calls (DrawData.lineSegment points)
               (fun p => DrawData.segmentCalls (DrawData.pointAt points p)
                           (DrawData.pointAt points (p + 1)))).
    + reflexivity.
    + intros k w0 Hk. apply DrawDataFacts.range_In in Hk.
      now apply CurveFacts.lineSegment_calls.
  - rewrite DrawDataFacts.range_length. unfold Js.len. lia.
Qed.

(** X19.  The cubic branch needs three points.  With N >= 3 it returns
    after stroking N - 1 curves that join consecutive points: for each
    [i] from 1 to N - 3 a Bezier curve from point [i] to point [i + 1], bent
    by the [next] handle of point [i] and the [prev] handle of point [i + 1];
    then a quadratic curve from point 0 to point 1 bent by the [prev] handle
    of point 1, and one from the last point back to point N - 2 bent by the
    latter's [next] handle.  With fewer than three points it ends in a
    [TypeError], logging nothing. *)
Theorem cubic_branch_needs_three_points :
  forall (splineCurve : DrawData.Point -> DrawData.Point -> DrawData.Point ->
                        Q -> DrawData.ControlPoint)
         (tension : Q) (points : list DrawData.Point) (w : World),
    ((3 <= List.length points)%nat ->
     DrawData.drawCubic splineCurve tension points w
     = (DrawData.addCalls w
          (flat_map (DrawData.bezierCalls splineCurve tension points)
             (DrawData.range 1 (Js.len points - 2))
           ++ DrawData.firstQuadraticCalls splineCurve tension points
           ++ DrawData.lastQuadraticCalls splineCurve tension points),
        Returned tt) /\
     List.length (DrawData.range 1 (Js.len points - 2))
     = (List.length points - 3)%nat) /\
    ((List.length points < 3)%nat ->
     snd (DrawData.drawCubic splineCurve tension points w)
     = Thrown "TypeError: Cannot read properties of undefined" /\
     console (fst (DrawData.drawCubic splineCurve tension points w)) = console w).
Proof.
  intros splineCurve tension points w. split.
  - intros Hlen. split.
    + apply CurveFacts.drawCubic_calls. unfold Js.len. lia.
    + rewrite DrawDataFacts.range_length. unfold Js.len. lia.
  - intros Hlen.
    destruct points as [| p [| q [| r rest]]];
      [split; reflexivity | split; reflexivity | split; reflexivity |].
    cbn [List.length] in Hlen. lia.
Qed.

Lemma cubic_branch_needs_three_points_witness :
  let p (a b : Q) := {| DrawData.x := a; DrawData.y := b |} in
  (3 <= List.length [p 0 0; p 1 1; p 2 0]%Q)%nat /\
  snd (DrawData.drawCubic DrawData.splineCurve_spec (1 # 2)
         [p 0 0; p 1 1; p 2 0]%Q (Sample.world false))
  = Returned tt /\
  (List.length [p 0 0; p 1 1]%Q < 3)%nat /\
  snd (DrawData.drawCubic DrawData.splineCurve_spec (1 # 2)
         [p 0 0; p 1 1]%Q (Sample.world false))
  = Thrown "TypeError: Cannot read properties of undefined".
Proof.
  intros p.
  assert (H3 : (3 <= List.length [p 0 0; p 1 1; p 2 0]%Q)%nat)
    by (cbn [List.length]; lia).
  assert (H2 : (List.length [p 0 0; p 1 1]%Q < 3)%nat)
    by (cbn [List.length]; lia).
  destruct (@cubic_branch_needs_three_points DrawData.splineCurve_spec (1 # 2)%Q
              [p 0 0; p 1 1; p 2 0]%Q (Sample.world false)) as [Hmany _].
  destruct (Hmany H3) as [Hrun _].
  destruct (@cubic_branch_needs_three_points DrawData.splineCurve_spec (1 # 2)%Q
              [p 0 0; p 1 1]%Q (Sample.world false)) as [_ Hfew].
  destruct (Hfew H2) as [Hthrow _].
  split; [exact H3 |]. split; [rewrite Hrun; reflexivity |].
  split; [exact H2 | exact Hthrow].
Defined.

(* ================================================================== *)
(** * Where the x axis is drawn *)

Module AxisPositionFacts.

Lemma indexOf_bounds (labels : list string) (s : string) :
  (-1 <= AxisPosition.indexOf labels s < Js.len labels)%Z.
Proof.
  induction labels as [| l rest IH]; cbn [AxisPosition.indexOf].
  - unfold Js.len. cbn. lia.
  - unfold Js.len in *. cbn [List.length]. 
    destruct (String.eqb l s); [lia |]. cbv zeta.
    destruct (Z.eqb_spec (AxisPosition.indexOf rest s) (-1)); lia.
Qed.

Lemma indexOf_missing (labels : list string) (s : string) :
  ~ In s labels -> AxisPosition.indexOf labels s = (-1)%Z.
Proof.
  induction labels as [| l rest IH]; intros Hno; [reflexivity |].
  cbn [AxisPosition.indexOf].
  destruct (String.eqb_spec l s) as [-> | Hne]; [exfalso; apply Hno; now left |].
  cbv zeta. rewrite IH by (intros H; apply Hno; now right). reflexivity.
Qed.

Lemma indexOf_first (pre : list string) (s : string) (post : list string) :
  ~ In s pre ->
  AxisPosition.indexOf (pre ++ s :: post) s = Z.of_nat (List.length pre).
Proof.
  induction pre as [| l pre IH]; intros Hno.
  - cbn [app AxisPosition.indexOf List.length]. now rewrite String.eqb_refl.
  - cbn [app AxisPosition.indexOf].
    destruct (String.eqb_spec l s) as [-> | Hne]; [exfalso; apply Hno; now left |].
    cbv zeta. rewrite IH by (intros H; apply Hno; now right).
    destruct (Z.eqb_spec (Z.of_nat (List.length pre)) (-1)); [lia |].
    cbn [List.length]. lia.
Qed.

Lemma same_offset (y c A B : Q) :
  (y + c * A == y + c * B)%Q -> (c * (A - B) == 0)%Q.
Proof.
  intros H.
  setoid_replace (c * (A - B))%Q with ((y + c * A) - (y + c * B))%Q by ring.
  rewrite H. ring.
Qed.

End AxisPositionFacts.

(** X20.  For the x axis of a graph with a negative scale,
    [determineAxisPosition] looks for the last "0" among the y labels: with
    [k] labels after it, [yStart] is [k] grid cells below [y_begin], nothing
    is logged, and the label array is left reversed.  Without a "0" the
    assertion fails: it raises when the bypass is off; when it is on it is
    logged and [yStart] ends up one cell above [y_begin].  For a y axis, or
    without a negative scale, [yStart] is [padding.top + yLength] and the
    labels are not touched. *)
Theorem x_axis_sits_below_the_labels_above_zero :
  forall (a : Axis.t) (graph : BasicGraph.t) (labels : list string) (w : World),
    let yBegin := BasicGraph.y_begin (BasicGraph.lengths graph) in
    let cell := BasicGraph.y (BasicGraph.gridRectSize graph) in
    let message :=
      "Assertion failed: couldn't find the '0' scale position on the {x-axis}" in
    (Axis.type a = Axis.X_AXIS ->
     AxisManager.negativeScale (Axis.manager a) = true ->
     (forall before after,
         labels = before ++ "0" :: after -> ~ In "0" after ->
         AxisPosition.determineAxisPosition a graph labels w
         = (w, Returned ((yBegin + cell * inject_Z (Js.len after))%Q,
                         rev labels))) /\
     (~ In "0" labels ->
      (bypassOutOfBoundsDrawing (config w) = false ->
       AxisPosition.determineAxisPosition a graph labels w = (w, Thrown message)) /\
      (bypassOutOfBoundsDrawing (config w) = true ->
       AxisPosition.determineAxisPosition a graph labels w
       = (warned w message,
          Returned ((yBegin + cell * inject_Z (-1))%Q, rev labels))))) /\
    (Axis.type a <> Axis.X_AXIS \/
     AxisManager.negativeScale (Axis.manager a) = false ->
     AxisPosition.determineAxisPosition a graph labels w
     = (w, Returned ((BasicGraph.top (BasicGraph.padding graph)
                      + BasicGraph.yLength graph)%Q, labels))).
Proof.
  intros a graph labels w yBegin cell message.
  unfold AxisPosition.determineAxisPosition. split.
  - intros Htype Hneg. rewrite Htype, Hneg.
    change (String.eqb Axis.X_AXIS Axis.X_AXIS && true) with true. cbv iota zeta.
    split.
    + intros before after Hlabels Hafter.
      assert (Hidx : AxisPosition.indexOf (rev labels) "0" = Js.len after).
      { subst labels. rewrite rev_app_distr. cbn [rev]. rewrite <- app_assoc.
        cbn [app]. rewrite AxisPositionFacts.indexOf_first.
        - unfold Js.len. now rewrite length_rev.
        - now rewrite <- in_rev. }
      rewrite Hidx.
      assert (Hok : negb (Js.len after =? -1)%Z = true).
      { unfold Js.len. destruct (Z.eqb_spec (Z.of_nat (List.length after)) (-1));
          [lia | reflexivity]. }
      rewrite Hok. reflexivity.
    + intros Hno.
      assert (Hidx : AxisPosition.indexOf (rev labels) "0" = (-1)%Z).
      { apply AxisPositionFacts.indexOf_missing. now rewrite <- in_rev. }
      rewrite Hidx.
      change (negb (-1 =? -1)%Z) with false.
      unfold Assert.assert, negb, bind, getConfig, console_warn, throw, ret.
      split; intros Hb; rewrite Hb; reflexivity.
  - intros [Htype | Hneg].
    + apply String.eqb_neq in Htype. rewrite Htype. reflexivity.
    + rewrite Hneg, andb_false_r. reflexivity.
Qed.

Lemma x_axis_sits_below_the_labels_above_zero_witness :
  let a := Axis.initial Sample.mixedManager Axis.X_AXIS (Sample.xOptions 4) in
  Axis.type a = Axis.X_AXIS /\
  AxisManager.negativeScale (Axis.manager a) = true /\
  ["-5"; "0"; "5"; "10"] = ["-5"] ++ "0" :: ["5"; "10"] /\
  ~ In "0" ["5"; "10"] /\
  AxisPosition.determineAxisPosition a Sample.legendGraph ["-5"; "0"; "5"; "10"]
    (Sample.world false)
  = (Sample.world false,
     Returned ((10 + (97 # 10) * 2)%Q, ["10"; "5"; "0"; "-5"])).
Proof.
  intros a.
  assert (Hafter : ~ In "0" ["5"; "10"]).
  { intros [H | [H | []]]; discriminate. }
  destruct (@x_axis_sits_below_the_labels_above_zero a Sample.legendGraph
              ["-5"; "0"; "5"; "10"] (Sample.world false)) as [Hx _].
  destruct (Hx eq_refl eq_refl) as [Hfound _].
  split; [reflexivity |]. split; [reflexivity |]. split; [reflexivity |].
  split; [exact Hafter |].
  rewrite (Hfound ["-5"] ["5"; "10"] eq_refl Hafter). vm_compute. reflexivity.
Defined.


(** X21.  [reverse()] works in place, so a call of [determineAxisPosition]
    on the array an earlier call has left behind counts from the other end:
    with a single "0" among the labels, the first call puts the x axis as
    many cells below [y_begin] as there are labels after the "0", the next
    call as many as there are labels before it, and the array is back in its
    first order.  The two positions differ whenever the two counts differ
    and the cell height is not 0. *)
Theorem second_call_counts_from_the_other_end :
  forall (a : Axis.t) (graph : BasicGraph.t) (before after : list string)
         (w : World),
    Axis.type a = Axis.X_AXIS ->
    AxisManager.negativeScale (Axis.manager a) = true ->
    ~ In "0" before -> ~ In "0" after ->
    let labels := before ++ "0" :: after in
    let yBegin := BasicGraph.y_begin (BasicGraph.lengths graph) in
    let cell := BasicGraph.y (BasicGraph.gridRectSize graph) in
    AxisPosition.determineAxisPosition a graph labels w
    = (w, Returned ((yBegin + cell * inject_Z (Js.len after))%Q, rev labels)) /\
    AxisPosition.determineAxisPosition a graph (rev labels) w
    = (w, Returned ((yBegin + cell * inject_Z (Js.len before))%Q, labels)) /\
    (List.length before <> List.length after -> ~ (cell == 0)%Q ->
     ~ (yBegin + cell * inject_Z (Js.len after)
        == yBegin + cell * inject_Z (Js.len before))%Q).
Proof.
  intros a graph before after w Htype Hneg Hbefore Hafter labels yBegin cell.
  assert (Hrun : forall pre post,
             ~ In "0" post ->
             AxisPosition.determineAxisPosition a graph (pre ++ "0" :: post) w
             = (w, Returned ((yBegin + cell * inject_Z (Js.len post))%Q,
                             rev (pre ++ "0" :: post)))).
  { intros pre post Hpost.
    unfold AxisPosition.determineAxisPosition. rewrite Htype, Hneg.
    change (String.eqb Axis.X_AXIS Axis.X_AXIS && true) with true. cbv iota zeta.
    assert (Hidx : AxisPosition.indexOf (rev (pre ++ "0" :: post)) "0" = Js.len post).
    { rewrite rev_app_distr. cbn [rev]. rewrite <- app_assoc.
      cbn [app]. rewrite AxisPositionFacts.indexOf_first.
      - unfold Js.len. now rewrite length_rev.
      - now rewrite <- in_rev. }
    rewrite Hidx.
    assert (Hok : negb (Js.len post =? -1)%Z = true).
    { unfold Js.len. destruct (Z.eqb_spec (Z.of_nat (List.length post)) (-1));
        [lia | reflexivity]. }
    rewrite Hok. reflexivity. }
  split; [apply Hrun; exact Hafter |]. split.
  - unfold labels. rewrite rev_app_distr. cbn [rev]. rewrite <- app_assoc.
    cbn [app].
    rewrite (Hrun (rev after) (rev before)) by (now rewrite <- in_rev).
    unfold Js.len. rewrite length_rev.
    rewrite rev_app_distr. cbn [rev]. rewrite <- app_assoc. cbn [app].
    now rewrite !rev_involutive.
  - intros Hlen Hcell Heq.
    apply AxisPositionFacts.same_offset in Heq.
    apply Qmult_integral in Heq. destruct Heq as [Hc | Hd]; [contradiction |].
    assert (Hq : (inject_Z (Js.len after) == inject_Z (Js.len before))%Q).
    { setoid_replace (inject_Z (Js.len after))
        with (inject_Z (Js.len after) - inject_Z (Js.len before)
              + inject_Z (Js.len before))%Q by ring.
      rewrite Hd. ring. }
    pose proof (proj1 (inject_Z_injective _ _) Hq) as Hz. unfold Js.len in Hz. lia.
Qed.

Lemma second_call_counts_from_the_other_end_witness :
  let a := Axis.initial Sample.mixedManager Axis.X_AXIS (Sample.xOptions 4) in
  Axis.type a = Axis.X_AXIS /\
  AxisManager.negativeScale (Axis.manager a) = true /\
  ~ In "0" ["-5"] /\ ~ In "0" ["5"; "10"] /\
  AxisPosition.determineAxisPosition a Sample.legendGraph ["10"; "5"; "0"; "-5"]
    (Sample.world false)
  = (Sample.world false,
     Returned ((10 + (97 # 10) * 1)%Q, ["-5"; "0"; "5"; "10"])).
Proof.
  intros a.
  assert (Hbefore : ~ In "0" ["-5"]) by (intros [H | []]; discriminate).
  assert (Hafter : ~ In "0" ["5"; "10"]).
  { intros [H | [H | []]]; discriminate. }
  destruct (@second_call_counts_from_the_other_end a Sample.legendGraph
              ["-5"] ["5"; "10"] (Sample.world false) eq_refl eq_refl
              Hbefore Hafter) as [_ [Hsecond _]].
  split; [reflexivity |]. split; [reflexivity |].
  split; [exact Hbefore |]. split; [exact Hafter |].
  cbn [rev app] in Hsecond. rewrite Hsecond. vm_compute. reflexivity.
Defined.

(* ================================================================== *)
(** * An axis of an unknown type *)

(** X22.  An axis whose type is neither ["x-axis"] nor ["y-axis"] is never
    built.  With a positive tick count the constructor raises "Graphika:
    Unrecognised Axis type '<type>'" before any scale is made and without
    logging.  With a tick count of zero or less the guard comes first: it
    raises when the bypass is off, and when it is on it is logged and the
    constructor then raises the error about the type. *)
Theorem unknown_axis_type_is_refused :
  forall (m : AxisManager.t) (type : string) (o : Axis.Options) (w : World),
    type <> "x-axis" -> type <> "y-axis" ->
    let unrecognised :=
      append "Graphika: Unrecognised Axis type '" (append type "'") in
    let guard :=
      append "Assertion failed: "
        (append type " cannot have zero or negative tick count") in
    ((0 < Axis.ticks o)%Z -> Axis.new m type o w = (w, Thrown unrecognised)) /\
    ((Axis.ticks o <= 0)%Z ->
     (bypassOutOfBoundsDrawing (config w) = false ->
      Axis.new m type o w = (w, Thrown guard)) /\
     (bypassOutOfBoundsDrawing (config w) = true ->
      Axis.new m type o w = (warned w guard, Thrown unrecognised))).
Proof.
  intros m type o w Hx Hy unrecognised guard.
  apply String.eqb_neq in Hx. apply String.eqb_neq in Hy.
  assert (Hcompute : forall w0,
             Axis.computeAndGenerate (Axis.initial m type o) w0
             = (w0, Thrown unrecognised)).
  { intros w0. unfold Axis.computeAndGenerate, Axis._computeAxisScale, bind.
    cbn [Axis.type Axis.initial].
    change Axis.X_AXIS with "x-axis". change Axis.Y_AXIS with "y-axis".
    rewrite Hx, Hy. reflexivity. }
  split.
  - intros Hticks. unfold Axis.new, bind.
    rewrite AxisFacts.guard_passes by exact Hticks. apply Hcompute.
  - intros Hticks.
    assert (Hcond : (0 <? Axis.ticks o)%Z = false) by (apply Z.ltb_ge; exact Hticks).
    unfold Axis.new, Assert.assert, bind, getConfig, console_warn, throw.
    rewrite Hcond. cbn [negb].
    split; intros Hb; rewrite Hb; [reflexivity |].
    apply Hcompute.
Qed.

Lemma unknown_axis_type_is_refused_witness :
  "z-axis" <> "x-axis" /\ "z-axis" <> "y-axis" /\
  (0 < Axis.ticks (Sample.yOptions 10))%Z /\
  Axis.new Sample.mixedManager "z-axis" (Sample.yOptions 10) (Sample.world false)
  = (Sample.world false, Thrown "Graphika: Unrecognised Axis type 'z-axis'").
Proof.
  assert (Hx : "z-axis" <> "x-axis") by discriminate.
  assert (Hy : "z-axis" <> "y-axis") by discriminate.
  assert (Hticks : (0 < Axis.ticks (Sample.yOptions 10))%Z) by (cbn; lia).
  destruct (@unknown_axis_type_is_refused Sample.mixedManager "z-axis"
              (Sample.yOptions 10) (Sample.world false) Hx Hy) as [Hpos _].
  split; [exact Hx |]. split; [exact Hy |]. split; [exact Hticks |].
  exact (Hpos Hticks).
Defined.

(* ================================================================== *)
(** * The font size read back from the context *)

Module FontFacts.

Lemma Number_toString_integer (q : Q) (n : Z) :
  (q == inject_Z n)%Q -> Js.Number_toString q = Js.Z_toString n.
Proof.
  intros H. unfold Js.Number_toString.
  assert (Hred : Qred q = inject_Z n).
  { rewrite (Qred_complete _ _ H). unfold Qred, inject_Z.
    pose proof (Z.ggcd_gcd n 1) as Hg.
    pose proof (Z.ggcd_correct_divisors n 1) as Hdiv.
    destruct (Z.ggcd n 1) as [g [aa bb]].
    cbn [fst snd] in *. rewrite Z.gcd_1_r in Hg. subst g.
    destruct Hdiv as [Ha Hb].
    assert (aa = n) by lia. assert (bb = 1%Z) by lia. subst aa bb.
    reflexivity. }
  rewrite Hred. reflexivity.
Qed.

Lemma append_assoc (a b c : string) :
  append a (append b c) = append (append a b) c.
Proof. induction a as [| x a IH]; cbn [append]; [reflexivity | now rewrite IH]. Qed.

Lemma substring_prefix (k : nat) :
  forall a b : string,
    (k <= String.length a)%nat ->
    String.substring 0 k (append a b) = String.substring 0 k a.
Proof.
  induction k as [| k IH]; intros a b Hk.
  - destruct a, b; reflexivity.
  - destruct a as [| x a]; [cbn in Hk; lia |].
    cbn [append String.substring]. rewrite IH; [reflexivity |].
    cbn [String.length] in Hk. lia.
Qed.

Lemma substring_length (k : nat) :
  forall s : string, (String.length (String.substring 0 k s) <= k)%nat.
Proof.
  induction k as [| k IH]; intros s.
  - destruct s; cbn; lia.
  - destruct s as [| x s]; [cbn; lia |].
    cbn [String.substring String.length]. specialize (IH s). lia.
Qed.

Lemma digitValue_range (c : ascii) (d : Z) :
  Js.digitValue c = Some d -> (0 <= d <= 9)%Z.
Proof.
  unfold Js.digitValue. cbv zeta.
  destruct (Nat.leb_spec 48 (nat_of_ascii c)); [| discriminate].
  destruct (Nat.leb_spec (nat_of_ascii c) 57); [| discriminate].
  cbn [andb]. intros [= <-]. lia.
Qed.

Lemma digits_bound (s : string) :
  forall (acc : Z) (seen : bool) (v : Z),
    (0 <= acc)%Z ->
    Js.digits s acc seen = Some v ->
    (acc <= v < (acc + 1) * 10 ^ Z.of_nat (String.length s))%Z.
Proof.
  induction s as [| c rest IH]; intros acc seen v Hacc Hd.
  - cbn [Js.digits] in Hd. destruct seen; [| discriminate].
    injection Hd as <-. cbn. lia.
  - cbn [Js.digits] in Hd.
    destruct (Js.digitValue c) as [d |] eqn:Hc.
    + apply digitValue_range in Hc.
      apply IH in Hd; [| lia].
      cbn [String.length]. rewrite Nat2Z.inj_succ, Z.pow_succ_r by lia.
      nia.
    + destruct seen; [| discriminate]. injection Hd as <-.
      assert (0 < 10 ^ Z.of_nat (String.length (String c rest)))%Z
        by (apply Z.pow_pos_nonneg; lia).
      nia.
Qed.

Lemma trimStart_length (s : string) :
  (String.length (Js.trimStart s) <= String.length s)%nat.
Proof.
  induction s as [| c rest IH]; [cbn; lia |].
  cbn [Js.trimStart]. destruct (Js.isWhiteSpace c); cbn [String.length] in *; lia.
Qed.

(** What [parseInt] makes of at most two characters. *)
Lemma parseInt10_two (s : string) (v : Z) :
  (String.length s <= 2)%nat ->
  Js.parseInt10 s = Some v -> (-9 <= v <= 99)%Z.
Proof.
  intros Hlen. unfold Js.parseInt10.
  pose proof (trimStart_length s) as Ht.
  destruct (Js.trimStart s) as [| c rest]; [discriminate |].
  cbn [String.length] in Ht.
  assert (Hp : forall n : nat, (n <= 2)%nat -> (10 ^ Z.of_nat n <= 100)%Z).
  { intros n Hn. destruct n as [| [| [| n]]]; cbn; lia. }
  destruct (Ascii.eqb c "-").
  - destruct (Js.digits rest 0 false) as [u |] eqn:Hd; [| discriminate].
    cbn [option_map]. intros [= <-].
    apply digits_bound in Hd; [| lia].
    assert (Hr : (String.length rest <= 1)%nat) by lia.
    destruct (String.length rest) as [| [| n]]; cbn in Hd; lia.
  - destruct (Ascii.eqb c "+").
    + intros Hd. apply digits_bound in Hd; [| lia].
      specialize (Hp (String.length rest) ltac:(lia)). lia.
    + intros Hd. apply digits_bound in Hd; [| lia].
      specialize (Hp (String.length (String c rest)) ltac:(cbn [String.length]; lia)).
      lia.
Qed.

(** The sizes from 0 to 99, one by one. *)
Lemma readsBack_below_100 : forallb BasicGraph.readsBack (seq 0 100) = true.
Proof. vm_compute. reflexivity. Qed.

End FontFacts.

(** X23.  [fontSize()] reads the first two characters of [ctx.font] as
    an integer.  After [toTextMode] with an integer size from 0 to 99 it
    gives that size back, whatever the label font.  In any state its answer,
    when it is a number, lies between -9 and 99, so a size of 100 pixels or
    more is never read back: 120 pixels reads as 12. *)
Theorem fontSize_reads_back_sizes_below_100 :
  forall (d : Drawer.t) (size : Q) (colour alignment : option string) (w : World),
    (forall n : Z,
        (0 <= n <= 99)%Z -> (size == inject_Z n)%Q ->
        (Drawer.toTextMode d size colour alignment ;; BasicGraph.fontSize) w
        = (fst (Drawer.toTextMode d size colour alignment w), Returned (Some n))) /\
    (forall v : Z,
        snd (BasicGraph.fontSize w) = Returned (Some v) -> (-9 <= v <= 99)%Z) /\
    (forall n : Z,
        (100 <= n)%Z -> (size == inject_Z n)%Q ->
        snd ((Drawer.toTextMode d size colour alignment ;; BasicGraph.fontSize) w)
        <> Returned (Some n)).
Proof.
  intros d size colour alignment w.
  assert (Hrange : forall w0 v,
             snd (BasicGraph.fontSize w0) = Returned (Some v) -> (-9 <= v <= 99)%Z).
  { intros w0 v. unfold BasicGraph.fontSize, bind, getCtx, ret. cbn [snd].
    intros [= Hv]. apply FontFacts.parseInt10_two in Hv; [exact Hv |].
    apply FontFacts.substring_length. }
  split; [| split].
  - intros n Hn Hsize.
    unfold BasicGraph.fontSize, Drawer.toTextMode, modifyCtx, getCtx, ret, bind.
    cbn [fst ctx font]. do 2 f_equal.
    rewrite (FontFacts.Number_toString_integer Hsize).
    rewrite FontFacts.append_assoc. unfold Js.substr0.
    rewrite FontFacts.substring_prefix
      by (rewrite ToStringFacts.length_append; cbn [String.length]; lia).
    pose proof FontFacts.readsBack_below_100 as Hall.
    rewrite forallb_forall in Hall.
    specialize (Hall (Z.to_nat n)).
    unfold BasicGraph.readsBack, Js.substr0 in Hall.
    rewrite Z2Nat.id in Hall by lia.
    destruct (Js.parseInt10 _) as [v |].
    + f_equal. apply Z.eqb_eq. apply Hall. apply in_seq. lia.
    + discriminate Hall. apply in_seq. lia.
  - apply Hrange.
  - intros n Hn Hsize Hread.
    unfold bind in Hread.
    destruct (Drawer.toTextMode d size colour alignment w) as [w1 [[] | e]] eqn:Hmode;
      [| discriminate].
    apply Hrange in Hread. lia.
Qed.

Lemma fontSize_reads_back_sizes_below_100_witness :
  (0 <= 24 <= 99)%Z /\ (24 == inject_Z 24)%Q /\
  snd ((Drawer.toTextMode Sample.drawer 24 (Some "grey") None ;; BasicGraph.fontSize)
         (Sample.world false))
  = Returned (Some 24%Z) /\
  snd ((Drawer.toTextMode Sample.drawer 120 (Some "grey") None ;; BasicGraph.fontSize)
         (Sample.world false))
  = Returned (Some 12%Z) /\
  snd (BasicGraph.fontSize (Sample.world false)) = Returned (Some 10%Z).
Proof.
  assert (Hn : (0 <= 24 <= 99)%Z) by lia.
  assert (Hq : (24 == inject_Z 24)%Q) by reflexivity.
  destruct (@fontSize_reads_back_sizes_below_100 Sample.drawer 24%Q (Some "grey")
              None (Sample.world false)) as [Hback _].
  split; [exact Hn |]. split; [exact Hq |].
  split; [rewrite (Hback 24%Z Hn Hq); reflexivity |].
  split; vm_compute; reflexivity.
Defined.

(* ================================================================== *)
(** * Finding the canvas *)

Module HtmlFacts.

Lemma find_first (nodes pre post : list Html.Node) (c : Html.Node) :
  nodes = pre ++ c :: post ->
  (forall n, In n pre -> Html.isCanvas n = false) ->
  Html.isCanvas c = true ->
  find Html.isCanvas nodes = Some c.
Proof.
  intros -> Hpre Hc. induction pre as [| n pre IH]; cbn [app find].
  - now rewrite Hc.
  - rewrite (Hpre n (or_introl eq_refl)). apply IH.
    intros m Hm. apply Hpre. now right.
Qed.

Lemma find_none (nodes : list Html.Node) :
  (forall n, In n nodes -> Html.isCanvas n = false) ->
  find Html.isCanvas nodes = None.
Proof.
  induction nodes as [| n nodes IH]; intros Hno; [reflexivity |].
  cbn [find]. rewrite (Hno n (or_introl eq_refl)). apply IH.
  intros m Hm. apply Hno. now right.
Qed.

End HtmlFacts.

(** X24.  Given an [isUndefOrNull] that holds of [undefined] and of no
    node, [findCanvas(id)] returns the first child of the container whose
    [nodeName] is "canvas" in any letter case, and sets the container's
    [style.width] to the canvas width followed by "px", leaving the children
    as they are.  It raises "Graph Container '<id>' doesn't exist." followed
    by the caught error when there is no element with that id, and "Graph
    Container '<id>' doesn't contain <canvas> element." when none of the
    children is a canvas. *)
Theorem findCanvas_returns_first_canvas :
  forall (getElementById : string -> option Html.Element)
         (isUndefOrNull : option Html.Node -> bool) (id : string) (w : World),
    isUndefOrNull None = true ->
    (forall c, isUndefOrNull (Some c) = false) ->
    (getElementById id = None ->
     Html.findCanvas getElementById isUndefOrNull id w
     = (w, Thrown (append "Graph Container '"
                     (append id
                        (append "' doesn't exist."
                           (append Html.newline
                              "TypeError: Cannot read properties of null")))))) /\
    (forall e,
        getElementById id = Some e ->
        (forall n, In n (Html.childNodes e) -> Html.isCanvas n = false) ->
        Html.findCanvas getElementById isUndefOrNull id w
        = (w, Thrown (append "Graph Container '"
                        (append id "' doesn't contain <canvas> element.")))) /\
    (forall e pre c post,
        getElementById id = Some e ->
        Html.childNodes e = pre ++ c :: post ->
        (forall n, In n pre -> Html.isCanvas n = false) ->
        Html.isCanvas c = true ->
        Html.findCanvas getElementById isUndefOrNull id w
        = (w, Returned
                (c, {| Html.childNodes := Html.childNodes e;
                       Html.styleWidth :=
                         append (Js.Z_toString (Html.canvasWidth c)) "px" |}))).
Proof.
  intros getElementById isUndefOrNull id w Hnone Hsome.
  unfold Html.findCanvas. split; [| split].
  - intros Hid. rewrite Hid, Hnone. reflexivity.
  - intros e Hid Hno. rewrite Hid, (@HtmlFacts.find_none _ Hno).
    unfold bind, ret. rewrite Hnone. reflexivity.
  - intros e pre c post Hid Hnodes Hpre Hc.
    rewrite Hid, (@HtmlFacts.find_first _ _ _ _ Hnodes Hpre Hc).
    unfold bind, ret. rewrite Hsome. reflexivity.
Qed.

Lemma findCanvas_returns_first_canvas_witness :
  let div := {| Html.nodeName := "DIV"; Html.canvasWidth := 0 |} in
  let first := {| Html.nodeName := "CANVAS"; Html.canvasWidth := 143 |} in
  let second := {| Html.nodeName := "canvas"; Html.canvasWidth := 300 |} in
  let e := {| Html.childNodes := [div; first; second]; Html.styleWidth := "" |} in
  let document (id : string) := if String.eqb id "graph" then Some e else None in
  let isUndefOrNull (v : option Html.Node) :=
    match v with None => true | Some _ => false end in
  isUndefOrNull None = true /\
  (forall c, isUndefOrNull (Some c) = false) /\
  document "graph" = Some e /\
  Html.childNodes e = [div] ++ first :: [second] /\
  Html.isCanvas first = true /\
  Html.findCanvas document isUndefOrNull "graph" (Sample.world false)
  = (Sample.world false,
     Returned (first, {| Html.childNodes := [div; first; second];
                         Html.styleWidth := "143px" |})) /\
  document "chart" = None /\
  snd (Html.findCanvas document isUndefOrNull "chart" (Sample.world false))
  = Thrown (append "Graph Container 'chart' doesn't exist."
              (append Html.newline "TypeError: Cannot read properties of null")).
Proof.
  intros div first second e document isUndefOrNull.
  assert (Hnone : isUndefOrNull None = true) by reflexivity.
  assert (Hsome : forall c, isUndefOrNull (Some c) = false) by reflexivity.
  assert (Hpre : forall n, In n [div] -> Html.isCanvas n = false).
  { intros n [<- | []]. reflexivity. }
  destruct (@findCanvas_returns_first_canvas document isUndefOrNull "graph"
              (Sample.world false) Hnone Hsome) as [_ [_ Hfound]].
  destruct (@findCanvas_returns_first_canvas document isUndefOrNull "chart"
              (Sample.world false) Hnone Hsome) as [Hmissing _].
  split; [exact Hnone |]. split; [exact Hsome |]. split; [reflexivity |].
  split; [reflexivity |]. split; [reflexivity |].
  split; [exact (Hfound e [div] first [second] eq_refl eq_refl Hpre eq_refl) |].
  split; [reflexivity |]. rewrite (Hmissing eq_refl). reflexivity.
Defined.

(* ================================================================== *)
(** * The height of the plot *)



(* ================================================================== *)
(** * The extent of the legend and its alignment *)

Module LegendExtentFacts.

Local Open Scope Q_scope.

Section Host.

Variable measureText : string -> Q.

(** The spacings of the entries from index [i] on, [xs] being the entries
    from there to the end of the legend. *)
Lemma sum_spaces_horizontal (l : LegendManager.t) (xs : list LegendManager.Item) :
  forall i : nat,
    (i + List.length xs = List.length (LegendManager.data l))%nat ->
    xs <> [] ->
    Arrays.sum (LegendManager.mapi
                  (LegendManager.spaceOf measureText l LegendManager.Horizontal) i xs)
    == inject_Z (Z.of_nat (List.length xs))
       * (2 * LegendManager.PADDING + LegendManager.boxSize l)
       + Arrays.sum (map (fun item => measureText (LegendManager.label item)) xs)
       + (inject_Z (Z.of_nat (List.length xs)) - 1) * LegendManager.PADDING.
Proof.
  induction xs as [| item xs IH]; intros i Hlen Hne; [congruence |].
  cbn [LegendManager.mapi map]. rewrite !LegendFacts.sum_cons.
  cbn [List.length] in *. rewrite Nat2Z.inj_succ, <- Z.add_1_r, inject_Z_plus.
  change (inject_Z 1) with 1.
  unfold LegendManager.spaceOf at 1, LegendManager.getRequiredSpaceFor.
  destruct xs as [| item' xs'].
  - cbn [LegendManager.mapi map List.length Z.of_nat].
    rewrite !LegendFacts.sum_nil.
    replace (Nat.eqb i (List.length (LegendManager.data l) - 1)) with true
      by (symmetry; apply Nat.eqb_eq; cbn [List.length] in Hlen; lia).
    change (inject_Z 0) with 0. ring.
  - rewrite (IH (S i)) by (cbn [List.length] in *; first [lia | discriminate]).
    replace (Nat.eqb i (List.length (LegendManager.data l) - 1)) with false
      by (symmetry; apply Nat.eqb_neq; cbn [List.length] in Hlen; lia).
    ring.
Qed.

Lemma sum_spaces_vertical (l : LegendManager.t) (xs : list LegendManager.Item) :
  forall i : nat,
    (i + List.length xs = List.length (LegendManager.data l))%nat ->
    xs <> [] ->
    Arrays.sum (LegendManager.mapi
                  (LegendManager.spaceOf measureText l LegendManager.Vertical) i xs)
    == inject_Z (Z.of_nat (List.length xs)) * LegendManager.boxSize l
       + (inject_Z (Z.of_nat (List.length xs)) - 1) * LegendManager.PADDING.
Proof.
  induction xs as [| item xs IH]; intros i Hlen Hne; [congruence |].
  cbn [LegendManager.mapi]. rewrite !LegendFacts.sum_cons.
  cbn [List.length] in *. rewrite Nat2Z.inj_succ, <- Z.add_1_r, inject_Z_plus.
  change (inject_Z 1) with 1.
  unfold LegendManager.spaceOf at 1.
  destruct xs as [| item' xs'].
  - cbn [LegendManager.mapi List.length Z.of_nat].
    rewrite !LegendFacts.sum_nil.
    replace (Nat.eqb i (List.length (LegendManager.data l) - 1)) with true
      by (symmetry; apply Nat.eqb_eq; cbn [List.length] in Hlen; lia).
    change (inject_Z 0) with 0. ring.
  - rewrite (IH (S i)) by (cbn [List.length] in *; first [lia | discriminate]).
    replace (Nat.eqb i (List.length (LegendManager.data l) - 1)) with false
      by (symmetry; apply Nat.eqb_neq; cbn [List.length] in Hlen; lia).
    ring.
Qed.

End Host.

End LegendExtentFacts.

(** X26.  The spacings [requiredSpaces] of a legend with n >= 1 entries add
    up, in a row, to n times [2 * PADDING + boxSize] plus the measured widths
    of the labels plus n - 1 paddings between the entries; in a column, to n
    box sizes plus n - 1 paddings.  The entry after which no padding is added
    is the last one. *)
Theorem legend_extent_in_closed_form :
  forall (measureText : string -> Q) (l : LegendManager.t),
    LegendManager.data l <> [] ->
    let n := inject_Z (Js.len (LegendManager.data l)) in
    let widths :=
      Arrays.sum (map (fun item => measureText (LegendManager.label item))
                    (LegendManager.data l)) in
    (Arrays.sum (LegendManager.requiredSpaces measureText l LegendManager.Horizontal)
     == n * (2 * LegendManager.PADDING + LegendManager.boxSize l) + widths
        + (n - 1) * LegendManager.PADDING)%Q /\
    (Arrays.sum (LegendManager.requiredSpaces measureText l LegendManager.Vertical)
     == n * LegendManager.boxSize l + (n - 1) * LegendManager.PADDING)%Q.
Proof.
  intros measureText l Hne n widths. unfold LegendManager.requiredSpaces. split.
  - apply LegendExtentFacts.sum_spaces_horizontal; [reflexivity | exact Hne].
  - apply LegendExtentFacts.sum_spaces_vertical; [reflexivity | exact Hne].
Qed.

Lemma legend_extent_in_closed_form_witness :
  LegendManager.data Sample.legend <> [] /\
  (Arrays.sum (LegendManager.requiredSpaces Sample.measureText Sample.legend
                 LegendManager.Horizontal) == 93)%Q /\
  (Arrays.sum (LegendManager.requiredSpaces Sample.measureText Sample.legend
                 LegendManager.Vertical) == 40)%Q.
Proof.
  assert (Hne : LegendManager.data Sample.legend <> []) by discriminate.
  destruct (@legend_extent_in_closed_form Sample.measureText Sample.legend Hne)
    as [Hh Hv].
  split; [exact Hne |].
  split; [rewrite Hh | rewrite Hv]; vm_compute; reflexivity.
Defined.

Module LegendAlignFacts.

Local Open Scope Q_scope.

(** A legend above or below the plot starts, before alignment, at
    [x_begin]. *)
Lemma placement_row (l : LegendManager.t) :
  LegendManager.position l = LegendManager.Pos.TOP \/
  LegendManager.position l = LegendManager.Pos.BOTTOM ->
  exists yBegin,
    LegendManager.placement l
    = Some (LegendManager.Horizontal,
            BasicGraph.x_begin (BasicGraph.lengths (LegendManager.graph l)),
            yBegin).
Proof.
  intros [H | H]; unfold LegendManager.placement; rewrite H;
    eexists; reflexivity.
Qed.

Lemma aligned_row (measureText : string -> Q) (l : LegendManager.t)
    (xBegin yBegin : Q) :
  let total :=
    Arrays.sum (LegendManager.requiredSpaces measureText l
                  LegendManager.Horizontal) in
  let lengths := BasicGraph.lengths (LegendManager.graph l) in
  (LegendManager.alignment l = "start" ->
   LegendManager.aligned measureText l LegendManager.Horizontal xBegin yBegin
   = (xBegin, yBegin)) /\
  (LegendManager.alignment l = "center" ->
   LegendManager.aligned measureText l LegendManager.Horizontal xBegin yBegin
   = (BasicGraph.x_center lengths - total / 2 + LegendManager.PADDING, yBegin)) /\
  (LegendManager.alignment l = "end" ->
   LegendManager.aligned measureText l LegendManager.Horizontal xBegin yBegin
   = (BasicGraph.x_end lengths - total, yBegin)).
Proof.
  cbv zeta. unfold LegendManager.aligned.
  split; [| split]; intros Ha; rewrite Ha; reflexivity.
Qed.

End LegendAlignFacts.

(** X27.  For a legend above or below the plot, whenever [draw()] returns:
    with alignment ["start"] the row begins at [x_begin]; with ["end"] it
    begins at [x_end] less the summed spacings, so the offset after the last
    entry is [x_end] itself; with ["center"] the middle of the row lies one
    [PADDING] to the right of [x_center]. *)
Theorem aligned_legend_row_ends :
  forall (measureText : string -> Q) (axisColour PURPLE : string)
         (l : LegendManager.t) (w w' : World) (first final : Q * Q),
    LegendManager.position l = LegendManager.Pos.TOP \/
    LegendManager.position l = LegendManager.Pos.BOTTOM ->
    LegendManager.draw measureText axisColour PURPLE l w
    = (w', Returned (Some (first, final))) ->
    let total :=
      Arrays.sum (LegendManager.requiredSpaces measureText l
                    LegendManager.Horizontal) in
    let lengths := BasicGraph.lengths (LegendManager.graph l) in
    (LegendManager.alignment l = "start" ->
     fst first = BasicGraph.x_begin lengths /\
     (fst final == BasicGraph.x_begin lengths + total)%Q) /\
    (LegendManager.alignment l = "center" ->
     (fst first + total / 2 == BasicGraph.x_center lengths + LegendManager.PADDING)%Q /\
     (fst final - total / 2 == BasicGraph.x_center lengths + LegendManager.PADDING)%Q) /\
    (LegendManager.alignment l = "end" ->
     (fst first == BasicGraph.x_end lengths - total)%Q /\
     (fst final == BasicGraph.x_end lengths)%Q).
Proof.
  intros measureText axisColour PURPLE l w w' first final Hpos Hdraw total lengths.
  destruct (LegendAlignFacts.placement_row l Hpos) as [yBegin Hpl].
  unfold LegendManager.draw in Hdraw. rewrite Hpl in Hdraw.
  remember (LegendManager.aligned measureText l LegendManager.Horizontal
              (BasicGraph.x_begin (BasicGraph.lengths (LegendManager.graph l)))
              yBegin) as al eqn:Hal.
  unfold bind in Hdraw.
  destruct (LegendManager.debugBoundary _ _ _ _ _ _ w) as [w2 [[] | e]];
    [| discriminate].
  destruct (LegendManager.drawEntries _ _ _ _ _ _ _ w2) as [w3 [fin | e]] eqn:Hrun;
    [| discriminate].
  unfold ret in Hdraw. injection Hdraw as _ <- <-.
  apply LegendFacts.drawEntries_horizontal in Hrun;
    [| unfold LegendManager.requiredSpaces; now rewrite LegendFacts.mapi_length].
  destruct Hrun as [Hx _]. fold total in Hx.
  destruct (LegendAlignFacts.aligned_row measureText l
              (BasicGraph.x_begin (BasicGraph.lengths (LegendManager.graph l)))
              yBegin) as [Hs [Hc He]].
  fold total in Hc, He. fold lengths in Hs, Hc, He, Hal.
  split; [| split]; intros Ha.
  - rewrite (Hs Ha) in Hal. subst al. cbn [fst] in *.
    split; [reflexivity | exact Hx].
  - rewrite (Hc Ha) in Hal. subst al. cbn [fst] in *.
    split; [field | rewrite Hx; field].
  - rewrite (He Ha) in Hal. subst al. cbn [fst] in *.
    split; [reflexivity | rewrite Hx; ring].
Qed.

Lemma aligned_legend_row_ends_witness :
  (LegendManager.position Sample.legend = LegendManager.Pos.TOP \/
   LegendManager.position Sample.legend = LegendManager.Pos.BOTTOM) /\
  LegendManager.alignment Sample.legend = "start" /\
  snd (LegendManager.draw Sample.measureText "grey" "purple" Sample.legend
         (Sample.world false))
  = Returned (Some ((20, 8)%Q, (20 + 47 + 46, 8)%Q)) /\
  (fst (20 + 47 + 46, 8)
   == BasicGraph.x_begin (BasicGraph.lengths (LegendManager.graph Sample.legend))
      + Arrays.sum (LegendManager.requiredSpaces Sample.measureText Sample.legend
                      LegendManager.Horizontal))%Q.
Proof.
  assert (Hpos : LegendManager.position Sample.legend = LegendManager.Pos.TOP \/
                 LegendManager.position Sample.legend = LegendManager.Pos.BOTTOM)
    by (left; reflexivity).
  assert (Hdraw : LegendManager.draw Sample.measureText "grey" "purple"
                    Sample.legend (Sample.world false)
                  = (Sample.drawnLegendWorld,
                     Returned (Some ((20, 8)%Q, (20 + 47 + 46, 8)%Q))))
    by (vm_compute; reflexivity).
  destruct (@aligned_legend_row_ends Sample.measureText "grey" "purple"
              Sample.legend (Sample.world false) Sample.drawnLegendWorld
              (20, 8)%Q (20 + 47 + 46, 8)%Q Hpos Hdraw) as [Hstart _].
  destruct (Hstart eq_refl) as [_ Hfinal].
  split; [exact Hpos |]. split; [reflexivity |].
  split; [rewrite Hdraw; reflexivity | exact Hfinal].
Defined.

(** X28. With [bypassOutOfBoundsDrawing] on no primitive of the drawer ever
    raises, whatever the coordinates: the call returns, the canvas calls of
    the primitive are all issued, the configuration is untouched, and the
    console receives exactly one warning, starting with "Assertion failed: ",
    for each check that fails (the x check, the y check and, for a line, the
    check of its far end). *)
Theorem bypass_never_raises :
  forall (d : Drawer.t) (p : Drawer.Primitive) (x y : Q) (w : World),
    bypassOutOfBoundsDrawing (config w) = true ->
    exists w' warnings,
      Drawer.draw d p x y w = (w', Returned tt) /\
      console w' = console w ++ warnings /\
      List.length warnings = Drawer.failedChecks d p x y /\
      Forall (fun message => String.prefix "Assertion failed: " message = true)
        warnings /\
      calls (ctx w') = calls (ctx w) ++ Drawer.callsOf p x y /\
      config w' = config w.
Proof.
  intros d p x y [[bypass] con c] Hb. cbn [config bypassOutOfBoundsDrawing] in Hb.
  subst bypass. unfold Drawer.failedChecks.
  destruct p as [rad | len | len | s size colour alignment];
    unfold Drawer.draw, Drawer.circle, Drawer.horizontalLine,
      Drawer.verticalLine, Drawer.text, Drawer._coordinateSafetyCheck,
      Drawer.toTextMode, Drawer.setStrokeStyle, call, modifyCtx, getCtx,
      Assert.assert, bind, getConfig, console_warn, warned, throw, ret;
    cbn [Drawer.endCheck config console ctx bypassOutOfBoundsDrawing];
    destruct (Drawer.inRange x 0 (width (Drawer.canvas d)));
    destruct (Drawer.inRange y 0 (height (Drawer.canvas d)));
    cbn [negb config console ctx bypassOutOfBoundsDrawing];
    try (destruct (Drawer.inRange (x + len) 0 (width (Drawer.canvas d)));
         cbn [negb config console ctx bypassOutOfBoundsDrawing]);
    try (destruct (Drawer.inRange (y + len) 0 (width (Drawer.canvas d)));
         cbn [negb config console ctx bypassOutOfBoundsDrawing]);
    eexists; eexists;
    (split; [reflexivity |]);
    cbn [config console ctx calls Drawer.callsOf];
    rewrite <- ?app_assoc; cbn [app];
    (split; [first [ reflexivity | symmetry; apply app_nil_r ] |]);
    (split; [reflexivity |]);
    (split; [repeat constructor |]);
    (split; reflexivity).
Qed.

Lemma bypass_never_raises_witness :
  let tall := {| Drawer.canvas := {| width := 50; height := 100 |};
                 Drawer.labelFont := "monospace" |} in
  bypassOutOfBoundsDrawing (config (Sample.world true)) = true /\
  Drawer.failedChecks tall (Drawer.VerticalLine 80) (-5) 0 = 2%nat /\
  exists w' warnings,
    Drawer.draw tall (Drawer.VerticalLine 80) (-5) 0 (Sample.world true)
    = (w', Returned tt) /\
    console w' = console (Sample.world true) ++ warnings /\
    List.length warnings = 2%nat /\
    calls (ctx w')
    = calls (ctx (Sample.world true))
      ++ [BeginPath; MoveTo (-5) 0; LineTo (-5) (0 + 80); Stroke; ClosePath].
Proof.
  intros tall.
  split; [reflexivity |]. split; [reflexivity |].
  destruct (@bypass_never_raises tall (Drawer.VerticalLine 80) (-5)%Q 0%Q
              (Sample.world true) eq_refl)
    as (w' & warnings & Hrun & Hcon & Hlen & _ & Hcalls & _).
  exists w', warnings.
  split; [exact Hrun |]. split; [exact Hcon |].
  split; [exact Hlen |]. exact Hcalls.
Defined.
